(** * Verification of the transaction-to-receipt reconciliation engine

    Shallow embedding of [transaction_matcher.py] and of the parsing helpers
    of [utils.py]:

    - Python [float] is IEEE-754 binary64, modelled by Rocq's primitive
      floats ([PrimFloat]), whose operations are the same machine operations;
    - Python [int] is [Z]; a date normalised to midnight is the number of
      its day, so that [(d1 - d2).days] is a subtraction on [Z];
    - Python [str] is [string] (ASCII text), with [strip], [upper], [in],
      [startswith], slicing and comparison written out;
    - a [dict] used as a map is a [gmap]; a [dict] whose iteration order is
      observed is an insertion-ordered association list; a [set] is a [gset];
    - a raised exception is the [Raise] case of the result type [exn_or]. *)

From Stdlib Require Import ZArith Floats Ascii String.
From stdpp Require Import gmap strings list sorting.

Set Warnings "-inexact-float".
Local Open Scope Z_scope.

(** ** Python strings *)

Module PyStr.

(** Characters that [str.strip()] removes, in the ASCII range. *)
Definition is_space (c : ascii) : bool :=
  let n := nat_of_ascii c in
  ((9 <=? n)%nat && (n <=? 13)%nat) || ((28 <=? n)%nat && (n <=? 32)%nat).

Fixpoint lstrip (s : string) : string :=
  match s with
  | String c s' => if is_space c then lstrip s' else s
  | EmptyString => EmptyString
  end.

Definition rstrip (s : string) : string := String.rev (lstrip (String.rev s)).

(** [s.strip()] *)
Definition strip (s : string) : string := rstrip (lstrip s).

Definition upper_char (c : ascii) : ascii :=
  let n := nat_of_ascii c in
  if ((97 <=? n)%nat && (n <=? 122)%nat)%bool then ascii_of_nat (n - 32) else c.

(** [s.upper()] *)
Fixpoint upper (s : string) : string :=
  match s with
  | String c s' => String (upper_char c) (upper s')
  | EmptyString => EmptyString
  end.

(** [s.startswith(p)] *)
Definition startswith (s p : string) : bool := String.prefix p s.

(** [s.endswith(p)] *)
Definition endswith (s p : string) : bool :=
  String.prefix (String.rev p) (String.rev s).

(** [p in s] *)
Fixpoint contains (p s : string) : bool :=
  String.prefix p s ||
  match s with
  | String _ s' => contains p s'
  | EmptyString => false
  end.

(** [s[:n]] *)
Fixpoint take (n : nat) (s : string) : string :=
  match n, s with
  | S n', String c s' => String c (take n' s')
  | _, _ => EmptyString
  end.

(** [s[1:]] *)
Definition drop1 (s : string) : string :=
  match s with String _ s' => s' | EmptyString => EmptyString end.

(** [s[1:-1]] *)
Definition strip_ends (s : string) : string :=
  String.rev (drop1 (String.rev (drop1 s))).

(** [s.replace(c, '')] for a one-character [c] *)
Fixpoint remove_char (c : ascii) (s : string) : string :=
  match s with
  | String d s' =>
      if Ascii.eqb c d then remove_char c s' else String d (remove_char c s')
  | EmptyString => EmptyString
  end.

(** [not s] *)
Definition is_empty (s : string) : bool :=
  match s with EmptyString => true | _ => false end.

(** [s1 < s2] and [s1 <= s2]: lexicographic on code points. *)
Definition lt (s1 s2 : string) : bool := String.ltb s1 s2.
Definition le (s1 s2 : string) : bool := String.leb s1 s2.

End PyStr.

(** ** Python floats *)

Module PyFloat.

(** [x < y], [x <= y], [x == y], [x > y] on Python floats. *)
Definition lt (x y : float) : bool := PrimFloat.ltb x y.
Definition le (x y : float) : bool := PrimFloat.leb x y.
Definition eq (x y : float) : bool := PrimFloat.eqb x y.
Definition gt (x y : float) : bool := PrimFloat.ltb y x.

(** [abs(x)], [x - y] and [-x]. *)
Definition fabs (x : float) : float := PrimFloat.abs x.
Definition fsub (x y : float) : float := PrimFloat.sub x y.
Definition fneg (x : float) : float := PrimFloat.opp x.

(** Truthiness of a float: [not x] holds exactly for [0.0] and [-0.0]. *)
Definition truthy (x : float) : bool := negb (PrimFloat.eqb x 0%float).

End PyFloat.

(** ** Exceptions *)

Inductive exn : Type := ValueError | IndexError.

(** The outcome of a Python call: a value, or a raised exception. *)
Inductive exn_or (A : Type) : Type :=
  | Ret (a : A)
  | Raise (e : exn).
Arguments Ret {A} a.
Arguments Raise {A} e.

#[export] Instance exn_or_ret : MRet exn_or := fun A a => Ret a.
#[export] Instance exn_or_bind : MBind exn_or := fun A B f m =>
  match m with Ret a => f a | Raise e => Raise e end.

(** [try: body  except ValueError: handler] *)
Definition try_except_ValueError {A} (body : exn_or A) (handler : exn_or A)
    : exn_or A :=
  match body with
  | Raise ValueError => handler
  | r => r
  end.

(** The value of an outcome, [d] when it raised. *)
Definition ret_or {A} (d : A) (r : exn_or A) : A :=
  match r with Ret a => a | Raise _ => d end.

(** The two library calls of the parsers. [py_float s] is [float(s)];
    [py_strptime s fmt] is [datetime.strptime(s, fmt)] normalised to
    midnight, as a day number. On a [str] argument both raise nothing but
    [ValueError]. *)
Class PyBuiltins := {
  py_float : string -> exn_or float;
  py_strptime : string -> string -> exn_or Z;
  py_float_raises : forall s e, py_float s = Raise e -> e = ValueError;
  py_strptime_raises :
    forall s fmt e, py_strptime s fmt = Raise e -> e = ValueError
}.

(** ** Parsing helpers (utils.py, lines 275-339; transaction_matcher.py, 365-372) *)

Section Parsing.
Context {B : PyBuiltins}.

(** [parse_amount(amount_value)]: accounting parentheses and a leading minus
    make the amount negative; currency signs and commas are dropped. *)
Definition parse_amount (amount_value : option string) : exn_or float :=
  match amount_value with
  | None => Ret 0%float
  | Some v =>
      let amount_str := PyStr.strip v in
      let '(is_negative, amount_str) :=
        if PyStr.startswith amount_str "(" && PyStr.endswith amount_str ")"
        then (true, PyStr.strip_ends amount_str)
        else if PyStr.startswith amount_str "-"
        then (true, PyStr.drop1 amount_str)
        else (false, amount_str) in
      let amount_str :=
        PyStr.strip (PyStr.remove_char "," (PyStr.remove_char "$" amount_str)) in
      if PyStr.is_empty amount_str then Ret 0%float
      else
        try_except_ValueError
          (amount ← py_float amount_str;
           Ret (if is_negative then PyFloat.fneg amount else amount))
          (Ret 0%float)
  end.

Definition parse_date_formats : list string :=
  ["%Y-%m-%d"; "%m/%d/%Y"; "%m-%d-%Y"; "%Y/%m/%d"; "%d/%m/%Y"]%string.

(** The [for fmt in formats] loop of [parse_date]: the first format that
    parses wins, a [ValueError] moves on to the next one. *)
Fixpoint parse_date_loop (date_str : string) (formats : list string)
    : exn_or (option Z) :=
  match formats with
  | [] => Ret None
  | fmt :: rest =>
      try_except_ValueError
        (dt ← py_strptime (PyStr.strip date_str) fmt; Ret (Some dt))
        (parse_date_loop date_str rest)
  end.

Definition parse_date (date_str : option string) : exn_or (option Z) :=
  match date_str with
  | None => Ret None
  | Some s =>
      if PyStr.is_empty s then Ret None
      else parse_date_loop s parse_date_formats
  end.

(** [_safe_float(value)], which reads [shipment_total] from a sheet cell. *)
Definition _safe_float (value : string) : exn_or float :=
  if PyStr.is_empty value then Ret 0%float
  else
    try_except_ValueError
      (py_float (PyStr.remove_char "," (PyStr.remove_char "$" value)))
      (Ret 0%float).

End Parsing.

(** ** Confidence scoring (transaction_matcher.py, lines 119-125, 603-638) *)

Definition DATE_MATCHING_WINDOW_DAYS : Z := 30.
Definition AMOUNT_MATCHING_TOLERANCE : float := 3.0%float.
Definition CONFIDENCE_THRESHOLD_HIGH : Z := 60.
Definition CONFIDENCE_THRESHOLD_LOW : Z := 40.

(** The part of [calculate_confidence_score] after the amount branch:
    [score] holds the amount component. *)
Definition date_and_bonus (score : Z) (date_diff_days : Z) : Z :=
  let date_score := Z.max 0 (20 - date_diff_days * 3) in
  let score := score + date_score in
  let score := if date_diff_days =? 0 then score + 10 else score in
  Z.min score 100.

Definition calculate_confidence_score
    (trans_amount order_total : float) (date_diff_days : Z) : Z :=
  let amount_diff := PyFloat.fabs (PyFloat.fsub trans_amount order_total) in
  if PyFloat.lt amount_diff 0.01%float then date_and_bonus 50 date_diff_days
  else if PyFloat.le amount_diff 1.0%float then date_and_bonus 30 date_diff_days
  else if PyFloat.le amount_diff AMOUNT_MATCHING_TOLERANCE
       then date_and_bonus 20 date_diff_days
  else 0.

(** ** Data model *)

(** A ledger row as [load_transactions] builds it. *)
Record transaction : Type := Transaction {
  _row_number : Z;
  Date : string;
  Description : string;
  Category : string;
  Amount : string;
  Account : string;
  _has_hint : bool;
  _date_added : string
}.

(** A parsed-order record as [load_parsed_orders] builds it. *)
Record order : Type := Order {
  email_id : string;
  email_date : string;
  email_type : string;
  order_number : string;
  shipment_total : float;
  item_name : string;
  item_price : float;
  item_qty : Z;
  parse_status : string;
  processed_at : string;
  _parsed_date : option Z
}.

(** An entry of [all_matches]: [(score, row_num, email_id, items)]. *)
Record candidate : Type := Candidate {
  c_score : Z;
  c_row : Z;
  c_email : string;
  c_items : list order
}.

(** A value of the result dictionary: [(items, confidence, status)]. *)
Abbreviation match_result := (option (list order) * Z * string)%type.

(** ** Python's stable [list.sort] *)

(** [before x y] says that [x] need not move behind [y]: [key x <= key y]
    for an ascending sort, [key x >= key y] with [reverse=True]. An
    insertion sort that never swaps such a pair is stable, and the stable
    sort of a list is unique. *)
Fixpoint insert_by {A} (before : A -> A -> bool) (x : A) (l : list A) : list A :=
  match l with
  | [] => [x]
  | y :: l' => if before x y then x :: l else y :: insert_by before x l'
  end.

Definition py_sort {A} (before : A -> A -> bool) (l : list A) : list A :=
  foldr (insert_by before) [] l.

(** ** An insertion-ordered [defaultdict(list)] *)

Fixpoint group_append {K V} `{EqDecision K} (k : K) (v : V)
    (groups : list (K * list V)) : list (K * list V) :=
  match groups with
  | [] => [(k, [v])]
  | (k', vs) :: rest =>
      if decide (k' = k) then (k', vs ++ [v]) :: rest
      else (k', vs) :: group_append k v rest
  end.

(** ** Global matching (transaction_matcher.py, lines 641-760) *)

(** [emails_by_type[email_type].append(order)] over all orders with a type
    and an email id. *)
Definition emails_by_type (parsed_orders : list order) : gmap string (list order) :=
  foldl
    (fun (m : gmap string (list order)) o =>
       if negb (PyStr.is_empty (email_type o)) && negb (PyStr.is_empty (email_id o))
       then <[email_type o := default [] (m !! email_type o) ++ [o]]> m
       else m)
    ∅ parsed_orders.

(** [orders_by_email[email_id].append(order)] over all orders with an id. *)
Definition orders_by_email (parsed_orders : list order) : gmap string (list order) :=
  foldl
    (fun (m : gmap string (list order)) o =>
       if negb (PyStr.is_empty (email_id o))
       then <[email_id o := default [] (m !! email_id o) ++ [o]]> m
       else m)
    ∅ parsed_orders.

(** One turn of the inner loop of phase 1, on the state
    [(seen_emails, all_matches)]. *)
Definition scan_order (by_email : gmap string (list order))
    (row_num trans_date : Z) (trans_amount : float)
    (st : gset string * list candidate) (o : order)
    : gset string * list candidate :=
  let '(seen_emails, all_matches) := st in
  let eid := email_id o in
  if decide (eid ∈ seen_emails) then st
  else
    let seen_emails := seen_emails ∪ {[eid]} in
    match _parsed_date o with
    | None => (seen_emails, all_matches)
    | Some order_date =>
        let date_diff := Z.abs (trans_date - order_date) in
        if date_diff >? DATE_MATCHING_WINDOW_DAYS then (seen_emails, all_matches)
        else
          let email_items := default [] (by_email !! eid) in
          match email_items with
          | [] => (seen_emails, all_matches)
          | first :: _ =>
              let total := shipment_total first in
              if negb (PyFloat.truthy total) then (seen_emails, all_matches)
              else
                let score :=
                  calculate_confidence_score trans_amount total date_diff in
                if score >? 0
                then (seen_emails,
                      all_matches ++ [Candidate score row_num eid email_items])
                else (seen_emails, all_matches)
          end
    end.

(** The email types a transaction searches: returns for a credit, shipments
    and then orders for a charge. *)
Definition email_types_for (trans_amount_raw : float) : list string :=
  if PyFloat.gt trans_amount_raw 0%float then ["return"]%string
  else ["shipment"; "order"]%string.

Section Matching.
Context {B : PyBuiltins}.

(** The body of the phase 1 loop: [all_matches] after one transaction. *)
Definition score_transaction (by_type by_email : gmap string (list order))
    (all_matches : list candidate) (trans : transaction)
    : exn_or (list candidate) :=
  let row_num := _row_number trans in
  trans_date ← parse_date (Some (Date trans));
  trans_amount_raw ← parse_amount (Some (Amount trans));
  let trans_amount := PyFloat.fabs trans_amount_raw in
  match trans_date with
  | None => Ret all_matches
  | Some trans_date =>
      if PyFloat.eq trans_amount 0%float then Ret all_matches
      else
        Ret (snd
          (foldl
             (fun st email_type =>
                foldl (scan_order by_email row_num trans_date trans_amount) st
                      (default [] (by_type !! email_type)))
             (∅, all_matches) (email_types_for trans_amount_raw)))
  end.

Fixpoint score_all (by_type by_email : gmap string (list order))
    (all_matches : list candidate) (transactions : list transaction)
    : exn_or (list candidate) :=
  match transactions with
  | [] => Ret all_matches
  | trans :: rest =>
      all_matches ← score_transaction by_type by_email all_matches trans;
      score_all by_type by_email all_matches rest
  end.

End Matching.

(** The state of the assignment loop of phase 2. *)
Record assignment : Type := Assignment {
  used_emails : gset string;
  used_transactions : gset Z;
  match_results : gmap Z match_result
}.

Definition assign_step (st : assignment) (c : candidate) : assignment :=
  if decide (c_row c ∈ used_transactions st ∨ c_email c ∈ used_emails st) then st
  else
    let claim status :=
      Assignment (used_emails st ∪ {[c_email c]})
                 (used_transactions st ∪ {[c_row c]})
                 (<[c_row c := (Some (c_items c), c_score c, status)]>
                    (match_results st)) in
    if c_score c >=? CONFIDENCE_THRESHOLD_HIGH then claim "matched"%string
    else if c_score c >=? CONFIDENCE_THRESHOLD_LOW then claim "low_confidence"%string
    else st.

(** [all_matches.sort(key=lambda x: x[0], reverse=True)] *)
Definition sort_matches (all_matches : list candidate) : list candidate :=
  py_sort (fun c1 c2 => c_score c1 >=? c_score c2) all_matches.

(** Phase 2: the greedy walk over the sorted candidates. *)
Definition assign_greedily (all_matches : list candidate) : assignment :=
  foldl assign_step (Assignment ∅ ∅ ∅) (sort_matches all_matches).

(** Phase 3: every transaction without a result is unmatched. *)
Definition mark_unmatched (results : gmap Z match_result)
    (transactions : list transaction) : gmap Z match_result :=
  foldl
    (fun (m : gmap Z match_result) trans =>
       match m !! _row_number trans with
       | Some _ => m
       | None => <[_row_number trans := (None, 0, "unmatched"%string)]> m
       end)
    results transactions.

Definition match_all_transactions_optimally {B : PyBuiltins}
    (transactions : list transaction) (parsed_orders : list order)
    : exn_or (gmap Z match_result) :=
  let by_type := emails_by_type parsed_orders in
  let by_email := orders_by_email parsed_orders in
  all_matches ← score_all by_type by_email [] transactions;
  let st := assign_greedily all_matches in
  Ret (mark_unmatched (match_results st) transactions).

(** ** Single-transaction matching (transaction_matcher.py, lines 489-600) *)

(** [best_match], [best_score], [best_items] *)
Record best : Type := Best {
  best_match : option string;
  best_score : Z;
  best_items : list order
}.

(** The orders of one email type inside the date window, each with its
    date difference. *)
Definition window_candidates (trans_date : Z) (target_type : string)
    (parsed_orders : list order) : list (order * Z) :=
  foldl
    (fun acc o =>
       if negb (String.eqb (email_type o) target_type) then acc
       else match _parsed_date o with
            | None => acc
            | Some order_date =>
                let date_diff := Z.abs (trans_date - order_date) in
                if date_diff >? DATE_MATCHING_WINDOW_DAYS then acc
                else acc ++ [(o, date_diff)]
            end)
    [] parsed_orders.

(** [min(o[1] for o in order_items)], 0 standing for the [ValueError] of an
    empty sequence, which a group never is. *)
Definition min_date_diff (order_items : list (order * Z)) : Z :=
  match order_items with
  | [] => 0
  | (_, d) :: rest => foldl (fun m od => Z.min m (snd od)) d rest
  end.

(** One turn of the loop over [orders_by_email.items()]. *)
Definition score_shipment (used_email_ids : gset string) (trans_amount : float)
    (b : best) (group : string * list (order * Z)) : best :=
  let '(eid, order_items) := group in
  if decide (eid ∈ used_email_ids) then b
  else
    match order_items with
    | [] => b
    | (first, _) :: _ =>
        let total := shipment_total first in
        if negb (PyFloat.truthy total) then b
        else
          let score :=
            calculate_confidence_score trans_amount total
                                       (min_date_diff order_items) in
          if score >? best_score b
          then Best (Some eid) score (map fst order_items)
          else b
    end.

(** The loop over [email_type_priority], with its [continue] on an empty
    window and its [break] once the best score is high. *)
Fixpoint match_by_type (used_email_ids : gset string) (trans_date : Z)
    (trans_amount : float) (parsed_orders : list order)
    (email_type_priority : list string) (b : best) : best :=
  match email_type_priority with
  | [] => b
  | target_type :: rest =>
      let candidates := window_candidates trans_date target_type parsed_orders in
      match candidates with
      | [] => match_by_type used_email_ids trans_date trans_amount
                            parsed_orders rest b
      | _ =>
          let groups :=
            foldl (fun g od => group_append (email_id (fst od)) od g) [] candidates in
          let b := foldl (score_shipment used_email_ids trans_amount) b groups in
          if best_score b >=? CONFIDENCE_THRESHOLD_HIGH then b
          else match_by_type used_email_ids trans_date trans_amount
                             parsed_orders rest b
      end
  end.

(** The returned tuple is
    [(matched_items, confidence_score, match_status, matched_email_id)]. *)
Definition match_transaction {B : PyBuiltins} (trans : transaction)
    (parsed_orders : list order) (used_email_ids : gset string)
    : exn_or (option (list order) * Z * string * option string) :=
  trans_date ← parse_date (Some (Date trans));
  trans_amount_raw ← parse_amount (Some (Amount trans));
  let trans_amount := PyFloat.fabs trans_amount_raw in
  match trans_date with
  | None => Ret (None, 0, "unmatched"%string, None)
  | Some trans_date =>
      if PyFloat.eq trans_amount 0%float
      then Ret (None, 0, "unmatched"%string, None)
      else
        let b :=
          match_by_type used_email_ids trans_date trans_amount parsed_orders
                        (email_types_for trans_amount_raw) (Best None 0 []) in
        match best_match b with
        | None => Ret (None, 0, "unmatched"%string, None)
        | Some eid =>
            if best_score b >=? CONFIDENCE_THRESHOLD_HIGH
            then Ret (Some (best_items b), best_score b, "matched"%string, Some eid)
            else if best_score b >=? CONFIDENCE_THRESHOLD_LOW
            then Ret (Some (best_items b), best_score b,
                      "low_confidence"%string, Some eid)
            else Ret (Some (best_items b), best_score b,
                      "unmatched"%string, None)
        end
  end.

(** ** Ledger deduplication (transaction_matcher.py, lines 62-65, 233-271) *)

Definition DEDUP_DESC_PREFIX_LEN : nat := 20.

(** The key under which [_dedup_plaid_transactions] files a row. *)
Definition dedup_key (trans : transaction) : string * string * string * string :=
  let desc_prefix :=
    PyStr.upper (PyStr.strip (PyStr.take DEDUP_DESC_PREFIX_LEN (Description trans))) in
  (PyStr.strip (Date trans), PyStr.strip (Amount trans),
   PyStr.strip (Account trans), desc_prefix).

(** [(h1, d1) < (h2, d2)] on the sort keys [(_has_hint, _date_added)]:
    the first differing component decides, [False < True]. *)
Definition hint_key_lt (k1 k2 : bool * string) : bool :=
  if Bool.eqb (fst k1) (fst k2) then PyStr.lt (snd k1) (snd k2)
  else negb (fst k1) && fst k2.

Definition hint_key (t : transaction) : bool * string :=
  (_has_hint t, _date_added t).

(** [rows.sort(key=...)] leaves [x] before [y] unless [key y < key x]. *)
Definition before_by_key {A K} (key : A -> K) (lt : K -> K -> bool)
    (x y : A) : bool :=
  negb (lt (key y) (key x)).

(** The body of the loop over [groups.items()]. *)
Definition pick_best (deduped : list transaction)
    (group : (string * string * string * string) * list transaction)
    : exn_or (list transaction) :=
  let rows := snd group in
  match rows with
  | [only] => Ret (deduped ++ [only])
  | _ =>
      let rows := py_sort (before_by_key hint_key hint_key_lt) rows in
      match last rows with
      | Some best => Ret (deduped ++ [best])
      | None => Raise IndexError
      end
  end.

Fixpoint pick_all (deduped : list transaction)
    (groups : list ((string * string * string * string) * list transaction))
    : exn_or (list transaction) :=
  match groups with
  | [] => Ret deduped
  | g :: rest => deduped ← pick_best deduped g; pick_all deduped rest
  end.

Definition group_transactions (transactions : list transaction)
    : list ((string * string * string * string) * list transaction) :=
  foldl (fun groups trans => group_append (dedup_key trans) trans groups)
        [] transactions.

Definition _dedup_plaid_transactions (transactions : list transaction)
    : exn_or (list transaction) :=
  let groups := group_transactions transactions in
  deduped ← pick_all [] groups;
  Ret (py_sort (before_by_key _row_number Z.ltb) deduped).

(** ** Known patterns and output rows
       (transaction_matcher.py, lines 72-117, 417-440, 883-971) *)

(** [(pattern, exact_match, clean_name)], most specific first. *)
Definition AMAZON_KNOWN_PATTERNS : list (string * bool * string) :=
  [("Amazon Prime*", false, "Amazon Prime - Movie Rental");
   ("Amazon Prime", true, "Amazon Prime - Subscription");
   ("Amazon Kids", false, "Amazon Kids - Movie Rental");
   ("Amazon Tips", false, "Amazon - Grocery Tips");
   ("Amzn Digital", false, "Amazon Digital - Movie Rental");
   ("AMZN Digital", false, "Amazon Digital - Movie Rental")]%string.

Fixpoint known_pattern_loop (desc_upper : string)
    (patterns : list (string * bool * string)) : option string :=
  match patterns with
  | [] => None
  | (pattern, exact_match, clean_name) :: rest =>
      let pattern_upper := PyStr.upper pattern in
      if exact_match
      then if String.eqb desc_upper pattern_upper then Some clean_name
           else known_pattern_loop desc_upper rest
      else if PyStr.contains pattern_upper desc_upper then Some clean_name
           else known_pattern_loop desc_upper rest
  end.

Definition get_known_amazon_pattern (description : string) : option string :=
  let desc := PyStr.strip description in
  let desc_upper := PyStr.upper desc in
  known_pattern_loop desc_upper AMAZON_KNOWN_PATTERNS.

Definition AMAZON_DESCRIPTION_PATTERNS : list string :=
  ["Amazon"; "AMZN"; "Amzn"]%string.

(** [filter_amazon_transactions], for the configured account name. *)
Definition filter_amazon_transactions (AMAZON_ACCOUNT : string)
    (transactions : list transaction) : list transaction :=
  foldl
    (fun amazon_transactions trans =>
       let account := PyStr.strip (Account trans) in
       let description := PyStr.strip (Description trans) in
       if negb (String.eqb (PyStr.upper account) (PyStr.upper AMAZON_ACCOUNT))
       then amazon_transactions
       else
         let desc_upper := PyStr.upper description in
         let is_amazon :=
           existsb (fun p => String.eqb desc_upper (PyStr.upper p)
                             || PyStr.startswith desc_upper (PyStr.upper p))
                   AMAZON_DESCRIPTION_PATTERNS in
         if is_amazon then amazon_transactions ++ [trans]
         else amazon_transactions)
    [] transactions.

(** A cell that holds an [int] or a [str]. *)
Inductive cell : Type := CInt (z : Z) | CStr (s : string).

Record output_row : Type := OutputRow {
  out_Date : string;
  out_Description : string;
  out_Category : string;
  out_Amount : string;
  out_Account : string;
  amazon_order_id : string;
  match_confidence : cell;
  match_status : string;
  source_row : Z;
  out_processed_at : string
}.

Section Output.
Context {B : PyBuiltins}.
(** [summarize_item_name] (the item-name summarizer) and the [:.2f] format
    of a price only fill the cells of matched rows; the rows of unmatched
    transactions do not depend on them. [processed_at] is the time of the
    run. *)
Variable summarize_item_name : string -> string.
Variable format_2f : float -> string.
Variable run_processed_at : string.

(** The rows of a matched transaction, one per named item. *)
Definition item_rows (trans : transaction) (items : list order)
    (confidence : Z) (status : string) (amount_sign : string)
    : list output_row :=
  foldl
    (fun output_rows item =>
       if PyStr.is_empty (item_name item) then output_rows
       else
         let short_name := summarize_item_name (item_name item) in
         output_rows ++
           [OutputRow (Date trans) short_name (Category trans)
                      (amount_sign +:+ "$" +:+ format_2f (item_price item))
                      (Account trans) (Description trans) (CInt confidence)
                      status (_row_number trans) run_processed_at])
    [] items.

(** [items and status in ('matched', 'low_confidence')] *)
Definition has_matched_items (items : option (list order)) (status : string)
    : bool :=
  match items with
  | Some (_ :: _) =>
      String.eqb status "matched" || String.eqb status "low_confidence"
  | _ => false
  end.

(** The body of the loop of [generate_output_rows]: the rows one
    transaction contributes. *)
Definition rows_of_transaction (amazon_row_numbers : gset Z)
    (results : gmap Z match_result) (trans : transaction)
    : exn_or (list output_row) :=
  let row_num := _row_number trans in
  match (if decide (row_num ∈ amazon_row_numbers) then results !! row_num
         else None) with
  | Some (items, confidence, status) =>
      if has_matched_items items status
      then
        original_amount ← parse_amount (Some (Amount trans));
        let amount_sign :=
          if PyFloat.lt original_amount 0%float then "-"%string else ""%string in
        Ret (item_rows trans (default [] items) confidence status amount_sign)
      else
        let original_desc := Description trans in
        let clean_name := get_known_amazon_pattern original_desc in
        match clean_name with
        | Some (String c name) =>
            Ret [OutputRow (Date trans) (String c name) (Category trans)
                           (Amount trans) (Account trans) "" (CInt confidence)
                           "known_pattern" row_num run_processed_at]
        | _ =>
            Ret [OutputRow (Date trans) (Description trans) (Category trans)
                           (Amount trans) (Account trans) "" (CInt confidence)
                           status row_num run_processed_at]
        end
  | None =>
      Ret [OutputRow (Date trans) (Description trans) (Category trans)
                     (Amount trans) (Account trans) "" (CStr "") ""
                     row_num run_processed_at]
  end.

Fixpoint emit_rows (amazon_row_numbers : gset Z)
    (results : gmap Z match_result) (output_rows : list output_row)
    (transactions : list transaction) : exn_or (list output_row) :=
  match transactions with
  | [] => Ret output_rows
  | trans :: rest =>
      rows ← rows_of_transaction amazon_row_numbers results trans;
      emit_rows amazon_row_numbers results (output_rows ++ rows) rest
  end.

Definition generate_output_rows (all_transactions amazon_transactions : list transaction)
    (results : gmap Z match_result) : exn_or (list output_row) :=
  let amazon_row_numbers : gset Z :=
    list_to_set (map _row_number amazon_transactions) in
  emit_rows amazon_row_numbers results [] all_transactions.

End Output.

(** ** Duplicate Amazon transactions (transaction_matcher.py, lines 465-483) *)

(** The key of [deduplicate_transactions]: stripped Date and stripped,
    upper-cased Description. *)
Definition date_description_key (trans : transaction) : string * string :=
  (PyStr.strip (Date trans), PyStr.upper (PyStr.strip (Description trans))).

(** One turn of the loop, on the state [(seen, unique)]. *)
Definition keep_if_unseen (st : gset (string * string) * list transaction)
    (trans : transaction) : gset (string * string) * list transaction :=
  let '(seen, unique) := st in
  let key := date_description_key trans in
  if decide (key ∈ seen) then st
  else (seen ∪ {[key]}, unique ++ [trans]).

Definition deduplicate_transactions (transactions : list transaction)
    : list transaction :=
  snd (foldl keep_if_unseen (∅, []) transactions).

(** ** Column letters (utils.py, lines 906-914) *)

(** The [while col_index > 0] loop; [fuel] bounds the number of turns. *)
Fixpoint column_letter_loop (fuel : nat) (col_index : Z) (result : string)
    : string :=
  match fuel with
  | O => result
  | S fuel =>
      if 0 <? col_index then
        let col_index := col_index - 1 in
        let result :=
          String (ascii_of_N (Z.to_N (65 + col_index mod 26))) result in
        let col_index := col_index / 26 in
        column_letter_loop fuel col_index result
      else result
  end.

(** A loop that starts at [col_index] takes at most [col_index] turns. *)
Definition column_index_to_letter (col_index : Z) : string :=
  let result := ""%string in
  let col_index := col_index + 1 in
  column_letter_loop (Z.to_nat col_index) col_index result.

(** ** Loading the ledger (transaction_matcher.py, lines 147-230) *)

(** [headers.index(col)], [None] when [col] is not a header. *)
Fixpoint header_index (col : string) (headers : list string) : option nat :=
  match headers with
  | [] => None
  | h :: rest =>
      if String.eqb h col then Some O else S <$> header_index col rest
  end.

(** [padded_row[idx]] under the guard
    [idx is not None and idx < len(padded_row)]. *)
Definition cell_at (idx : option nat) (padded_row : list string)
    : option string :=
  idx ≫= fun i => padded_row !! i.

(** The body of the loop over the rows of the sheet: the transaction of
    sheet row [i], or [None] when the row is skipped. *)
Definition load_row (SKIP_BLANK_CATEGORY_HINT : bool) (headers : list string)
    (i : Z) (row : list string) : option transaction :=
  let padded_row := row ++ replicate (length headers - length row) ""%string in
  let processed_idx := header_index "Processed_Flag" headers in
  let is_processed :=
    match cell_at processed_idx padded_row with
    | Some cell =>
        let flag := PyStr.upper (PyStr.strip cell) in
        String.eqb flag "TRUE" || String.eqb flag "1"
    | None => false
    end in
  if is_processed then None
  else
    let hint_idx := header_index "Category Hint" headers in
    let blank_hint :=
      SKIP_BLANK_CATEGORY_HINT &&
      match cell_at hint_idx padded_row with
      | Some cell => PyStr.is_empty (PyStr.strip cell)
      | None => false
      end in
    if blank_hint then None
    else
      let required col :=
        default ""%string (cell_at (header_index col headers) padded_row) in
      let has_hint :=
        match cell_at hint_idx padded_row with
        | Some cell => negb (PyStr.is_empty (PyStr.strip cell))
        | None => false
        end in
      let added_idx := header_index "Date Added" headers in
      let date_added :=
        match cell_at added_idx padded_row with
        | Some cell => PyStr.strip cell
        | None => ""%string
        end in
      Some (Transaction i (required "Date"%string)
              (required "Description"%string) (required "Category"%string)
              (required "Amount"%string) (required "Account"%string)
              has_hint date_added).

(** [for i, row in enumerate(values[1:], start=2)] *)
Fixpoint load_rows (SKIP_BLANK_CATEGORY_HINT : bool) (headers : list string)
    (i : Z) (rows : list (list string)) (transactions : list transaction)
    : list transaction :=
  match rows with
  | [] => transactions
  | row :: rest =>
      load_rows SKIP_BLANK_CATEGORY_HINT headers (i + 1) rest
        match load_row SKIP_BLANK_CATEGORY_HINT headers i row with
        | Some trans => transactions ++ [trans]
        | None => transactions
        end
  end.

(** [load_transactions], from the values the sheet holds; the list of
    transactions it returns. *)
Definition load_transactions (SKIP_BLANK_CATEGORY_HINT : bool)
    (values : list (list string)) : exn_or (list transaction) :=
  match values with
  | [] => Ret []
  | headers :: rows =>
      let transactions := load_rows SKIP_BLANK_CATEGORY_HINT headers 2 rows [] in
      _dedup_plaid_transactions transactions
  end.

(** ** Loading the parsed orders (transaction_matcher.py, lines 274-411) *)

Section Orders.
Context {B : PyBuiltins}.
(** [int(x)] on a float: the integer part, or an exception when [x] has
    none. *)
Variable py_int : float -> exn_or Z.

Definition order_date_formats : list string :=
  ["%Y-%m-%d %H:%M:%S"; "%Y-%m-%d"; "%m/%d/%Y %H:%M:%S"; "%m/%d/%Y"]%string.

(** [_parse_order_date(date_str)]: the loop over the formats is the loop of
    [parse_date], over the formats of the order sheet. *)
Definition _parse_order_date (date_str : string) : exn_or (option Z) :=
  if PyStr.is_empty date_str then Ret None
  else parse_date_loop date_str order_date_formats.

(** [_safe_int(value)] *)
Definition _safe_int (value : string) : exn_or Z :=
  if PyStr.is_empty value then Ret 1
  else try_except_ValueError (x ← py_float value; py_int x) (Ret 1).

(** The date filter: a parsed date before [min_date] or after [max_date]. *)
Definition outside_date_range (min_date max_date parsed_date : option Z)
    : bool :=
  match parsed_date with
  | Some d =>
      match min_date with Some m => d <? m | None => false end
      || match max_date with Some m => m <? d | None => false end
  | None => false
  end.

(** The body of the loop over the rows: the record of a row, or [None]
    when the row is skipped. [padded_row] has at least ten cells. *)
Definition load_order_row (min_date max_date : option Z) (row : list string)
    : exn_or (option order) :=
  match row with
  | [] => Ret None
  | _ =>
      let padded_row := row ++ replicate (10 - length row) ""%string in
      let cell i := nth i padded_row ""%string in
      let email_date_str := cell 1%nat in
      parsed_date ← _parse_order_date email_date_str;
      if outside_date_range min_date max_date parsed_date then Ret None
      else
        shipment_total ← _safe_float (cell 4%nat);
        item_price ← _safe_float (cell 6%nat);
        item_qty ← _safe_int (cell 7%nat);
        Ret (Some (Order (cell 0%nat) email_date_str (cell 2%nat) (cell 3%nat)
                         shipment_total (cell 5%nat) item_price item_qty
                         (cell 8%nat) (cell 9%nat) parsed_date))
  end.

Fixpoint load_order_rows (min_date max_date : option Z)
    (rows : list (list string)) (orders : list order) : exn_or (list order) :=
  match rows with
  | [] => Ret orders
  | row :: rest =>
      o ← load_order_row min_date max_date row;
      load_order_rows min_date max_date rest
        match o with Some o => orders ++ [o] | None => orders end
  end.

(** [load_parsed_orders], from the values the order sheet holds. *)
Definition load_parsed_orders (values : list (list string))
    (min_date max_date : option Z) : exn_or (list order) :=
  match values with
  | [] => Ret []
  | headers :: rows => load_order_rows min_date max_date rows []
  end.

End Orders.

(** ** The run (transaction_matcher.py, lines 1293-1393) *)

(** [[parse_date(t.get('Date')) for t in amazon_transactions]] without its
    [None] entries. *)
Fixpoint collect_dates {B : PyBuiltins} (transactions : list transaction)
    : exn_or (list Z) :=
  match transactions with
  | [] => Ret []
  | t :: rest =>
      d ← parse_date (Some (Date t));
      ds ← collect_dates rest;
      Ret (match d with Some d => d :: ds | None => ds end)
  end.

(** [min_trans_date] and [max_trans_date]. *)
Definition date_range (trans_dates : list Z) : option Z * option Z :=
  match trans_dates with
  | [] => (None, None)
  | d :: ds =>
      (Some (foldl Z.min d ds - (DATE_MATCHING_WINDOW_DAYS + 7)),
       Some (foldl Z.max d ds + (DATE_MATCHING_WINDOW_DAYS + 7)))
  end.

(** [matched_rows]: the row numbers whose status is 'matched'. They are
    listed in the order of the keys; the run only uses which rows they
    are. *)
Definition matched_rows (match_results : gmap Z match_result) : list Z :=
  (map_to_list
     (filter (fun kv : Z * match_result => kv.2.2 = "matched"%string)
             match_results)).*1.

(** What a run hands over: the rows given to [write_output], the
    [dev_mode] it is called with, and the row numbers given to
    [update_processed_flags]. *)
Record run : Type := Run {
  written : list output_row;
  overwrite : bool;
  flagged : list Z
}.

Section Main.
Context {B : PyBuiltins}.
Variable summarize_item_name : string -> string.
Variable format_2f : float -> string.
Variable run_processed_at : string.
Variable AMAZON_ACCOUNT : string.
Variable SKIP_BLANK_CATEGORY_HINT : bool.
Variable DEV_MODE : bool.
Variable py_int : float -> exn_or Z.

(** [main] from the loading of the ledger on, with the month and year
    filter off as configured; [values] is what the source sheet holds and
    [order_values] what the sheet of parsed orders holds. [None] is a run
    that returns before it writes. *)
Definition main (values order_values : list (list string))
    : exn_or (option run) :=
  all_transactions ← load_transactions SKIP_BLANK_CATEGORY_HINT values;
  match all_transactions with
  | [] => Ret None
  | _ =>
      let amazon_transactions :=
        filter_amazon_transactions AMAZON_ACCOUNT all_transactions in
      let amazon_transactions := deduplicate_transactions amazon_transactions in
      match amazon_transactions with
      | [] =>
          output_rows ← generate_output_rows summarize_item_name format_2f
                          run_processed_at all_transactions [] ∅;
          Ret (Some (Run output_rows true []))
      | _ =>
          trans_dates ← collect_dates amazon_transactions;
          let '(min_trans_date, max_trans_date) := date_range trans_dates in
          parsed_orders ←
            load_parsed_orders py_int order_values min_trans_date
              max_trans_date;
          match parsed_orders with
          | [] => Ret None
          | _ =>
              match_results ←
                match_all_transactions_optimally amazon_transactions
                  parsed_orders;
              output_rows ← generate_output_rows summarize_item_name format_2f
                              run_processed_at all_transactions
                              amazon_transactions match_results;
              Ret (Some (Run output_rows DEV_MODE
                           (if DEV_MODE then [] else matched_rows match_results)))
          end
      end
  end.

End Main.

(** ** Appending to the output (transaction_matcher.py, lines 1053-1061) *)

(** The rows [write_output] appends in production mode, given the source
    rows the output sheet already holds: a row is skipped when its
    [source_row] is not 0 and is one of them. *)
Definition new_rows (existing_source_rows : gset Z)
    (output_rows : list output_row) : list output_row :=
  foldl
    (fun new_rows row =>
       let source := source_row row in
       if negb (source =? 0) && bool_decide (source ∈ existing_source_rows)
       then new_rows
       else new_rows ++ [row])
    [] output_rows.

(** ** Flagging the processed rows (transaction_matcher.py, lines 1109-1159) *)

(** [for i in range(0, len(batch_data), chunk_size)] with
    [chunk = batch_data[i:i + chunk_size]]; [fuel] bounds the number of
    turns. *)
Fixpoint chunks_from {A} (fuel : nat) (chunk_size i : nat)
    (batch_data : list A) : list (list A) :=
  match fuel with
  | O => []
  | S fuel =>
      if (i <? length batch_data)%nat
      then take chunk_size (drop i batch_data)
             :: chunks_from fuel chunk_size (i + chunk_size) batch_data
      else []
  end.

(** What [update_processed_flags] sends: the cell it names
    'Processed_Flag' when the header is missing, and the bodies of its
    batch updates, each a list of [(range, value)]. *)
Record flag_updates : Type := FlagUpdates {
  header_cell : option string;
  batches : list (list (string * string))
}.

Section Flags.
(** The name of the source sheet, and [str] on a row number. *)
Variable SOURCE_SHEET_NAME : string.
Variable py_str : Z -> string.

Definition update_processed_flags (row_numbers : list Z)
    (headers : list string) : flag_updates :=
  match row_numbers with
  | [] => FlagUpdates None []
  | _ =>
      let '(processed_col_idx, header_cell) :=
        match header_index "Processed_Flag" headers with
        | Some idx => (idx, None)
        | None =>
            let processed_col_idx := length headers in
            let col_letter :=
              column_index_to_letter (Z.of_nat processed_col_idx) in
            (processed_col_idx,
             Some (SOURCE_SHEET_NAME +:+ "!" +:+ col_letter +:+ "1"))
        end in
      let col_letter := column_index_to_letter (Z.of_nat processed_col_idx) in
      let batch_data :=
        (fun row_num =>
           (SOURCE_SHEET_NAME +:+ "!" +:+ col_letter +:+ py_str row_num,
            "TRUE"%string)) <$> row_numbers in
      let chunk_size := 50%nat in
      FlagUpdates header_cell
        (chunks_from (length batch_data) chunk_size 0 batch_data)
  end.

End Flags.

(** * Vocabulary of the properties *)

(** The definitions below are not part of the program: they name what the
    theorems say about it, and give the concrete ledgers of the scenarios. *)

(** [amount_diff] of [calculate_confidence_score]. *)
Definition amount_diff (trans_amount order_total : float) : float :=
  PyFloat.fabs (PyFloat.fsub trans_amount order_total).

(** The score the specification gives for an amount component [A]:
    [min(A + max(0, 20 - 3*d) + B, 100)], with [B = 10] on the same day. *)
Definition spec_score (A d : Z) : Z :=
  Z.min (A + Z.max 0 (20 - 3 * d) + (if decide (d = 0) then 10 else 0)) 100.

(** The amount component as a function of the amount difference alone. *)
Definition amount_component (diff : float) : option Z :=
  if PyFloat.lt diff 0.01%float then Some 50
  else if PyFloat.le diff 1.0%float then Some 30
  else if PyFloat.le diff AMOUNT_MATCHING_TOLERANCE then Some 20
  else None.

(** The sign and the text that [parse_amount] hands to [float()]. *)
Definition amount_text (v : string) : bool * string :=
  let amount_str := PyStr.strip v in
  let '(is_negative, amount_str) :=
    if PyStr.startswith amount_str "(" && PyStr.endswith amount_str ")"
    then (true, PyStr.strip_ends amount_str)
    else if PyStr.startswith amount_str "-"
    then (true, PyStr.drop1 amount_str)
    else (false, amount_str) in
  (is_negative,
   PyStr.strip (PyStr.remove_char "," (PyStr.remove_char "$" amount_str))).

(** What phase 1 records about a candidate of the transaction in row
    [row_num] with absolute amount [trans_amount]: its items are the
    records filed under its email id, the first of them carries a total that
    is not zero, and the score was computed from that total and a date
    difference inside the window, and is positive. *)
Definition scored_by (by_email : gmap string (list order)) (row_num : Z)
    (trans_amount : float) (c : candidate) : Prop :=
  c_row c = row_num /\
  c_items c = default [] (by_email !! c_email c) /\
  exists first rest date_diff,
    c_items c = first :: rest /\
    PyFloat.truthy (shipment_total first) = true /\
    0 <= date_diff <= DATE_MATCHING_WINDOW_DAYS /\
    c_score c =
      calculate_confidence_score trans_amount (shipment_total first) date_diff /\
    0 < c_score c.

Section CandidateVocabulary.
Context {B : PyBuiltins}.

(** The candidates one transaction contributes, in discovery order. *)
Definition candidates_of (by_type by_email : gmap string (list order))
    (trans : transaction) : list candidate :=
  ret_or [] (score_transaction by_type by_email [] trans).

(** The absolute amount phase 1 scores a transaction with. *)
Definition trans_amount_of (trans : transaction) : float :=
  PyFloat.fabs (ret_or 0%float (parse_amount (Some (Amount trans)))).

(** A transaction that phase 1 skips: its date does not parse, or its
    amount is zero. *)
Definition skipped (trans : transaction) : Prop :=
  parse_date (Some (Date trans)) = Ret None \/
  exists x, parse_amount (Some (Amount trans)) = Ret x /\
            PyFloat.eq (PyFloat.fabs x) 0%float = true.

(** [all_matches] at the end of phase 1. *)
Definition all_candidates (transactions : list transaction)
    (parsed_orders : list order) : list candidate :=
  transactions ≫=
    candidates_of (emails_by_type parsed_orders) (orders_by_email parsed_orders).

End CandidateVocabulary.

(** The status of a candidate that is assigned. *)
Definition classify (score : Z) : string :=
  if score >=? CONFIDENCE_THRESHOLD_HIGH then "matched"%string
  else "low_confidence"%string.

(** The state after a candidate claimed its transaction and its email. *)
Definition claim (st : assignment) (c : candidate) : assignment :=
  Assignment (used_emails st ∪ {[c_email c]})
             (used_transactions st ∪ {[c_row c]})
             (<[c_row c := (Some (c_items c), c_score c, classify (c_score c))]>
                (match_results st)).

(** A candidate is free when neither its transaction nor its email has
    been claimed. *)
Definition free (st : assignment) (c : candidate) : Prop :=
  (c_row c ∉ used_transactions st) /\ (c_email c ∉ used_emails st).

(** A candidate whose items all carry its email id. *)
Definition items_of_email (c : candidate) : Prop :=
  forall o, o ∈ c_items c -> email_id o = c_email c.

(** The invariant of the assignment loop over the candidates [cs]
    processed so far. *)
Record assigned_from (cs : list candidate) (st : assignment) : Prop := {
  af_dom : forall r, is_Some (match_results st !! r) -> r ∈ used_transactions st;
  af_entry : forall r res, match_results st !! r = Some res ->
    exists c, c ∈ cs /\ c_row c = r /\ CONFIDENCE_THRESHOLD_LOW <= c_score c /\
      res = (Some (c_items c), c_score c, classify (c_score c));
  af_emails : forall r items s status o,
    match_results st !! r = Some (Some items, s, status) -> o ∈ items ->
    email_id o ∈ used_emails st;
  af_inj : forall r1 r2 items1 items2 s1 s2 status1 status2 o1 o2,
    r1 <> r2 ->
    match_results st !! r1 = Some (Some items1, s1, status1) ->
    match_results st !! r2 = Some (Some items2, s2, status2) ->
    o1 ∈ items1 -> o2 ∈ items2 -> email_id o1 <> email_id o2
}.


(** The best shipment of the single-transaction matcher, when there is
    one, starts with a record whose total is not zero. *)
Definition best_has_total (b : best) : Prop :=
  match best_match b with
  | None => True
  | Some _ =>
      exists first rest,
        best_items b = first :: rest /\
        PyFloat.truthy (shipment_total first) = true
  end.

(** [b] is a row of the group that no row of the group beats: none has a
    hint that [b] lacks, and none with the same hint has a greater
    [Date Added] text. *)
Definition is_best (rows : list transaction) (b : transaction) : Prop :=
  b ∈ rows /\
  forall x, x ∈ rows ->
    (_has_hint x = true -> _has_hint b = true) /\
    (_has_hint x = _has_hint b ->
     String.leb (_date_added x) (_date_added b) = true).

(** A group and the row chosen from it. *)
Definition chosen_from
    (g : (string * string * string * string) * list transaction)
    (b : transaction) : Prop :=
  is_best (snd g) b /\ dedup_key b = fst g.


(** [groups[k]], the empty list when the key is absent. *)
Fixpoint group_lookup {K V} `{EqDecision K} (k : K) (groups : list (K * list V))
    : list V :=
  match groups with
  | [] => []
  | (k', vs) :: rest => if decide (k' = k) then vs else group_lookup k rest
  end.

(** The rows one transaction contributes. *)
Definition rows_for {B : PyBuiltins} (summarize_item_name : string -> string)
    (format_2f : float -> string) (run_processed_at : string)
    (amazon_transactions : list transaction)
    (results : gmap Z match_result) (trans : transaction) : list output_row :=
  ret_or []
    (rows_of_transaction summarize_item_name format_2f run_processed_at
       (list_to_set (map _row_number amazon_transactions)) results trans).

(** [float()] and [strptime] on the texts the runs below use, with the
    values Python gives (a date is its proleptic Gregorian ordinal); every
    other text is rejected. *)
Definition demo_float (s : string) : exn_or float :=
  if String.eqb s "41.03" then Ret 41.03%float
  else if String.eqb s "50.00" then Ret 50%float
  else if String.eqb s "1.50" then Ret 1.5%float
  else if String.eqb s "0.00" then Ret 0%float
  else Raise ValueError.

Definition demo_strptime (s fmt : string) : exn_or Z :=
  if String.eqb fmt "%Y-%m-%d"
  then if String.eqb s "2024-03-10" then Ret 738955
       else if String.eqb s "2024-03-08" then Ret 738953
       else Raise ValueError
  else Raise ValueError.

Definition demo_builtins : PyBuiltins.
Proof.
  refine (Build_PyBuiltins demo_float demo_strptime _ _).
  - intros s e. unfold demo_float.
    repeat (destruct (String.eqb s _); [discriminate|]). by intros [= <-].
  - intros s fmt e. unfold demo_strptime.
    destruct (String.eqb fmt _); [|by intros [= <-]].
    repeat (destruct (String.eqb s _); [discriminate|]). by intros [= <-].
Defined.

(** Scenario 1: a charge of 41.03 on 2024-03-10 and a shipment of 41.03
    mailed on 2024-03-08. *)
Definition charge_41_03 : transaction :=
  Transaction 2 "2024-03-10" "AMAZON MKTPL*AB12" "" "-41.03" "Chase Sapphire"
              true "2024-03-11".

Definition shipment_41_03 : order :=
  Order "msg-1" "2024-03-08" "shipment" "111-222" 41.03%float "USB cable"
        41.03%float 1 "parsed" "" (Some 738953).

(** A row whose date is not a date. *)
Definition bad_date_row : transaction :=
  Transaction 3 "pending" "AMAZON MKTPL*CD34" "" "-41.03" "Chase Sapphire"
              false "".

(** A charge of 1.50 and a shipment whose total cell reads -1.00. *)
Definition charge_1_50 : transaction :=
  Transaction 4 "2024-03-10" "AMAZON MKTPL*EF56" "" "-1.50" "Chase Sapphire"
              false "".

Definition shipment_negative_total : order :=
  Order "msg-2" "2024-03-10" "shipment" "333-444" (-1)%float "Gift card"
        1%float 1 "parsed" "" (Some 738955).

(** Scenario 3: two charges of 41.03 on the same day against one shipment.
    Both candidates score 64; the one of the earlier row is discovered
    first, claims the shipment, and the later row ends unmatched. *)
Definition second_charge_41_03 : transaction :=
  Transaction 5 "2024-03-10" "AMAZON MKTPL*GH78" "" "-41.03" "Chase Sapphire"
              true "2024-03-11".

(** Scenario 5: three rows with identical date, amount and account and
    descriptions starting "AMAZON.COM*ABC", one of them with a hint. *)
Definition triple_no_hint_1 : transaction :=
  Transaction 2 "2024-03-10" "AMAZON.COM*ABC" "" "-41.03" "Chase Sapphire"
              false "2024-03-11".

Definition triple_with_hint : transaction :=
  Transaction 3 "2024-03-10" "AMAZON.COM*ABC" "" "-41.03" "Chase Sapphire"
              true "2024-03-10".

Definition triple_no_hint_2 : transaction :=
  Transaction 4 "2024-03-10" "AMAZON.COM*ABC" "" "-41.03" "Chase Sapphire"
              false "2024-03-12".



(** Scenario 6: the monthly subscription charge, for which no shipment
    exists. *)
Definition prime_subscription : transaction :=
  Transaction 7 "2024-03-10" "Amazon Prime" "" "-14.99" "Chase Sapphire"
              true "2024-03-10".

(** A candidate of a transaction dated [trans_date] that searched the
    email types [types]: some parsed-order record carries its email id, is
    of a searched type, and is dated within the matching window. *)
Definition found_in (parsed_orders : list order) (types : list string)
    (trans_date : Z) (c : candidate) : Prop :=
  exists o order_date,
    o ∈ parsed_orders /\ email_id o = c_email c /\ email_type o ∈ types /\
    _parsed_date o = Some order_date /\
    Z.abs (trans_date - order_date) <= DATE_MATCHING_WINDOW_DAYS.

(** A record that the single-transaction matcher may return for a
    transaction dated [trans_date] searching [types]: it is a parsed-order
    record of a searched type dated within the matching window. *)
Definition in_window (parsed_orders : list order) (types : list string)
    (trans_date : Z) (o : order) : Prop :=
  o ∈ parsed_orders /\ email_type o ∈ types /\
  exists order_date,
    _parsed_date o = Some order_date /\
    Z.abs (trans_date - order_date) <= DATE_MATCHING_WINDOW_DAYS.

(** The invariant of the best match so far: without a match the score is
    0; with one, its email is not a used one, the score is between 1 and 80,
    and the items are records in the window that carry that email id. *)
Definition best_ok (parsed_orders : list order) (types : list string)
    (trans_date : Z) (used_email_ids : gset string) (b : best) : Prop :=
  match best_match b with
  | None => best_score b = 0
  | Some e =>
      (e ∉ used_email_ids) /\ 0 < best_score b <= 80 /\ best_items b <> [] /\
      forall o, o ∈ best_items b ->
        email_id o = e /\ in_window parsed_orders types trans_date o
  end.

(** A transaction of the configured account (compared without case or
    surrounding blanks) whose trimmed, upper-cased description starts with
    AMAZON or AMZN. *)
Definition amazon_eligible (AMAZON_ACCOUNT : string) (trans : transaction)
    : bool :=
  String.eqb (PyStr.upper (PyStr.strip (Account trans)))
             (PyStr.upper AMAZON_ACCOUNT)
  && (PyStr.startswith (PyStr.upper (PyStr.strip (Description trans))) "AMAZON"
      || PyStr.startswith (PyStr.upper (PyStr.strip (Description trans))) "AMZN").

(** The row of a transaction that is passed through as it is. *)
Definition pass_through_row (run_processed_at : string) (trans : transaction)
    : output_row :=
  OutputRow (Date trans) (Description trans) (Category trans) (Amount trans)
            (Account trans) "" (CStr "") "" (_row_number trans)
            run_processed_at.

(** The row of one named item of a matched transaction. *)
Definition item_row (summarize_item_name : string -> string)
    (format_2f : float -> string) (run_processed_at : string)
    (trans : transaction) (confidence : Z) (status amount_sign : string)
    (item : order) : output_row :=
  OutputRow (Date trans) (summarize_item_name (item_name item))
            (Category trans)
            (amount_sign +:+ "$" +:+ format_2f (item_price item))
            (Account trans) (Description trans) (CInt confidence) status
            (_row_number trans) run_processed_at.

Definition named (item : order) : Prop :=
  PyStr.is_empty (item_name item) = false.

#[export] Instance named_dec item : Decision (named item).
Proof. unfold named. apply _. Defined.

(** The number a column name stands for, read as a numeral of base 26 with
    the digits A = 1, ..., Z = 26, after the number [acc] of the letters
    read so far. *)
Fixpoint column_number_from (acc : Z) (letters : string) : Z :=
  match letters with
  | EmptyString => acc
  | String c rest =>
      column_number_from (acc * 26 + (Z.of_N (N_of_ascii c) - 64)) rest
  end.

Definition column_number (letters : string) : Z :=
  column_number_from 0 letters.

(** Every character is one of A, ..., Z. *)
Fixpoint capital_letters (s : string) : Prop :=
  match s with
  | EmptyString => True
  | String c rest => 65 <= Z.of_N (N_of_ascii c) <= 90 /\ capital_letters rest
  end.

(** A source sheet with two charges of one day and one description, and a
    grocery charge; and a sheet with the grocery charge alone. *)
Definition demo_sheet : list (list string) :=
  [["Date"; "Description"; "Category"; "Amount"; "Account"; "Processed_Flag"];
   ["2024-03-10"; "AMAZON MKTPL*AB12"; ""; "-41.03"; "Chase Sapphire"];
   ["2024-03-10"; "AMAZON MKTPL*AB12"; ""; "-1.50"; "Chase Sapphire"];
   ["2024-03-10"; "Grocer"; ""; "-50.00"; "Chase Sapphire"]]%string.

Definition demo_row_2 : transaction :=
  Transaction 2 "2024-03-10" "AMAZON MKTPL*AB12" "" "-41.03" "Chase Sapphire"
              false "".

Definition demo_row_3 : transaction :=
  Transaction 3 "2024-03-10" "AMAZON MKTPL*AB12" "" "-1.50" "Chase Sapphire"
              false "".

Definition demo_row_4 : transaction :=
  Transaction 4 "2024-03-10" "Grocer" "" "-50.00" "Chase Sapphire" false "".

Definition grocer_sheet : list (list string) :=
  [["Date"; "Description"; "Category"; "Amount"; "Account"];
   ["2024-03-10"; "Grocer"; ""; "-50.00"; "Chase Sapphire"]]%string.

Definition grocer_row : transaction :=
  Transaction 2 "2024-03-10" "Grocer" "" "-50.00" "Chase Sapphire" false "".

(** A shipment record without an item name. *)
Definition unnamed_shipment : order :=
  Order "msg-3" "2024-03-08" "shipment" "555-666" 41.03%float ""
        41.03%float 1 "parsed" "" (Some 738953).

(** The sheet of parsed orders with the shipment of 41.03. *)
Definition demo_order_sheet : list (list string) :=
  [["email_id"; "email_date"; "email_type"; "order_number"; "shipment_total";
    "item_name"; "item_price"; "item_qty"; "parse_status"; "processed_at"];
   ["msg-1"; "2024-03-08"; "shipment"; "111-222"; "41.03"; "USB cable";
    "41.03"; "1"; "parsed"]]%string.

(** A charge of 50.00, and shipments of 2.00 and of 52.50 mailed on
    2024-03-08: against the charges of 1.50 and of 50.00 they score 44 and
    34. *)
Definition charge_50_00 : transaction :=
  Transaction 6 "2024-03-10" "AMAZON MKTPL*IJ90" "" "-50.00" "Chase Sapphire"
              false "".

Definition shipment_2_00 : order :=
  Order "msg-4" "2024-03-08" "shipment" "777-888" 2%float "Batteries"
        2%float 1 "parsed" "" (Some 738953).

Definition shipment_52_50 : order :=
  Order "msg-5" "2024-03-08" "shipment" "999-000" 52.5%float "Desk lamp"
        52.5%float 1 "parsed" "" (Some 738953).

(** A second shipment of 41.03, listed before the one of scenario 1. *)
Definition shipment_41_03_first : order :=
  Order "msg-0" "2024-03-08" "shipment" "000-111" 41.03%float "HDMI cable"
        41.03%float 1 "parsed" "" (Some 738953).

(** * Properties *)

(** ** The order of Python floats *)

(** The comparison of the IEEE specification is a total preorder away from
    NaN. The facts below are those the scoring thresholds need; they are
    proved on [spec_float] by cases and carried to the machine operations by
    the specification of [PrimFloat]. *)

Ltac cmp_cases :=
  repeat match goal with
  | |- context [Z.compare ?a ?b] => destruct (Z.compare_spec a b); subst
  | H : context [Z.compare ?a ?b] |- _ => destruct (Z.compare_spec a b); subst
  | |- context [Pos.compare_cont Eq ?a ?b] =>
      change (Pos.compare_cont Eq a b) with (Pos.compare a b);
      destruct (Pos.compare_spec a b); subst
  | H : context [Pos.compare_cont Eq ?a ?b] |- _ =>
      change (Pos.compare_cont Eq a b) with (Pos.compare a b) in H;
      destruct (Pos.compare_spec a b); subst
  end; simpl in *; try discriminate; try reflexivity; try lia.

Lemma SFleb_ltb_trans x y z :
  SFleb x y = true -> SFltb y z = true -> SFltb x z = true.
Proof.
  unfold SFleb, SFltb.
  destruct x as [[]|[]| |[] mx ex], y as [[]|[]| |[] my ey],
           z as [[]|[]| |[] mz ez]; simpl; try discriminate; try reflexivity;
    intros H1 H2; cmp_cases.
Qed.

Lemma SFleb_trans x y z :
  SFleb x y = true -> SFleb y z = true -> SFleb x z = true.
Proof.
  unfold SFleb.
  destruct x as [[]|[]| |[] mx ex], y as [[]|[]| |[] my ey],
           z as [[]|[]| |[] mz ez]; simpl; try discriminate; try reflexivity;
    intros H1 H2; cmp_cases.
Qed.

Lemma SFltb_not_leb x y : SFltb x y = true -> SFleb y x = false.
Proof.
  unfold SFleb, SFltb.
  destruct x as [[]|[]| |[] mx ex], y as [[]|[]| |[] my ey];
    simpl; try discriminate; try reflexivity; intros H1; cmp_cases.
Qed.

Lemma SFltb_leb x y : SFltb x y = true -> SFleb x y = true.
Proof.
  unfold SFleb, SFltb. destruct (SFcompare x y) as [[]|]; congruence.
Qed.

(** Two floats that are not NaN are comparable. *)
Lemma SFleb_total x y :
  x <> S754_nan -> y <> S754_nan -> SFltb y x = false -> SFleb x y = true.
Proof.
  unfold SFleb, SFltb.
  destruct x as [[]|[]| |[] mx ex], y as [[]|[]| |[] my ey];
    simpl; try congruence; intros _ _ H1; cmp_cases.
Qed.

Lemma SFeqb_refl_nan x : SFeqb x x = false -> x = S754_nan.
Proof.
  unfold SFeqb.
  destruct x as [[]|[]| |[] mx ex]; simpl; try discriminate; try reflexivity;
    rewrite Z.compare_refl;
    change (Pos.compare_cont Eq mx mx) with (Pos.compare mx mx);
    rewrite Pos.compare_refl; discriminate.
Qed.

Lemma float_lt_spec x y : PyFloat.lt x y = SFltb (Prim2SF x) (Prim2SF y).
Proof. apply FloatAxioms.ltb_spec. Qed.

Lemma float_le_spec x y : PyFloat.le x y = SFleb (Prim2SF x) (Prim2SF y).
Proof. apply FloatAxioms.leb_spec. Qed.

Lemma float_le_lt_trans x y z :
  PyFloat.le x y = true -> PyFloat.lt y z = true -> PyFloat.lt x z = true.
Proof. rewrite !float_lt_spec, float_le_spec. apply SFleb_ltb_trans. Qed.

Lemma float_le_trans x y z :
  PyFloat.le x y = true -> PyFloat.le y z = true -> PyFloat.le x z = true.
Proof. rewrite !float_le_spec. apply SFleb_trans. Qed.

Lemma float_lt_not_le x y : PyFloat.lt x y = true -> PyFloat.le y x = false.
Proof. rewrite float_lt_spec, float_le_spec. apply SFltb_not_leb. Qed.

Lemma float_lt_le x y : PyFloat.lt x y = true -> PyFloat.le x y = true.
Proof. rewrite float_lt_spec, float_le_spec. apply SFltb_leb. Qed.

Lemma float_gt_not_lt x y z :
  PyFloat.gt x y = true -> PyFloat.le z y = true -> PyFloat.lt x z = false.
Proof.
  unfold PyFloat.gt. fold (PyFloat.lt y x). intros Hyx Hzy.
  destruct (PyFloat.lt x z) eqn:E; [|reflexivity].
  pose proof (float_le_lt_trans _ _ _ Hzy Hyx) as Hzx.
  apply float_lt_not_le in Hzx. apply float_lt_le in E. congruence.
Qed.

Lemma float_gt_not_le x y z :
  PyFloat.gt x y = true -> PyFloat.le z y = true -> PyFloat.le x z = false.
Proof.
  unfold PyFloat.gt. fold (PyFloat.lt y x). intros Hyx Hzy.
  destruct (PyFloat.le x z) eqn:E; [|reflexivity].
  pose proof (float_le_trans _ _ _ E Hzy) as Hxy.
  apply float_lt_not_le in Hyx. congruence.
Qed.

(** A float that is not NaN lies on one side of any threshold that is not
    NaN either. *)
Lemma float_le_total x y :
  PrimFloat.is_nan x = false -> PrimFloat.is_nan y = false ->
  PyFloat.gt x y = false -> PyFloat.le x y = true.
Proof.
  unfold PrimFloat.is_nan, PyFloat.gt. fold (PyFloat.lt y x).
  rewrite float_lt_spec, float_le_spec, !FloatAxioms.eqb_spec.
  intros Hx Hy. apply SFleb_total.
  - intros E. rewrite E in Hx. discriminate.
  - intros E. rewrite E in Hy. discriminate.
Qed.

Lemma float_nan_not_lt x y : PrimFloat.is_nan x = true -> PyFloat.lt x y = false.
Proof.
  unfold PrimFloat.is_nan. rewrite float_lt_spec, FloatAxioms.eqb_spec. intros H.
  apply negb_true_iff, SFeqb_refl_nan in H. rewrite H. reflexivity.
Qed.

Lemma float_nan_not_le x y : PrimFloat.is_nan x = true -> PyFloat.le x y = false.
Proof.
  unfold PrimFloat.is_nan. rewrite float_le_spec, FloatAxioms.eqb_spec. intros H.
  apply negb_true_iff, SFeqb_refl_nan in H. rewrite H. reflexivity.
Qed.

(** ** The confidence score *)

Lemma date_and_bonus_spec A d : date_and_bonus A d = spec_score A d.
Proof.
  unfold date_and_bonus, spec_score.
  destruct (Z.eqb_spec d 0), (decide (d = 0)); lia.
Qed.

Lemma date_and_bonus_mono A A' d :
  A <= A' -> date_and_bonus A d <= date_and_bonus A' d.
Proof. unfold date_and_bonus. destruct (d =? 0); lia. Qed.

Lemma date_and_bonus_nonneg A d : 0 <= A -> 0 <= date_and_bonus A d.
Proof. unfold date_and_bonus. destruct (d =? 0); lia. Qed.

Lemma date_and_bonus_antitone A d1 d2 :
  0 <= d1 <= d2 -> date_and_bonus A d2 <= date_and_bonus A d1.
Proof.
  unfold date_and_bonus.
  destruct (Z.eqb_spec d1 0), (Z.eqb_spec d2 0); lia.
Qed.

Lemma date_and_bonus_upper A d :
  0 <= d -> 0 <= A <= 50 ->
  date_and_bonus A d = A + Z.max 0 (20 - d * 3) + (if d =? 0 then 10 else 0)
  /\ date_and_bonus A d <= 80.
Proof. unfold date_and_bonus. destruct (Z.eqb_spec d 0); lia. Qed.

Lemma score_by_component a t d :
  calculate_confidence_score a t d =
  match amount_component (amount_diff a t) with
  | Some A => date_and_bonus A d
  | None => 0
  end.
Proof.
  unfold calculate_confidence_score, amount_component, amount_diff.
  repeat match goal with |- context [if ?b then _ else _] => destruct b end;
    reflexivity.
Qed.

Lemma amount_component_range diff A :
  amount_component diff = Some A -> 20 <= A <= 50.
Proof.
  unfold amount_component.
  repeat match goal with |- context [if ?b then _ else _] => destruct b end;
    intros [= <-]; lia.
Qed.

(** A larger amount difference never earns a larger amount component. *)
Lemma amount_component_antitone x y A :
  PyFloat.le x y = true -> amount_component y = Some A ->
  exists A', amount_component x = Some A' /\ A <= A'.
Proof.
  unfold amount_component. intros Hxy.
  destruct (PyFloat.lt y 0.01) eqn:Hy1.
  { intros [= <-]. rewrite (float_le_lt_trans _ _ _ Hxy Hy1). eauto with lia. }
  destruct (PyFloat.le y 1) eqn:Hy2.
  { intros [= <-]. rewrite (float_le_trans _ _ _ Hxy Hy2).
    destruct (PyFloat.lt x 0.01); eauto with lia. }
  destruct (PyFloat.le y AMOUNT_MATCHING_TOLERANCE) eqn:Hy3; [|discriminate].
  intros [= <-]. rewrite (float_le_trans _ _ _ Hxy Hy3).
  destruct (PyFloat.lt x 0.01), (PyFloat.le x 1); eauto with lia.
Qed.

(** C1. For every transaction amount [a], shipment total [t] and day
    difference [d] (any integer, so every non-negative one),
    [calculate_confidence_score a t d] is 0 when
    [|a - t| > 3.00], whatever [d]; otherwise it is
    [min(A + max(0, 20 - 3*d) + B, 100)] with [A = 50] if [|a - t| < 0.01],
    else [A = 30] if [|a - t| <= 1.00], else [A = 20] if [|a - t| <= 3.00],
    and [B = 10] if [d = 0], else 0. The comparisons are those of Python
    floats; the last conjunct says that the three amount cases cover every
    difference that is neither above 3.00 nor NaN. *)
Theorem C1_score_formula (a t : float) (d : Z) :
  let diff := amount_diff a t in
  (PyFloat.gt diff 3.0%float = true -> calculate_confidence_score a t d = 0) /\
  (PyFloat.lt diff 0.01%float = true ->
     calculate_confidence_score a t d = spec_score 50 d) /\
  (PyFloat.lt diff 0.01%float = false -> PyFloat.le diff 1.0%float = true ->
     calculate_confidence_score a t d = spec_score 30 d) /\
  (PyFloat.le diff 1.0%float = false -> PyFloat.le diff 3.0%float = true ->
     calculate_confidence_score a t d = spec_score 20 d) /\
  (PrimFloat.is_nan diff = false -> PyFloat.gt diff 3.0%float = false ->
     PyFloat.le diff 3.0%float = true).
Proof.
  intros diff. rewrite score_by_component. fold diff.
  unfold amount_component, AMOUNT_MATCHING_TOLERANCE.
  repeat split.
  - intros Hgt.
    rewrite (float_gt_not_lt diff 3 0.01 Hgt eq_refl).
    rewrite (float_gt_not_le diff 3 1 Hgt eq_refl).
    rewrite (float_gt_not_le diff 3 3 Hgt eq_refl). reflexivity.
  - intros ->. apply date_and_bonus_spec.
  - intros -> ->. apply date_and_bonus_spec.
  - intros H1 H3. rewrite H1, H3.
    destruct (PyFloat.lt diff 0.01) eqn:E; [|apply date_and_bonus_spec].
    apply float_lt_le in E.
    rewrite (float_le_trans diff 0.01 1 E eq_refl) in H1. discriminate.
  - intros Hnan Hgt. apply float_le_total; [assumption|reflexivity|assumption].
Qed.

(** Scenario 1 of the specification: an exact amount two days apart
    scores 50 + 14 = 64. *)
Lemma C1_score_formula_witness :
  calculate_confidence_score 41.03%float 41.03%float 2 = 64.
Proof.
  exact (proj1 (proj2 (C1_score_formula 41.03%float 41.03%float 2)) eq_refl).
Defined.

(** A difference that is NaN (an amount read from the text [nan]) takes
    none of the three amount branches and scores 0. *)
Lemma score_of_nan a t d :
  PrimFloat.is_nan (amount_diff a t) = true ->
  calculate_confidence_score a t d = 0.
Proof.
  intros H. rewrite score_by_component. unfold amount_component.
  rewrite (float_nan_not_lt _ _ H), !(float_nan_not_le _ _ H). reflexivity.
Qed.

(** The score is between 0 and 100 on every input. *)
Lemma score_bounds a t d : 0 <= calculate_confidence_score a t d <= 100.
Proof.
  rewrite score_by_component.
  destruct (amount_component (amount_diff a t)) as [A|] eqn:E; [|lia].
  apply amount_component_range in E.
  unfold date_and_bonus. destruct (d =? 0); lia.
Qed.

(** C5. With the day difference fixed, the score does not grow when the
    absolute amount difference grows; with the absolute amount difference
    fixed, the score does not grow when the day difference grows. The day
    difference is a number of days of 0 or more, as the absolute value
    [abs((trans_date - order_date).days)] that both callers pass is: the
    same-day bonus at day 0 does not break monotonicity. *)
Theorem C5_score_monotone :
  (forall a1 t1 a2 t2 d,
     PyFloat.le (amount_diff a1 t1) (amount_diff a2 t2) = true ->
     calculate_confidence_score a2 t2 d <= calculate_confidence_score a1 t1 d) /\
  (forall a1 t1 a2 t2 d1 d2,
     amount_diff a1 t1 = amount_diff a2 t2 -> 0 <= d1 <= d2 ->
     calculate_confidence_score a2 t2 d2 <= calculate_confidence_score a1 t1 d1).
Proof.
  split.
  - intros a1 t1 a2 t2 d Hle. rewrite !score_by_component.
    destruct (amount_component (amount_diff a2 t2)) as [A|] eqn:E2.
    + destruct (amount_component_antitone _ _ _ Hle E2) as (A' & -> & HA).
      by apply date_and_bonus_mono.
    + destruct (amount_component (amount_diff a1 t1)) as [A'|] eqn:E1; [|lia].
      apply amount_component_range in E1. apply date_and_bonus_nonneg. lia.
  - intros a1 t1 a2 t2 d1 d2 Heq Hd. rewrite !score_by_component, Heq.
    destruct (amount_component (amount_diff a2 t2)); [|lia].
    by apply date_and_bonus_antitone.
Qed.

(** The two halves of C5 at concrete amounts: one cent off against exact,
    and day 3 against day 0. *)
Lemma C5_score_monotone_witness :
  calculate_confidence_score 41.03%float 41.53%float 1
    <= calculate_confidence_score 41.03%float 41.03%float 1
  /\ calculate_confidence_score 41.03%float 41.03%float 3
    <= calculate_confidence_score 41.03%float 41.03%float 0.
Proof.
  split.
  - apply (proj1 C5_score_monotone). vm_compute. reflexivity.
  - apply (proj2 C5_score_monotone); [reflexivity|lia].
Defined.

(** Why the day difference is taken from 0 on: on a negative integer, which
    no call site passes, the date component exceeds 20; day -1 scores 73
    and day 0 scores 80. *)
Lemma score_below_day_zero :
  ~ (forall a t d1 d2,
       d1 <= d2 ->
       calculate_confidence_score a t d2 <= calculate_confidence_score a t d1).
Proof.
  intros H. specialize (H 10%float 10%float (-1) 0 ltac:(lia)).
  vm_compute in H. apply H. reflexivity.
Qed.

(** C10. For every amount, total and day difference (a number of days of
    0 or more, as both callers pass), the score is between 0 and 80: the
    amount component is at most 50, the date component at most 20, the
    same-day bonus 10, so the cap at 100 never changes the sum and no score
    from 81 to 100 is reached. *)
Theorem C10_score_at_most_80 (a t : float) (d : Z) :
  0 <= d ->
  0 <= calculate_confidence_score a t d <= 80 /\
  (forall A, amount_component (amount_diff a t) = Some A ->
     calculate_confidence_score a t d =
     A + Z.max 0 (20 - d * 3) + (if d =? 0 then 10 else 0)).
Proof.
  intros Hd. rewrite score_by_component.
  destruct (amount_component (amount_diff a t)) as [A|] eqn:E.
  - apply amount_component_range in E.
    destruct (date_and_bonus_upper A d Hd ltac:(lia)) as [Heq Hle].
    split; [split; [apply date_and_bonus_nonneg; lia|exact Hle]|].
    intros A' [= <-]. exact Heq.
  - split; [lia|discriminate].
Qed.

Lemma C10_score_at_most_80_witness :
  0 <= 0 /\ 0 <= calculate_confidence_score 41.03%float 41.03%float 0 <= 80.
Proof.
  split; [lia|].
  exact (proj1 (C10_score_at_most_80 41.03%float 41.03%float 0 ltac:(lia))).
Defined.

(** The bound needs the day difference to be 0 or more: on the integer -4,
    which no call site passes, an exact amount gives 50 + 32 = 82. *)
Lemma score_above_80_below_day_zero :
  ~ (forall a t d, 0 <= calculate_confidence_score a t d <= 80).
Proof.
  intros H. specialize (H 10%float 10%float (-4)).
  vm_compute in H. destruct H as [_ H]. apply H. reflexivity.
Qed.

(** ** Python's sort: permutation, order and stability *)

Section PySort.
Context {A : Type} (before : A -> A -> bool).

Lemma insert_by_Permutation x l : insert_by before x l ≡ₚ x :: l.
Proof.
  induction l as [|y l IH]; simpl; [done|].
  destruct (before x y); [done|].
  rewrite IH. apply perm_swap.
Qed.

Lemma py_sort_Permutation l : py_sort before l ≡ₚ l.
Proof.
  induction l as [|x l IH]; simpl; [done|].
  rewrite insert_by_Permutation. by f_equiv.
Qed.

Lemma py_sort_elem_of x l : x ∈ py_sort before l <-> x ∈ l.
Proof. by rewrite py_sort_Permutation. Qed.



Hypothesis before_total : forall x y, before x y = false -> before y x = true.
Hypothesis before_trans :
  forall x y z, before x y = true -> before y z = true -> before x z = true.

Lemma insert_by_sorted x l :
  StronglySorted (fun a b => before a b = true) l ->
  StronglySorted (fun a b => before a b = true) (insert_by before x l).
Proof.
  induction 1 as [|y l Hs IH Hall]; simpl.
  - repeat constructor.
  - destruct (before x y) eqn:E.
    + constructor; [by constructor|].
      constructor; [done|].
      eapply Forall_impl; [exact Hall|]. simpl. eauto.
    + constructor; [done|].
      rewrite insert_by_Permutation. constructor; [|done].
      by apply before_total.
Qed.

Lemma py_sort_sorted l :
  StronglySorted (fun a b => before a b = true) (py_sort before l).
Proof.
  induction l as [|x l IH]; simpl; [constructor|].
  by apply insert_by_sorted.
Qed.

(** The last element of the sorted list is one that every element may
    stay before: a greatest one. *)
Lemma py_sort_last_greatest l b x :
  last (py_sort before l) = Some b -> x ∈ l -> before x b = true.
Proof.
  intros Hlast Hx.
  pose proof (py_sort_sorted l) as Hs.
  apply py_sort_elem_of in Hx.
  apply last_Some in Hlast as [l' Hl']. rewrite Hl' in Hs, Hx.
  apply elem_of_app in Hx as [Hx|Hx%list_elem_of_singleton].
  - exact (StronglySorted_app_1_elem_of _ _ _ x b Hs Hx
             (list_elem_of_here b [])).
  - subst x. destruct (before b b) eqn:E; [done|].
    rewrite (before_total _ _ E) in E. done.
Qed.

End PySort.

(** ** The parsers return *)

Section ParsingFacts.
Context {B : PyBuiltins}.

Lemma parse_amount_unfold v :
  parse_amount (Some v) =
  if PyStr.is_empty (snd (amount_text v)) then Ret 0%float
  else match py_float (snd (amount_text v)) with
       | Ret amount =>
           Ret (if fst (amount_text v) then PyFloat.fneg amount else amount)
       | Raise _ => Ret 0%float
       end.
Proof.
  unfold parse_amount, amount_text.
  destruct (PyStr.startswith (PyStr.strip v) "(" && PyStr.endswith (PyStr.strip v) ")");
    [|destruct (PyStr.startswith (PyStr.strip v) "-")]; simpl;
    (match goal with |- context [PyStr.is_empty ?s] =>
       destruct (PyStr.is_empty s); [reflexivity|];
       destruct (py_float s) as [x|e] eqn:E; simpl; [reflexivity|];
       apply py_float_raises in E; subst e; reflexivity
     end).
Qed.

Lemma parse_amount_returns v : exists x, parse_amount v = Ret x.
Proof.
  destruct v as [v|]; [|by eexists].
  rewrite parse_amount_unfold.
  destruct (PyStr.is_empty _); [by eexists|].
  destruct (py_float _); by eexists.
Qed.

Lemma parse_date_loop_returns s formats :
  exists r, parse_date_loop s formats = Ret r.
Proof.
  induction formats as [|fmt rest IH]; simpl; [by eexists|].
  destruct (py_strptime (PyStr.strip s) fmt) as [dt|e] eqn:E; simpl.
  - by eexists.
  - apply py_strptime_raises in E. subst e. exact IH.
Qed.

Lemma parse_date_returns v : exists r, parse_date v = Ret r.
Proof.
  destruct v as [s|]; [|by eexists]. unfold parse_date.
  destruct (PyStr.is_empty s); [by eexists|]. apply parse_date_loop_returns.
Qed.

Lemma parse_date_loop_unparseable s formats :
  (forall fmt, fmt ∈ formats ->
     exists e, py_strptime (PyStr.strip s) fmt = Raise e) ->
  parse_date_loop s formats = Ret None.
Proof.
  induction formats as [|fmt rest IH]; intros Hall; simpl; [done|].
  destruct (Hall fmt ltac:(by left)) as [e He]. rewrite He.
  apply py_strptime_raises in He. subst e. simpl.
  apply IH. intros fmt' Hin. apply Hall. by right.
Qed.

Lemma safe_float_returns value : exists x, _safe_float value = Ret x.
Proof.
  unfold _safe_float. destruct (PyStr.is_empty value); [by eexists|].
  destruct (py_float _) as [x|e] eqn:E; simpl; [by eexists|].
  apply py_float_raises in E. subst e. by eexists.
Qed.

End ParsingFacts.

(** ** Phase 1: the candidates *)

(** The orders filed under an email id are the records that carry it, in
    input order; nothing is filed under the empty id. *)
Lemma orders_by_email_lookup (parsed_orders : list order) (e : string) :
  default [] (orders_by_email parsed_orders !! e) =
  filter (fun o => email_id o = e /\ e <> ""%string) parsed_orders.
Proof.
  unfold orders_by_email.
  induction parsed_orders as [|o os IH] using rev_ind; [done|].
  rewrite foldl_app, filter_app. simpl.
  destruct (email_id o) as [|c s] eqn:Eo; simpl.
  - rewrite IH, filter_cons_False, filter_nil, app_nil_r; [done|].
    intros [? ?]. congruence.
  - destruct (decide (String c s = e)) as [<-|Hne].
    + rewrite lookup_insert_eq. simpl. rewrite IH.
      by rewrite filter_cons_True, filter_nil.
    + rewrite lookup_insert_ne by done. rewrite IH.
      rewrite filter_cons_False, filter_nil, app_nil_r; [done|].
      intros [? ?]. congruence.
Qed.

Lemma orders_by_email_items (parsed_orders : list order) e o :
  o ∈ default [] (orders_by_email parsed_orders !! e) ->
  email_id o = e /\ o ∈ parsed_orders.
Proof.
  rewrite orders_by_email_lookup, list_elem_of_filter. tauto.
Qed.

Lemma scan_order_prefix by_email row_num trans_date trans_amount seen all o :
  scan_order by_email row_num trans_date trans_amount (seen, all) o =
  (fst (scan_order by_email row_num trans_date trans_amount (seen, []) o),
   all ++ snd (scan_order by_email row_num trans_date trans_amount (seen, []) o)).
Proof.
  unfold scan_order.
  repeat (match goal with
          | |- context [decide ?P] => destruct (decide P)
          | |- context [match ?x with _ => _ end] => destruct x eqn:?
          end; simpl; rewrite ?app_nil_r; try reflexivity).
Qed.

Lemma scan_orders_prefix by_email row_num trans_date trans_amount os seen all :
  foldl (scan_order by_email row_num trans_date trans_amount) (seen, all) os =
  (fst (foldl (scan_order by_email row_num trans_date trans_amount) (seen, []) os),
   all ++
   snd (foldl (scan_order by_email row_num trans_date trans_amount) (seen, []) os)).
Proof.
  revert seen all. induction os as [|o os IH]; intros seen all; cbn [foldl].
  - by rewrite app_nil_r.
  - rewrite (scan_order_prefix _ _ _ _ seen all o).
    destruct (scan_order by_email row_num trans_date trans_amount (seen, []) o)
      as [seen1 new1]. cbn [fst snd].
    rewrite IH. rewrite (IH seen1 new1). cbn [fst snd]. by rewrite app_assoc.
Qed.

Lemma scan_order_scored by_email row_num trans_date trans_amount st o :
  Forall (scored_by by_email row_num trans_amount) (snd st) ->
  Forall (scored_by by_email row_num trans_amount)
         (snd (scan_order by_email row_num trans_date trans_amount st o)).
Proof.
  destruct st as [seen all]. intros Hall. unfold scan_order. cbv zeta.
  destruct (decide (email_id o ∈ seen)); [done|].
  destruct (_parsed_date o) as [order_date|]; [|done].
  destruct (Z.abs (trans_date - order_date) >? DATE_MATCHING_WINDOW_DAYS) eqn:Ew;
    [done|].
  match goal with |- context [default ?d ?m] =>
    destruct (default d m) as [|first rest] eqn:Ei; [done|] end.
  destruct (PyFloat.truthy (shipment_total first)) eqn:Et; [|done]. simpl.
  destruct (_ >? 0) eqn:Es; [|done]. simpl.
  apply Forall_app. split; [done|]. constructor; [|done].
  split; [done|]. split; [exact (eq_sym Ei)|].
  exists first, rest, (Z.abs (trans_date - order_date)). simpl.
  repeat split; try done; lia.
Qed.

Lemma scan_orders_scored by_email row_num trans_date trans_amount os st :
  Forall (scored_by by_email row_num trans_amount) (snd st) ->
  Forall (scored_by by_email row_num trans_amount)
         (snd (foldl (scan_order by_email row_num trans_date trans_amount) st os)).
Proof.
  revert st. induction os as [|o os IH]; intros st Hall; simpl; [done|].
  by apply IH, scan_order_scored.
Qed.

Section Phase1Facts.
Context {B : PyBuiltins}.

Lemma scan_types_prefix (by_type by_email : gmap string (list order))
    row_num trans_date trans_amount (types : list string) seen all :
  foldl (fun st email_type =>
           foldl (scan_order by_email row_num trans_date trans_amount) st
                 (default [] (by_type !! email_type)))
        (seen, all) types =
  (fst (foldl (fun st email_type =>
           foldl (scan_order by_email row_num trans_date trans_amount) st
                 (default [] (by_type !! email_type)))
        (seen, []) types),
   all ++
   snd (foldl (fun st email_type =>
           foldl (scan_order by_email row_num trans_date trans_amount) st
                 (default [] (by_type !! email_type)))
        (seen, []) types)).
Proof.
  revert seen all. induction types as [|ty types IH]; intros seen all;
    cbn [foldl].
  - by rewrite app_nil_r.
  - rewrite (scan_orders_prefix _ _ _ _ _ seen all).
    destruct (foldl (scan_order by_email row_num trans_date trans_amount)
                    (seen, []) (default [] (by_type !! ty)))
      as [seen1 new1]. cbn [fst snd].
    rewrite IH, (IH seen1 new1). cbn [fst snd]. by rewrite app_assoc.
Qed.

Lemma scan_types_scored (by_type by_email : gmap string (list order))
    row_num trans_date trans_amount (types : list string) st :
  Forall (scored_by by_email row_num trans_amount) (snd st) ->
  Forall (scored_by by_email row_num trans_amount)
    (snd (foldl (fun st email_type =>
           foldl (scan_order by_email row_num trans_date trans_amount) st
                 (default [] (by_type !! email_type)))
        st types)).
Proof.
  revert st. induction types as [|ty types IH]; intros st Hall; cbn [foldl];
    [done|].
  by apply IH, scan_orders_scored.
Qed.

(** Phase 1 returns, and appends the candidates of the transaction to
    [all_matches]. *)
Lemma score_transaction_app by_type by_email all trans :
  score_transaction by_type by_email all trans =
  Ret (all ++ candidates_of by_type by_email trans).
Proof.
  unfold candidates_of, score_transaction.
  destruct (parse_date_returns (Some (Date trans))) as [d ->].
  destruct (parse_amount_returns (Some (Amount trans))) as [x ->].
  cbn [mbind exn_or_bind].
  destruct d as [d|]; [|by rewrite app_nil_r].
  destruct (PyFloat.eq (PyFloat.fabs x) 0); [by rewrite app_nil_r|].
  rewrite scan_types_prefix. reflexivity.
Qed.

Lemma candidates_of_skipped by_type by_email trans :
  skipped trans -> candidates_of by_type by_email trans = [].
Proof.
  unfold candidates_of, score_transaction. intros [Hd|(x & Hx & H0)].
  - rewrite Hd. destruct (parse_amount_returns (Some (Amount trans))) as [x ->].
    reflexivity.
  - destruct (parse_date_returns (Some (Date trans))) as [d ->].
    rewrite Hx. cbn [mbind exn_or_bind]. rewrite H0. by destruct d.
Qed.

Lemma candidates_of_scored by_type by_email trans :
  Forall (scored_by by_email (_row_number trans) (trans_amount_of trans))
         (candidates_of by_type by_email trans).
Proof.
  unfold candidates_of, score_transaction, trans_amount_of.
  destruct (parse_date_returns (Some (Date trans))) as [d ->].
  destruct (parse_amount_returns (Some (Amount trans))) as [x ->].
  cbn [mbind exn_or_bind ret_or].
  destruct d as [d|]; [|constructor].
  destruct (PyFloat.eq (PyFloat.fabs x) 0); [constructor|].
  cbn [ret_or]. apply scan_types_scored. constructor.
Qed.

Lemma score_all_app by_type by_email all transactions :
  score_all by_type by_email all transactions =
  Ret (all ++ (transactions ≫= candidates_of by_type by_email)).
Proof.
  revert all. induction transactions as [|t ts IH]; intros all; cbn [score_all].
  - by rewrite app_nil_r.
  - rewrite score_transaction_app. cbn [mbind exn_or_bind].
    rewrite IH. cbn. by rewrite app_assoc.
Qed.

Lemma all_candidates_scored transactions parsed_orders c :
  c ∈ all_candidates transactions parsed_orders ->
  exists trans, trans ∈ transactions /\ ~ skipped trans /\
    scored_by (orders_by_email parsed_orders) (_row_number trans)
              (trans_amount_of trans) c.
Proof.
  unfold all_candidates. rewrite list_elem_of_bind. intros (t & Hc & Ht).
  exists t. split; [done|]. split.
  - intros Hs. rewrite (candidates_of_skipped _ _ _ Hs) in Hc.
    by apply elem_of_nil in Hc.
  - pose proof (candidates_of_scored (emails_by_type parsed_orders)
                  (orders_by_email parsed_orders) t) as Hall.
    rewrite Forall_forall in Hall. by apply Hall.
Qed.

End Phase1Facts.

(** ** Phase 2: the greedy assignment *)

Lemma assign_step_spec st c :
  assign_step st c =
  if decide (free st c /\ CONFIDENCE_THRESHOLD_LOW <= c_score c)
  then claim st c else st.
Proof.
  unfold assign_step, claim, classify, free.
  destruct (decide (c_row c ∈ used_transactions st ∨ c_email c ∈ used_emails st))
    as [Hu|Hu].
  - rewrite decide_False; [done|]. tauto.
  - destruct (Z.geb_spec (c_score c) CONFIDENCE_THRESHOLD_HIGH) as [Hh|Hh].
    + rewrite decide_True; [done|].
      unfold CONFIDENCE_THRESHOLD_HIGH, CONFIDENCE_THRESHOLD_LOW in *.
      split; [tauto|lia].
    + destruct (Z.geb_spec (c_score c) CONFIDENCE_THRESHOLD_LOW) as [Hl|Hl].
      * rewrite decide_True; [done|]. split; [tauto|lia].
      * rewrite decide_False; [done|]. lia.
Qed.

Lemma classify_matched s :
  classify s = "matched"%string <-> CONFIDENCE_THRESHOLD_HIGH <= s.
Proof.
  unfold classify.
  destruct (Z.geb_spec s CONFIDENCE_THRESHOLD_HIGH); split; (done || lia).
Qed.

Lemma classify_low_confidence s :
  classify s = "low_confidence"%string <-> s < CONFIDENCE_THRESHOLD_HIGH.
Proof.
  unfold classify.
  destruct (Z.geb_spec s CONFIDENCE_THRESHOLD_HIGH); split; (done || lia).
Qed.

(** The claimed sets only grow, and an entry of the result dictionary is
    never rewritten once its row is claimed. *)
Lemma assign_step_used_mono st c :
  used_transactions st ⊆ used_transactions (assign_step st c) /\
  used_emails st ⊆ used_emails (assign_step st c).
Proof.
  rewrite assign_step_spec. destruct (decide _); simpl; [|done].
  split; apply union_subseteq_l.
Qed.


Lemma assign_step_frozen st c r :
  r ∈ used_transactions st ->
  match_results (assign_step st c) !! r = match_results st !! r.
Proof.
  intros Hr. rewrite assign_step_spec.
  destruct (decide _) as [[[Hrow _] _]|]; [|done]. simpl.
  apply lookup_insert_ne. intros <-. done.
Qed.

Lemma assign_frozen cs st r :
  r ∈ used_transactions st ->
  match_results (foldl assign_step st cs) !! r = match_results st !! r.
Proof.
  revert st. induction cs as [|c cs IH]; intros st Hr; simpl; [done|].
  rewrite IH; [by apply assign_step_frozen|].
  by apply assign_step_used_mono.
Qed.


Lemma assigned_from_init : assigned_from [] (Assignment ∅ ∅ ∅).
Proof.
  split; simpl.
  - intros r [x Hx]. by rewrite lookup_empty in Hx.
  - intros r res Hx. by rewrite lookup_empty in Hx.
  - intros r items s status o Hx. by rewrite lookup_empty in Hx.
  - intros r1 r2 ? ? ? ? ? ? ? ? _ Hx. by rewrite lookup_empty in Hx.
Qed.

Lemma assign_step_assigned cs st c :
  items_of_email c -> assigned_from cs st ->
  assigned_from (cs ++ [c]) (assign_step st c).
Proof.
  intros Hwf [Hdom Hentry Hemails Hinj]. rewrite assign_step_spec.
  destruct (decide _) as [[[Hrow Hemail] Hlow]|_].
  - split; simpl.
    + intros r. rewrite lookup_insert. case_decide as Hr.
      * intros _. subst r. set_solver.
      * intros Hs. apply Hdom in Hs. set_solver.
    + intros r res. rewrite lookup_insert. case_decide as Hr.
      * intros [= <-]. exists c. rewrite elem_of_app, list_elem_of_singleton.
        auto.
      * intros (c' & ? & ?)%Hentry. exists c'. rewrite elem_of_app. auto.
    + intros r items s status o. rewrite lookup_insert. case_decide as Hr.
      * intros [= <- _ _] Ho. rewrite (Hwf _ Ho). set_solver.
      * intros Hx Ho. pose proof (Hemails _ _ _ _ _ Hx Ho). set_solver.
    + intros r1 r2 items1 items2 s1 s2 status1 status2 o1 o2 Hne.
      rewrite !lookup_insert. repeat case_decide; subst; try done.
      * intros [= <- _ _] Hx Ho1 Ho2. rewrite (Hwf _ Ho1).
        intros E. apply Hemail. rewrite E. eapply Hemails; eauto.
      * intros Hx [= <- _ _] Ho1 Ho2. rewrite (Hwf _ Ho2).
        intros E. apply Hemail. rewrite <- E. eapply Hemails; eauto.
      * eauto.
  - split; [done| |done|done].
    intros r res (c' & ? & ?)%Hentry. exists c'. rewrite elem_of_app. auto.
Qed.

Lemma assign_assigned cs done st :
  Forall items_of_email cs -> assigned_from done st ->
  assigned_from (done ++ cs) (foldl assign_step st cs).
Proof.
  revert done st. induction cs as [|c cs IH]; intros done st Hwf Hinv; simpl.
  - by rewrite app_nil_r.
  - apply Forall_cons in Hwf as [Hc Hcs].
    replace (done ++ c :: cs) with ((done ++ [c]) ++ cs)
      by (by rewrite <- app_assoc).
    apply IH; [done|]. by apply assign_step_assigned.
Qed.



(** Every entry of phase 2 was written by a candidate that reached the
    low threshold. *)
Lemma assign_entries cs done st :
  (forall r res, match_results st !! r = Some res ->
     exists c, c ∈ done /\ c_row c = r /\ CONFIDENCE_THRESHOLD_LOW <= c_score c /\
       res = (Some (c_items c), c_score c, classify (c_score c))) ->
  forall r res, match_results (foldl assign_step st cs) !! r = Some res ->
    exists c, c ∈ done ++ cs /\ c_row c = r /\
      CONFIDENCE_THRESHOLD_LOW <= c_score c /\
      res = (Some (c_items c), c_score c, classify (c_score c)).
Proof.
  revert done st. induction cs as [|c cs IH]; intros done st Hst r res; simpl.
  - rewrite app_nil_r. apply Hst.
  - replace (done ++ c :: cs) with ((done ++ [c]) ++ cs)
      by (by rewrite <- app_assoc).
    apply IH. clear r res. intros r res. rewrite assign_step_spec.
    destruct (decide _) as [[_ Hlow]|_]; simpl.
    + rewrite lookup_insert. case_decide as Hr.
      * intros [= <-]. exists c. rewrite elem_of_app, list_elem_of_singleton.
        auto.
      * intros (c' & ? & ?)%Hst. exists c'. rewrite elem_of_app. auto.
    + intros (c' & ? & ?)%Hst. exists c'. rewrite elem_of_app. auto.
Qed.

Lemma sort_matches_Permutation cs : sort_matches cs ≡ₚ cs.
Proof. apply py_sort_Permutation. Qed.

Lemma greedy_entry cs r res :
  match_results (assign_greedily cs) !! r = Some res ->
  exists c, c ∈ cs /\ c_row c = r /\ CONFIDENCE_THRESHOLD_LOW <= c_score c /\
    res = (Some (c_items c), c_score c, classify (c_score c)).
Proof.
  intros Hres.
  destruct (assign_entries (sort_matches cs) [] (Assignment ∅ ∅ ∅)
              ltac:(intros ? ? Hx; simpl in Hx; by rewrite lookup_empty in Hx)
              r res Hres)
    as (c & Hc & ?).
  exists c. split; [|done]. simpl in Hc. by rewrite sort_matches_Permutation in Hc.
Qed.

Lemma greedy_assigned cs :
  Forall items_of_email cs ->
  assigned_from (sort_matches cs) (assign_greedily cs).
Proof.
  intros Hwf.
  apply (assign_assigned (sort_matches cs) [] (Assignment ∅ ∅ ∅));
    [|apply assigned_from_init].
  by rewrite sort_matches_Permutation.
Qed.

(** ** Phase 3: the unmatched sweep *)

Lemma mark_unmatched_lookup (results : gmap Z match_result) transactions r :
  mark_unmatched results transactions !! r =
  match results !! r with
  | Some res => Some res
  | None =>
      if decide (r ∈ map _row_number transactions)
      then Some (None, 0, "unmatched"%string) else None
  end.
Proof.
  unfold mark_unmatched. revert results.
  induction transactions as [|t ts IH]; intros results; cbn [foldl map].
  - destruct (results !! r); [done|]. rewrite decide_False; [done|].
    apply not_elem_of_nil.
  - rewrite IH. destruct (results !! _row_number t) as [res|] eqn:Et.
    + destruct (results !! r) as [res'|] eqn:Er; [done|].
      destruct (decide (r = _row_number t)) as [->|Hne]; [congruence|].
      destruct (decide (r ∈ map _row_number ts)) as [Hin|Hin].
      * rewrite decide_True; [done|]. by right.
      * rewrite decide_False; [done|]. by intros [?|?]%elem_of_cons.
    + rewrite lookup_insert.
      destruct (decide (_row_number t = r)) as [Hr|Hr].
      * subst r. rewrite Et. rewrite decide_True; [done|]. by left.
      * destruct (results !! r) as [res'|]; [done|].
        destruct (decide (r ∈ map _row_number ts)) as [Hin|Hin].
        -- rewrite decide_True; [done|]. by right.
        -- rewrite decide_False; [done|].
           by intros [?|?]%elem_of_cons.
Qed.

(** ** The matching pass as a whole *)

Section MatchAllFacts.
Context {B : PyBuiltins}.

(** The pass returns: it is phase 3 after phase 2 after phase 1, and
    phase 1 lists the candidates transaction by transaction. *)
Lemma match_all_unfold transactions parsed_orders :
  match_all_transactions_optimally transactions parsed_orders =
  Ret (mark_unmatched
         (match_results (assign_greedily (all_candidates transactions parsed_orders)))
         transactions).
Proof.
  unfold match_all_transactions_optimally. rewrite score_all_app. reflexivity.
Qed.

Lemma all_candidates_items_of_email transactions parsed_orders :
  Forall items_of_email (all_candidates transactions parsed_orders).
Proof.
  apply Forall_forall. intros c (t & _ & _ & _ & Hitems & _)%all_candidates_scored.
  intros o Ho. rewrite Hitems in Ho.
  by apply orders_by_email_items in Ho as [? _].
Qed.

Lemma all_candidates_row transactions parsed_orders c :
  c ∈ all_candidates transactions parsed_orders ->
  c_row c ∈ map _row_number transactions.
Proof.
  intros (t & Ht & _ & -> & _)%all_candidates_scored.
  apply list_elem_of_fmap. eauto.
Qed.

(** C2. On any transactions and parsed orders the pass returns a
    dictionary in which every input transaction's row number has a result,
    one per row (and no other row has one), and no two rows hold items of
    the same shipment: items assigned to different rows never share an
    [email_id]. *)
Theorem C2_one_result_per_row_one_row_per_shipment
    (transactions : list transaction) (parsed_orders : list order) :
  exists results : gmap Z match_result,
    match_all_transactions_optimally transactions parsed_orders = Ret results /\
    (forall trans, trans ∈ transactions ->
       exists res, results !! _row_number trans = Some res) /\
    (forall r, is_Some (results !! r) -> r ∈ map _row_number transactions) /\
    (forall r1 r2 items1 items2 s1 s2 status1 status2 o1 o2,
       r1 <> r2 ->
       results !! r1 = Some (Some items1, s1, status1) ->
       results !! r2 = Some (Some items2, s2, status2) ->
       o1 ∈ items1 -> o2 ∈ items2 -> email_id o1 <> email_id o2).
Proof.
  eexists. split; [apply match_all_unfold|].
  set (cs := all_candidates transactions parsed_orders).
  pose proof (greedy_assigned cs (all_candidates_items_of_email _ _)) as Hinv.
  repeat split.
  - intros t Ht. rewrite mark_unmatched_lookup.
    destruct (match_results (assign_greedily cs) !! _row_number t); [by eauto|].
    rewrite decide_True; [by eauto|]. apply list_elem_of_fmap. eauto.
  - intros r [res Hres]. rewrite mark_unmatched_lookup in Hres.
    destruct (match_results (assign_greedily cs) !! r) as [res'|] eqn:Er.
    + apply greedy_entry in Er as (c & Hc & <- & _).
      by apply all_candidates_row in Hc.
    + by case_decide.
  - intros r1 r2 items1 items2 s1 s2 status1 status2 o1 o2 Hne.
    rewrite !mark_unmatched_lookup.
    destruct (match_results (assign_greedily cs) !! r1) as [res1|] eqn:E1;
      [|by case_decide].
    destruct (match_results (assign_greedily cs) !! r2) as [res2|] eqn:E2;
      [|by case_decide].
    intros [= ->] [= ->]. by eapply (af_inj _ _ Hinv).
Qed.

(** C3. In the result of the pass, an entry with items was written by a
    candidate of its row whose score is at least 40; its status is
    'matched' exactly when the score is at least 60 and 'low_confidence'
    exactly when the score is between 40 and 59. A transaction all of whose
    candidates score 39 or less gets no items and ends
    [(None, 0, 'unmatched')], whatever else is available. *)
Theorem C3_assignment_thresholds
    (transactions : list transaction) (parsed_orders : list order) :
  exists results : gmap Z match_result,
    match_all_transactions_optimally transactions parsed_orders = Ret results /\
    (forall r items s status,
       results !! r = Some (Some items, s, status) ->
       (exists c, c ∈ all_candidates transactions parsed_orders /\
                  c_row c = r /\ c_items c = items /\ c_score c = s) /\
       40 <= s /\
       (status = "matched"%string <-> 60 <= s) /\
       (status = "low_confidence"%string <-> 40 <= s <= 59)) /\
    (forall trans, trans ∈ transactions ->
       (forall c, c ∈ all_candidates transactions parsed_orders ->
                  c_row c = _row_number trans -> c_score c <= 39) ->
       results !! _row_number trans = Some (None, 0, "unmatched"%string)).
Proof.
  eexists. split; [apply match_all_unfold|].
  set (cs := all_candidates transactions parsed_orders).
  split.
  - intros r items s status. rewrite mark_unmatched_lookup.
    destruct (match_results (assign_greedily cs) !! r) as [res|] eqn:Er;
      [|by case_decide].
    apply greedy_entry in Er as (c & Hc & Hrow & Hlow & ->).
    intros [= <- <- <-].
    unfold CONFIDENCE_THRESHOLD_LOW in Hlow.
    split; [by eauto|]. split; [done|].
    rewrite classify_matched, classify_low_confidence.
    unfold CONFIDENCE_THRESHOLD_HIGH. split; [done|]. lia.
  - intros t Ht Hall. rewrite mark_unmatched_lookup.
    destruct (match_results (assign_greedily cs) !! _row_number t) as [res|] eqn:Er.
    + apply greedy_entry in Er as (c & Hc & Hrow & Hlow & _).
      specialize (Hall c Hc Hrow). unfold CONFIDENCE_THRESHOLD_LOW in Hlow. lia.
    + rewrite decide_True; [done|]. apply list_elem_of_fmap. eauto.
Qed.

End MatchAllFacts.

(** ** The order in which candidates are processed *)


Lemma score_before_total (c1 c2 : candidate) :
  (c_score c1 >=? c_score c2) = false -> (c_score c2 >=? c_score c1) = true.
Proof. lia. Qed.

Lemma score_before_trans (c1 c2 c3 : candidate) :
  (c_score c1 >=? c_score c2) = true -> (c_score c2 >=? c_score c3) = true ->
  (c_score c1 >=? c_score c3) = true.
Proof. lia. Qed.

Lemma StronglySorted_weaken {A} (R1 R2 : A -> A -> Prop) l :
  (forall x y, R1 x y -> R2 x y) -> StronglySorted R1 l -> StronglySorted R2 l.
Proof.
  intros Himp. induction 1 as [|x l Hs IH Hall]; constructor; [done|].
  eapply Forall_impl; [exact Hall|]. auto.
Qed.

(** The sorted list is a rearrangement in which scores never increase. *)
Lemma sort_matches_sorted cs :
  StronglySorted (fun c1 c2 => c_score c2 <= c_score c1) (sort_matches cs).
Proof.
  eapply StronglySorted_weaken;
    [|apply py_sort_sorted;
      [apply score_before_total|apply score_before_trans]].
  simpl. intros x y. lia.
Qed.







Section OrderFacts.
Context {B : PyBuiltins}.



End OrderFacts.

(** ** Transactions and shipments that never match *)

(** [abs(x) == 0] exactly when [x == 0]. *)
Lemma float_abs_eq_zero x :
  PyFloat.eq (PyFloat.fabs x) 0%float = PyFloat.eq x 0%float.
Proof.
  unfold PyFloat.eq, PyFloat.fabs.
  rewrite !FloatAxioms.eqb_spec, FloatAxioms.abs_spec.
  replace (Prim2SF 0) with (S754_zero false) by (vm_compute; reflexivity).
  by destruct (Prim2SF x) as [[]|[]| |[] m e].
Qed.

Lemma NoDup_fmap_eq {A C} (f : A -> C) (l : list A) x y :
  NoDup (f <$> l) -> x ∈ l -> y ∈ l -> f x = f y -> x = y.
Proof.
  induction l as [|z l IH]; intros Hnd Hx Hy Hf.
  - by apply elem_of_nil in Hx.
  - rewrite fmap_cons in Hnd. apply NoDup_cons in Hnd as [Hz Hnd].
    apply elem_of_cons in Hx as [->|Hx]; apply elem_of_cons in Hy as [->|Hy].
    + done.
    + exfalso. apply Hz. rewrite Hf. apply list_elem_of_fmap. eauto.
    + exfalso. apply Hz. rewrite <- Hf. apply list_elem_of_fmap. eauto.
    + by apply IH.
Qed.

Lemma score_shipment_has_total used trans_amount b group :
  best_has_total b -> best_has_total (score_shipment used trans_amount b group).
Proof.
  intros Hb. unfold score_shipment. destruct group as [eid order_items].
  destruct (decide (eid ∈ used)); [done|].
  destruct order_items as [|[first d] rest]; [done|].
  destruct (PyFloat.truthy (shipment_total first)) eqn:Et; [|done]. simpl.
  destruct (_ >? best_score b); [|done].
  unfold best_has_total. simpl. eauto.
Qed.

Lemma score_shipments_has_total used trans_amount groups b :
  best_has_total b ->
  best_has_total (foldl (score_shipment used trans_amount) b groups).
Proof.
  revert b. induction groups as [|g groups IH]; intros b Hb; simpl; [done|].
  by apply IH, score_shipment_has_total.
Qed.

Lemma match_by_type_has_total used trans_date trans_amount parsed_orders types b :
  best_has_total b ->
  best_has_total
    (match_by_type used trans_date trans_amount parsed_orders types b).
Proof.
  revert b. induction types as [|ty types IH]; intros b Hb; cbn [match_by_type];
    [done|].
  destruct (window_candidates trans_date ty parsed_orders) as [|od ods];
    [by apply IH|].
  set (b' := foldl _ b _).
  assert (best_has_total b') as Hb' by by apply score_shipments_has_total.
  destruct (best_score b' >=? CONFIDENCE_THRESHOLD_HIGH); [done|by apply IH].
Qed.

Section NeverMatched.
Context {B : PyBuiltins}.

Lemma match_transaction_returns trans parsed_orders used :
  exists r, match_transaction trans parsed_orders used = Ret r.
Proof.
  unfold match_transaction.
  destruct (parse_date_returns (Some (Date trans))) as [d ->].
  destruct (parse_amount_returns (Some (Amount trans))) as [x ->].
  cbn [mbind exn_or_bind].
  destruct d as [d|]; [|by eexists].
  destruct (PyFloat.eq _ _); [by eexists|].
  destruct (best_match _); [|by eexists].
  repeat (destruct (_ >=? _)); by eexists.
Qed.

Lemma match_transaction_has_total trans parsed_orders used items s status m :
  match_transaction trans parsed_orders used = Ret (Some items, s, status, m) ->
  exists first rest,
    items = first :: rest /\ PyFloat.truthy (shipment_total first) = true.
Proof.
  unfold match_transaction.
  destruct (parse_date_returns (Some (Date trans))) as [d ->].
  destruct (parse_amount_returns (Some (Amount trans))) as [x ->].
  cbn [mbind exn_or_bind].
  destruct d as [d|]; [|done].
  destruct (PyFloat.eq _ _); [done|].
  set (b := match_by_type _ _ _ _ _ _).
  assert (best_has_total b) as Hb by (by apply match_by_type_has_total).
  unfold best_has_total in Hb.
  destruct (best_match b); [|done].
  repeat (destruct (_ >=? _)); intros [= <- _ _ _]; exact Hb.
Qed.

(** A skipped transaction leaves [all_matches] as it found it, and ends
    unmatched when no other transaction shares its row number. *)
Lemma skipped_unmatched transactions parsed_orders trans :
  trans ∈ transactions -> NoDup (_row_number <$> transactions) ->
  skipped trans ->
  mark_unmatched
    (match_results (assign_greedily (all_candidates transactions parsed_orders)))
    transactions !! _row_number trans
  = Some (None, 0, "unmatched"%string).
Proof.
  intros Hin Hnd Hskip. rewrite mark_unmatched_lookup.
  destruct (match_results _ !! _row_number trans) as [res|] eqn:Er.
  - apply greedy_entry in Er as (c & Hc & Hrow & _).
    apply all_candidates_scored in Hc as (t & Ht & Hns & Hrow' & _).
    assert (t = trans) as ->; [|done].
    eapply NoDup_fmap_eq; [exact Hnd|done..|congruence].
  - rewrite decide_True; [done|]. apply list_elem_of_fmap. eauto.
Qed.

(** C6. A transaction whose date does not parse ([parse_date] returns
    [None]) or whose amount parses to zero adds no candidate in phase 1, and
    in a ledger with distinct row numbers its result is
    [(None, 0, 'unmatched')]. The parsers never raise: [parse_amount] and
    [parse_date] return on every input, [parse_amount] returns 0.0 when
    [float()] rejects the text, and [parse_date] returns [None] when
    [strptime] rejects the text under every format. *)
Theorem C6_unparseable_transaction_unmatched :
  (forall transactions parsed_orders trans,
     trans ∈ transactions ->
     NoDup (_row_number <$> transactions) ->
     (parse_date (Some (Date trans)) = Ret None \/
      exists x, parse_amount (Some (Amount trans)) = Ret x /\
                PyFloat.eq x 0%float = true) ->
     (forall all_matches,
        score_transaction (emails_by_type parsed_orders)
          (orders_by_email parsed_orders) all_matches trans = Ret all_matches) /\
     (forall c, c ∈ all_candidates [trans] parsed_orders -> False) /\
     exists results : gmap Z match_result,
       match_all_transactions_optimally transactions parsed_orders = Ret results /\
       results !! _row_number trans = Some (None, 0, "unmatched"%string)) /\
  (forall amount_value, exists x, parse_amount amount_value = Ret x) /\
  (forall date_str, exists d, parse_date date_str = Ret d) /\
  (forall v e,
     py_float (snd (amount_text v)) = Raise e ->
     parse_amount (Some v) = Ret 0%float) /\
  (forall s,
     (forall fmt, fmt ∈ parse_date_formats ->
        exists e, py_strptime (PyStr.strip s) fmt = Raise e) ->
     parse_date (Some s) = Ret None).
Proof.
  split; [|split; [exact parse_amount_returns|split; [exact parse_date_returns|split]]].
  - intros transactions parsed_orders trans Hin Hnd Hbad.
    assert (skipped trans) as Hskip.
    { destruct Hbad as [Hd|(x & Hx & H0)]; [by left|].
      right. exists x. by rewrite float_abs_eq_zero. }
    split; [|split].
    + intros all_matches. rewrite score_transaction_app.
      by rewrite candidates_of_skipped, app_nil_r.
    + intros c. unfold all_candidates.
      rewrite bind_cons, app_nil_r, candidates_of_skipped by done.
      apply elem_of_nil.
    + eexists. split; [apply match_all_unfold|]. by apply skipped_unmatched.
  - intros v e He. rewrite parse_amount_unfold, He.
    by destruct (PyStr.is_empty _).
  - intros s Hall. unfold parse_date.
    destruct (PyStr.is_empty s); [done|].
    by apply parse_date_loop_unparseable.
Qed.

(** C7, as amended. A shipment is scored and recorded as a candidate only
    if the total of its first record is not zero: the items of every
    candidate and of every assigned result of the batch pass, and the items
    returned by the single-transaction matcher, start with a record whose
    [shipment_total] is truthy. A total that is missing or that [float()]
    rejects is read as 0.0 by [_safe_float], and 0.0 is not truthy, so such
    a shipment is in no candidate pair. *)
Theorem C7_candidate_total_not_zero :
  (forall transactions parsed_orders c,
     c ∈ all_candidates transactions parsed_orders ->
     exists first rest,
       c_items c = first :: rest /\
       default [] (orders_by_email parsed_orders !! c_email c) = first :: rest /\
       PyFloat.truthy (shipment_total first) = true) /\
  (forall transactions parsed_orders,
     exists results : gmap Z match_result,
       match_all_transactions_optimally transactions parsed_orders = Ret results /\
       forall r items s status,
         results !! r = Some (Some items, s, status) ->
         exists first rest,
           items = first :: rest /\
           PyFloat.truthy (shipment_total first) = true) /\
  (forall trans parsed_orders used_email_ids,
     exists r,
       match_transaction trans parsed_orders used_email_ids = Ret r /\
       forall items s status m, r = (Some items, s, status, m) ->
         exists first rest,
           items = first :: rest /\
           PyFloat.truthy (shipment_total first) = true) /\
  _safe_float "" = Ret 0%float /\
  (forall value e,
     py_float (PyStr.remove_char "," (PyStr.remove_char "$" value)) = Raise e ->
     _safe_float value = Ret 0%float) /\
  PyFloat.truthy 0%float = false /\ PyFloat.truthy (-0)%float = false.
Proof.
  split; [|split; [|split; [|split; [|split; [|split]]]]].
  - intros transactions parsed_orders c
      (t & _ & _ & _ & Hitems & first & rest & _ & Hc & Ht & _)%all_candidates_scored.
    exists first, rest. by rewrite <- Hitems.
  - intros transactions parsed_orders. eexists.
    split; [apply match_all_unfold|].
    intros r items s status. rewrite mark_unmatched_lookup.
    destruct (match_results _ !! r) as [res|] eqn:Er; [|by case_decide].
    apply greedy_entry in Er as (c & Hc & _ & _ & ->). intros [= <- _ _].
    apply all_candidates_scored
      in Hc as (t & _ & _ & _ & _ & first & rest & _ & Hc & Ht & _).
    eauto.
  - intros trans parsed_orders used.
    destruct (match_transaction_returns trans parsed_orders used) as [r Hr].
    exists r. split; [done|]. intros items s status m ->.
    by eapply match_transaction_has_total.
  - reflexivity.
  - intros value e He. unfold _safe_float. rewrite He.
    destruct (PyStr.is_empty value); [done|].
    apply py_float_raises in He. by subst e.
  - reflexivity.
  - reflexivity.
Qed.

End NeverMatched.

(** ** Concrete runs *)

(** Scenario 1: score 64, matched. *)
Lemma scenario_1_matched :
  exists results : gmap Z match_result,
    match_all_transactions_optimally (B := demo_builtins)
      [charge_41_03] [shipment_41_03] = Ret results /\
    results !! 2 = Some (Some [shipment_41_03], 64, "matched"%string).
Proof. eexists. split; [apply match_all_unfold|]. vm_compute. reflexivity. Qed.

Lemma C2_one_result_per_row_one_row_per_shipment_witness :
  exists results : gmap Z match_result,
    match_all_transactions_optimally (B := demo_builtins)
      [charge_41_03; bad_date_row] [shipment_41_03] = Ret results /\
    exists res, results !! 3 = Some res.
Proof.
  destruct (C2_one_result_per_row_one_row_per_shipment (B := demo_builtins)
              [charge_41_03; bad_date_row] [shipment_41_03])
    as (results & Hret & Hrows & _).
  exists results. split; [exact Hret|].
  apply (Hrows bad_date_row). apply list_elem_of_In. simpl. auto.
Defined.

Lemma exn_ret_inj {A} (x y : A) : Ret x = Ret y -> x = y.
Proof. by intros [= ->]. Qed.

(** Three charges against three shipments: row 2 scores 64 and is
    'matched', row 4 scores 44 and is 'low_confidence', and row 6, whose
    only candidate scores 34, claims nothing and ends 'unmatched'. *)
Lemma C3_assignment_thresholds_witness :
  exists results : gmap Z match_result,
    match_all_transactions_optimally (B := demo_builtins)
      [charge_41_03; charge_1_50; charge_50_00]
      [shipment_41_03; shipment_2_00; shipment_52_50] = Ret results /\
    results !! 2 = Some (Some [shipment_41_03], 64, "matched"%string) /\
    ("matched"%string = "matched"%string <-> 60 <= 64) /\
    results !! 4 = Some (Some [shipment_2_00], 44, "low_confidence"%string) /\
    ("low_confidence"%string = "low_confidence"%string <-> 40 <= 44 <= 59) /\
    Candidate 34 6 "msg-5" [shipment_52_50]
      ∈ all_candidates (B := demo_builtins)
          [charge_41_03; charge_1_50; charge_50_00]
          [shipment_41_03; shipment_2_00; shipment_52_50] /\
    results !! 6 = Some (None, 0, "unmatched"%string).
Proof.
  destruct (C3_assignment_thresholds (B := demo_builtins)
              [charge_41_03; charge_1_50; charge_50_00]
              [shipment_41_03; shipment_2_00; shipment_52_50])
    as (results & Hret & Hentry & Hlow).
  assert (results !! 2 = Some (Some [shipment_41_03], 64, "matched"%string))
    as H2.
  { rewrite match_all_unfold in Hret. apply exn_ret_inj in Hret.
    rewrite <- Hret. vm_compute. reflexivity. }
  assert (results !! 4 = Some (Some [shipment_2_00], 44, "low_confidence"%string))
    as H4.
  { rewrite match_all_unfold in Hret. apply exn_ret_inj in Hret.
    rewrite <- Hret. vm_compute. reflexivity. }
  destruct (Hentry _ _ _ _ H2) as (_ & _ & Hmatched & _).
  destruct (Hentry _ _ _ _ H4) as (_ & _ & _ & Hlow_confidence).
  exists results. split; [exact Hret|].
  split; [exact H2|]. split; [exact Hmatched|].
  split; [exact H4|]. split; [exact Hlow_confidence|].
  split.
  - vm_compute. apply list_elem_of_further, list_elem_of_further,
      list_elem_of_here.
  - apply (Hlow charge_50_00).
    + apply list_elem_of_further, list_elem_of_further, list_elem_of_here.
    + intros c Hc Hrow. vm_compute in Hc. apply list_elem_of_In in Hc.
      destruct Hc as [<-|[<-|[<-|[]]]].
      * discriminate Hrow.
      * discriminate Hrow.
      * vm_compute. discriminate.
Defined.

Lemma C6_unparseable_transaction_unmatched_witness :
  exists results : gmap Z match_result,
    match_all_transactions_optimally (B := demo_builtins)
      [charge_41_03; bad_date_row] [shipment_41_03] = Ret results /\
    results !! 3 = Some (None, 0, "unmatched"%string).
Proof.
  destruct (proj1 (C6_unparseable_transaction_unmatched (B := demo_builtins))
              [charge_41_03; bad_date_row] [shipment_41_03] bad_date_row)
    as (_ & _ & H).
  - apply list_elem_of_In. simpl. auto.
  - apply NoDup_ListNoDup. vm_compute. repeat constructor; simpl; intuition lia.
  - left. vm_compute. reflexivity.
  - exact H.
Defined.

Lemma C7_candidate_total_not_zero_witness :
  exists first rest,
    c_items (Candidate 64 2 "msg-1" [shipment_41_03]) = first :: rest /\
    default [] (orders_by_email [shipment_41_03] !! "msg-1"%string) = first :: rest /\
    PyFloat.truthy (shipment_total first) = true.
Proof.
  apply (proj1 (C7_candidate_total_not_zero (B := demo_builtins))
           [charge_41_03] [shipment_41_03]).
  vm_compute. apply list_elem_of_here.
Defined.

(** C7 as stated fails: a total below zero is truthy, so the shipment is
    scored; against a charge of 1.50 on the same day the total -1.00
    differs by 2.50 and the pair is a candidate with score 20 + 20 + 10. *)
Lemma C7_counterexample :
  ~ (forall transactions parsed_orders c,
       c ∈ all_candidates (B := demo_builtins) transactions parsed_orders ->
       forall o, o ∈ c_items c -> PyFloat.gt (shipment_total o) 0%float = true).
Proof.
  intros H.
  specialize (H [charge_1_50] [shipment_negative_total]
                (Candidate 50 4 "msg-2" [shipment_negative_total])).
  assert (PyFloat.gt (shipment_total shipment_negative_total) 0%float = true)
    as Hgt; [|vm_compute in Hgt; discriminate].
  apply H.
  - vm_compute. apply list_elem_of_here.
  - apply list_elem_of_here.
Qed.

(** The same run to its end: the shipment with the negative total is
    assigned, with low confidence. *)
Lemma negative_total_assigned :
  exists results : gmap Z match_result,
    match_all_transactions_optimally (B := demo_builtins)
      [charge_1_50] [shipment_negative_total] = Ret results /\
    results !! 4 =
      Some (Some [shipment_negative_total], 50, "low_confidence"%string) /\
    match_transaction (B := demo_builtins) charge_1_50
      [shipment_negative_total] ∅ =
      Ret (Some [shipment_negative_total], 50, "low_confidence"%string,
           Some "msg-2"%string).
Proof.
  eexists. split; [apply match_all_unfold|]. split; vm_compute; reflexivity.
Qed.

(** ** Grouping in insertion order *)

Section Groups.
Context {K V : Type} `{EqDecision K}.

Lemma group_append_lookup (k : K) (v : V) (groups : list (K * list V)) k' :
  group_lookup k' (group_append k v groups) =
  if decide (k' = k) then group_lookup k groups ++ [v]
  else group_lookup k' groups.
Proof.
  induction groups as [|[k0 vs] rest IH]; simpl.
  - destruct (decide (k = k')) as [->|Hne].
    + by rewrite decide_True.
    + by rewrite decide_False by congruence.
  - destruct (decide (k0 = k)) as [->|Hne]; simpl.
    + destruct (decide (k = k')) as [->|Hne'].
      * by rewrite decide_True.
      * by rewrite decide_False by congruence.
    + destruct (decide (k0 = k')) as [->|Hne'].
      * by rewrite decide_False.
      * exact IH.
Qed.

Lemma group_append_keys (k : K) (v : V) (groups : list (K * list V)) :
  (group_append k v groups).*1 =
  groups.*1 ++ (if decide (k ∈ groups.*1) then [] else [k]).
Proof.
  induction groups as [|[k0 vs] rest IH].
  - cbn [group_append fmap list_fmap fst app].
    rewrite decide_False; [done|]. apply not_elem_of_nil.
  - cbn [group_append]. destruct (decide (k0 = k)) as [->|Hne];
      cbn [fmap list_fmap fst app].
    + rewrite decide_True by (by left). by rewrite app_nil_r.
    + fold (@fmap list _ _ _ (@fst K (list V)) (group_append k v rest)).
      rewrite IH. f_equal. f_equal.
      destruct (decide (k ∈ rest.*1)) as [Hin|Hin].
      * rewrite decide_True; [done|]. by right.
      * rewrite decide_False; [done|]. intros [?|?]%elem_of_cons; congruence.
Qed.

Lemma group_elem_lookup (k : K) (vs : list V) (groups : list (K * list V)) :
  NoDup groups.*1 -> (k, vs) ∈ groups -> group_lookup k groups = vs.
Proof.
  induction groups as [|[k0 vs0] rest IH]; simpl; intros Hnd Hin.
  - by apply elem_of_nil in Hin.
  - apply NoDup_cons in Hnd as [Hk0 Hnd].
    apply elem_of_cons in Hin as [[= <- <-]|Hin].
    + by rewrite decide_True.
    + rewrite decide_False; [by apply IH|].
      intros ->. apply Hk0. apply list_elem_of_fmap. by exists (k, vs).
Qed.

End Groups.

(** The groups of [_dedup_plaid_transactions]: one per key, each holding
    the rows with that key in input order. *)
Lemma group_transactions_lookup transactions k :
  group_lookup k (group_transactions transactions) =
  filter (fun t => dedup_key t = k) transactions.
Proof.
  unfold group_transactions.
  induction transactions as [|t ts IH] using rev_ind; [done|].
  rewrite foldl_app. cbn [foldl]. rewrite group_append_lookup, filter_app.
  destruct (decide (k = dedup_key t)) as [->|Hne].
  - by rewrite IH, filter_cons_True, filter_nil.
  - rewrite IH, filter_cons_False, filter_nil, app_nil_r; [done|congruence].
Qed.

Lemma group_transactions_keys transactions :
  NoDup (group_transactions transactions).*1 /\
  forall k, k ∈ (group_transactions transactions).*1 <->
            exists t, t ∈ transactions /\ dedup_key t = k.
Proof.
  unfold group_transactions.
  induction transactions as [|t ts [IHnd IHk]] using rev_ind.
  - split; [constructor|]. intros k. split.
    + by intros ?%elem_of_nil.
    + by intros (t & ?%elem_of_nil & _).
  - rewrite foldl_app. cbn [foldl]. rewrite group_append_keys.
    set (g := foldl _ [] ts) in *.
    destruct (decide (dedup_key t ∈ g.*1)) as [Hin|Hin].
    + rewrite app_nil_r. split; [done|]. intros k. rewrite IHk. split.
      * intros (t' & ? & ?). exists t'. rewrite elem_of_app. auto.
      * intros (t' & [?|Ht']%elem_of_app & <-); [by eauto|].
        apply list_elem_of_singleton in Ht'. subst t'. by apply IHk.
    + split.
      * apply NoDup_app. split; [done|]. split; [|apply NoDup_singleton].
        intros k Hk Hk'. apply list_elem_of_singleton in Hk'. by subst k.
      * intros k. rewrite elem_of_app, list_elem_of_singleton, IHk. split.
        -- intros [(t' & ? & ?)| ->].
           ++ exists t'. rewrite elem_of_app. auto.
           ++ exists t. rewrite elem_of_app, list_elem_of_singleton. auto.
        -- intros (t' & [?|Ht']%elem_of_app & <-); [left; by eauto|].
           apply list_elem_of_singleton in Ht'. subst t'. by right.
Qed.

Lemma group_transactions_rows transactions k rows :
  (k, rows) ∈ group_transactions transactions ->
  rows = filter (fun t => dedup_key t = k) transactions /\ rows <> [].
Proof.
  intros Hin. destruct (group_transactions_keys transactions) as [Hnd Hk].
  rewrite <- group_transactions_lookup.
  rewrite (group_elem_lookup _ _ _ Hnd Hin). split; [done|].
  assert (k ∈ (group_transactions transactions).*1) as (t & Ht & Hkey)%Hk.
  { apply list_elem_of_fmap. by exists (k, rows). }
  pose proof (group_elem_lookup _ _ _ Hnd Hin) as Hl.
  rewrite group_transactions_lookup in Hl. intros ->.
  assert (t ∈ filter (fun t => dedup_key t = k) transactions) as Hf
    by (by apply list_elem_of_filter).
  rewrite Hl in Hf. by apply elem_of_nil in Hf.
Qed.

(** ** The sort keys of the deduplication *)

Lemma str_lt_le s1 s2 : PyStr.lt s1 s2 = negb (String.leb s2 s1).
Proof.
  unfold PyStr.lt, String.ltb, String.leb.
  rewrite (String.compare_antisym s2 s1).
  by destruct (String.compare s1 s2).
Qed.

Lemma str_leb_trans s1 s2 s3 :
  String.leb s1 s2 = true -> String.leb s2 s3 = true -> String.leb s1 s3 = true.
Proof.
  intros H1%Is_true_true H2%Is_true_true. apply Is_true_true.
  exact (transitivity (R := String.le) H1 H2).
Qed.

(** [k1 < k2] fails exactly when [k2 <= k1]: the key of [k2] has no hint
    that [k1] lacks, and with equal hints its date text is not greater. *)
Lemma hint_key_lt_false (k1 k2 : bool * string) :
  hint_key_lt k1 k2 = false <->
  (fst k2 = false /\ fst k1 = true) \/
  (fst k2 = fst k1 /\ String.leb (snd k2) (snd k1) = true).
Proof.
  unfold hint_key_lt. destruct k1 as [[] d1], k2 as [[] d2]; simpl;
    rewrite ?str_lt_le, ?negb_false_iff; intuition congruence.
Qed.

Lemma hint_before_total (x y : transaction) :
  before_by_key hint_key hint_key_lt x y = false ->
  before_by_key hint_key hint_key_lt y x = true.
Proof.
  unfold before_by_key. rewrite negb_false_iff, negb_true_iff.
  intros H. apply hint_key_lt_false.
  destruct (hint_key_lt (hint_key x) (hint_key y)) eqn:E'; [|by apply hint_key_lt_false].
  revert H E'. unfold hint_key_lt.
  destruct (hint_key x) as [[] d1], (hint_key y) as [[] d2]; simpl;
    rewrite ?str_lt_le, ?negb_true_iff; try done.
  - intros H1 H2. destruct (String.leb_total d1 d2); congruence.
  - intros H1 H2. destruct (String.leb_total d1 d2); congruence.
Qed.

Lemma hint_before_trans (x y z : transaction) :
  before_by_key hint_key hint_key_lt x y = true ->
  before_by_key hint_key hint_key_lt y z = true ->
  before_by_key hint_key hint_key_lt x z = true.
Proof.
  unfold before_by_key. rewrite !negb_true_iff, !hint_key_lt_false.
  intros [[H1 H2]|[H1 H2]] [[H3 H4]|[H3 H4]]; try (left; split; congruence).
  right. split; [congruence|]. by eapply str_leb_trans.
Qed.

Lemma row_before_total (x y : transaction) :
  before_by_key _row_number Z.ltb x y = false ->
  before_by_key _row_number Z.ltb y x = true.
Proof. unfold before_by_key. lia. Qed.

Lemma row_before_trans (x y z : transaction) :
  before_by_key _row_number Z.ltb x y = true ->
  before_by_key _row_number Z.ltb y z = true ->
  before_by_key _row_number Z.ltb x z = true.
Proof. unfold before_by_key. lia. Qed.

(** ** Deduplication keeps the best row of every group *)

Lemma hint_before_is_le x b :
  before_by_key hint_key hint_key_lt x b = true ->
  (_has_hint x = true -> _has_hint b = true) /\
  (_has_hint x = _has_hint b ->
   String.leb (_date_added x) (_date_added b) = true).
Proof.
  unfold before_by_key. rewrite negb_true_iff, hint_key_lt_false. simpl.
  intros [[H1 H2]|[H1 H2]]; split; congruence.
Qed.

Lemma pick_best_spec deduped k rows :
  rows <> [] ->
  exists b, pick_best deduped (k, rows) = Ret (deduped ++ [b]) /\ is_best rows b.
Proof.
  intros Hne. unfold pick_best. cbn [snd].
  assert (exists b, last (py_sort (before_by_key hint_key hint_key_lt) rows)
                    = Some b) as [b Hb].
  { apply last_is_Some. intros Hnil.
    pose proof (py_sort_Permutation (before_by_key hint_key hint_key_lt) rows)
      as Hp.
    rewrite Hnil in Hp. by apply Permutation_nil_l in Hp. }
  assert (is_best rows b) as Hbest.
  { split.
    - apply (py_sort_elem_of (before_by_key hint_key hint_key_lt)).
      apply last_Some in Hb as [l' ->]. apply elem_of_app. right. by left.
    - intros x Hx. apply hint_before_is_le.
      eapply py_sort_last_greatest;
        [apply hint_before_total|apply hint_before_trans|exact Hb|exact Hx]. }
  destruct rows as [|only [|second more]]; [done| |].
  - exists only. split; [done|].
    cbn in Hb. injection Hb as <-. done.
  - exists b. by rewrite Hb.
Qed.

Lemma pick_all_spec groups deduped :
  (forall k rows, (k, rows) ∈ groups ->
     rows <> [] /\ forall t, t ∈ rows -> dedup_key t = k) ->
  exists bs, pick_all deduped groups = Ret (deduped ++ bs) /\
             Forall2 chosen_from groups bs.
Proof.
  revert deduped. induction groups as [|[k rows] gs IH]; intros deduped Hg.
  - exists []. by rewrite app_nil_r.
  - destruct (Hg k rows ltac:(by left)) as [Hne Hkey].
    destruct (pick_best_spec deduped k rows Hne) as (b & Hb & Hbest).
    destruct (IH (deduped ++ [b])) as (bs & Hbs & Hall).
    { intros k' rows' Hin. apply Hg. by right. }
    exists (b :: bs). split.
    + cbn [pick_all]. rewrite Hb. cbn [mbind exn_or_bind]. rewrite Hbs.
      by rewrite <- app_assoc.
    + constructor; [|done]. split; [done|]. apply Hkey, Hbest.
Qed.

Lemma chosen_keys groups bs b :
  Forall2 chosen_from groups bs -> b ∈ bs -> dedup_key b ∈ groups.*1.
Proof.
  induction 1 as [|g b' gs bs' [_ Hk] _ IH]; intros Hin.
  - by apply elem_of_nil in Hin.
  - rewrite fmap_cons. apply elem_of_cons in Hin as [->|Hin].
    + rewrite Hk. by left.
    + right. by apply IH.
Qed.

Lemma chosen_filter groups bs k :
  NoDup groups.*1 -> Forall2 chosen_from groups bs -> k ∈ groups.*1 ->
  exists rows b, (k, rows) ∈ groups /\ is_best rows b /\
                 filter (fun r => dedup_key r = k) bs = [b].
Proof.
  intros Hnd Hall. revert Hnd.
  induction Hall as [|[k0 rows0] b gs bs [Hbest Hk] Hall IH]; intros Hnd Hin.
  - by apply elem_of_nil in Hin.
  - rewrite fmap_cons in Hnd, Hin. apply NoDup_cons in Hnd as [Hk0 Hnd].
    simpl in Hk, Hbest, Hk0, Hin.
    destruct (decide (k = k0)) as [->|Hne].
    + exists rows0, b. split; [by left|]. split; [done|].
      rewrite filter_cons_True by done. f_equal.
      destruct (filter (fun r => dedup_key r = k0) bs) as [|z zs] eqn:Ez; [done|].
      assert (z ∈ filter (fun r => dedup_key r = k0) bs) as Hz
        by (rewrite Ez; by left).
      apply list_elem_of_filter in Hz as [Hzk Hz].
      exfalso. apply Hk0. rewrite <- Hzk. by eapply chosen_keys.
    + apply elem_of_cons in Hin as [?|Hin]; [done|].
      destruct (IH Hnd Hin) as (rows & b' & ? & ? & Hf).
      exists rows, b'. split; [by right|]. split; [done|].
      rewrite filter_cons_False by congruence. done.
Qed.

(** A duplicate-free list sorted by a key, drawn from a list that is
    strictly sorted by it, is a subsequence of that list. *)
Lemma sorted_sublist {A} (f : A -> Z) (l2 l1 : list A) :
  StronglySorted (fun a b => f a < f b) l2 ->
  StronglySorted (fun a b => f a <= f b) l1 ->
  NoDup l1 -> (forall x, x ∈ l1 -> x ∈ l2) -> sublist l1 l2.
Proof.
  revert l1. induction l2 as [|y l2 IH]; intros l1 Hs2 Hs1 Hnd Hsub.
  - destruct l1 as [|x l1]; [done|].
    by destruct (proj1 (elem_of_nil x) (Hsub x ltac:(by left))).
  - apply StronglySorted_inv in Hs2 as [Hs2 Hy]. rewrite Forall_forall in Hy.
    destruct l1 as [|x l1]; [apply sublist_nil_l|].
    pose proof Hs1 as Hs1'.
    apply StronglySorted_inv in Hs1' as [Hs1' Hx]. rewrite Forall_forall in Hx.
    pose proof Hnd as Hnd'. apply NoDup_cons in Hnd' as [Hxl Hnd'].
    destruct (proj1 (elem_of_cons _ _ _) (Hsub x ltac:(by left))) as [->|Hin].
    + apply sublist_skip. apply IH; [done..|].
      intros z Hz.
      destruct (proj1 (elem_of_cons _ _ _) (Hsub z ltac:(by right)))
        as [->|?]; [done|done].
    + apply sublist_cons. apply IH; [done..|].
      intros z Hz.
      destruct (proj1 (elem_of_cons _ _ _) (Hsub z Hz)) as [->|?]; [|done].
      exfalso. pose proof (Hy x Hin) as Hlt.
      apply elem_of_cons in Hz as [->|Hz]; [lia|].
      pose proof (Hx y Hz). lia.
Qed.

Lemma row_sort_sorted (l : list transaction) :
  StronglySorted (fun a b => _row_number a <= _row_number b)
                 (py_sort (before_by_key _row_number Z.ltb) l).
Proof.
  eapply StronglySorted_weaken;
    [|apply py_sort_sorted; [apply row_before_total|apply row_before_trans]].
  unfold before_by_key. simpl. intros x y. lia.
Qed.

Lemma chosen_NoDup groups bs :
  NoDup groups.*1 -> Forall2 chosen_from groups bs -> NoDup bs.
Proof.
  intros Hnd Hall. revert Hnd.
  induction Hall as [|[k0 rows0] b gs bs [Hbest Hk] Hall IH]; intros Hnd.
  - constructor.
  - rewrite fmap_cons in Hnd. apply NoDup_cons in Hnd as [Hk0 Hnd].
    constructor; [|by apply IH].
    intros Hin. apply Hk0. simpl in *. rewrite <- Hk. by eapply chosen_keys.
Qed.


(** Scenario 5: of the three copies the one with the hint is kept. *)
Lemma scenario_5_keeps_hinted_row :
  _dedup_plaid_transactions [triple_no_hint_1; triple_with_hint; triple_no_hint_2]
  = Ret [triple_with_hint].
Proof. vm_compute. reflexivity. Qed.



(** ** Known patterns and the rows of unmatched transactions *)

Lemma known_pattern_loop_elem desc_upper patterns name :
  known_pattern_loop desc_upper patterns = Some name ->
  exists pattern exact_match, (pattern, exact_match, name) ∈ patterns.
Proof.
  induction patterns as [|[[p e] n] rest IH]; [done|]. cbn [known_pattern_loop].
  destruct e.
  - destruct (String.eqb desc_upper (PyStr.upper p)).
    + intros [= <-]. exists p, true. by left.
    + intros (p' & e' & ?)%IH. exists p', e'. by right.
  - destruct (PyStr.contains (PyStr.upper p) desc_upper).
    + intros [= <-]. exists p, false. by left.
    + intros (p' & e' & ?)%IH. exists p', e'. by right.
Qed.

(** Every clean name of the list is a non-empty text, so a hit is never
    taken for a miss by [if clean_name]. *)
Lemma known_pattern_nonempty description name :
  get_known_amazon_pattern description = Some name ->
  exists c rest, name = String c rest.
Proof.
  intros (p & e & Hin)%known_pattern_loop_elem.
  unfold AMAZON_KNOWN_PATTERNS in Hin.
  repeat (apply elem_of_cons in Hin as [[= -> -> ->]|Hin];
          [by eexists _, _|]).
  by apply elem_of_nil in Hin.
Qed.

Section OutputFacts.
Context {B : PyBuiltins}.
Variable summarize_item_name : string -> string.
Variable format_2f : float -> string.
Variable run_processed_at : string.

Lemma rows_of_transaction_returns amazon_row_numbers results trans :
  exists rows,
    rows_of_transaction summarize_item_name format_2f run_processed_at
      amazon_row_numbers results trans = Ret rows.
Proof.
  unfold rows_of_transaction.
  destruct (if decide _ then _ else _) as [[[items confidence] status]|];
    [|by eexists].
  destruct (has_matched_items items status).
  - destruct (parse_amount_returns (Some (Amount trans))) as [x ->].
    by eexists.
  - destruct (get_known_amazon_pattern _) as [[|c name]|]; by eexists.
Qed.

Lemma emit_rows_app amazon_transactions results output_rows transactions :
  emit_rows summarize_item_name format_2f run_processed_at
    (list_to_set (map _row_number amazon_transactions)) results output_rows
    transactions =
  Ret (output_rows ++ (transactions ≫= rows_for summarize_item_name format_2f run_processed_at
       amazon_transactions results)).
Proof.
  revert output_rows.
  induction transactions as [|t ts IH]; intros output_rows; cbn [emit_rows].
  - by rewrite app_nil_r.
  - destruct (rows_of_transaction_returns
                (list_to_set (map _row_number amazon_transactions)) results t)
      as [rows Hrows].
    rewrite bind_cons.
    assert (rows_for summarize_item_name format_2f run_processed_at
       amazon_transactions results t = rows) as ->
      by (unfold rows_for; by rewrite Hrows).
    rewrite Hrows. cbn [mbind exn_or_bind]. rewrite IH. by rewrite app_assoc.
Qed.

(** C9. A description that is 'Amazon Prime' after trimming and
    upper-casing is given the clean name 'Amazon Prime - Subscription'. For
    an Amazon transaction whose match result is 'unmatched',
    [generate_output_rows] emits exactly one row: when the ordered pattern
    list hits, the row carries the clean name of the pattern as Description
    and 'known_pattern' as match_status, with no shipment involved; when it
    misses, the row keeps the description and is 'unmatched'. The output is
    the concatenation of the rows of the transactions, in order. *)
Theorem C9_known_pattern_row :
  (forall description,
     PyStr.upper (PyStr.strip description) = "AMAZON PRIME"%string ->
     get_known_amazon_pattern description
     = Some "Amazon Prime - Subscription"%string) /\
  (forall all_transactions amazon_transactions results,
     generate_output_rows summarize_item_name format_2f run_processed_at
       all_transactions amazon_transactions results =
     Ret (all_transactions ≫= rows_for summarize_item_name format_2f run_processed_at
       amazon_transactions results)) /\
  (forall amazon_transactions results trans items confidence clean_name,
     trans ∈ amazon_transactions ->
     results !! _row_number trans = Some (items, confidence, "unmatched"%string) ->
     get_known_amazon_pattern (Description trans) = Some clean_name ->
     rows_for summarize_item_name format_2f run_processed_at
       amazon_transactions results trans =
     [OutputRow (Date trans) clean_name (Category trans) (Amount trans)
                (Account trans) "" (CInt confidence) "known_pattern"
                (_row_number trans) run_processed_at]) /\
  (forall amazon_transactions results trans items confidence,
     trans ∈ amazon_transactions ->
     results !! _row_number trans = Some (items, confidence, "unmatched"%string) ->
     get_known_amazon_pattern (Description trans) = None ->
     rows_for summarize_item_name format_2f run_processed_at
       amazon_transactions results trans =
     [OutputRow (Date trans) (Description trans) (Category trans)
                (Amount trans) (Account trans) "" (CInt confidence) "unmatched"
                (_row_number trans) run_processed_at]).
Proof.
  split; [|split; [|split]].
  - intros description H. unfold get_known_amazon_pattern. rewrite H.
    reflexivity.
  - intros. unfold generate_output_rows. by rewrite emit_rows_app.
  - intros amazon_transactions results trans items confidence clean_name
      Hin Hres Hhit.
    unfold rows_for, rows_of_transaction.
    rewrite decide_True, Hres, Hhit.
    2:{ apply elem_of_list_to_set, list_elem_of_fmap. eauto. }
    destruct (known_pattern_nonempty _ _ Hhit) as (c & rest & ->).
    replace (has_matched_items items "unmatched") with false; [done|].
    by destruct items as [[|? ?]|].
  - intros amazon_transactions results trans items confidence Hin Hres Hmiss.
    unfold rows_for, rows_of_transaction.
    rewrite decide_True, Hres, Hmiss.
    2:{ apply elem_of_list_to_set, list_elem_of_fmap. eauto. }
    replace (has_matched_items items "unmatched") with false; [done|].
    by destruct items as [[|? ?]|].
Qed.

End OutputFacts.

(** The subscription charge passes the Amazon filter of the account. *)
Lemma prime_subscription_is_eligible :
  filter_amazon_transactions "Chase Sapphire" [prime_subscription]
  = [prime_subscription].
Proof. vm_compute. reflexivity. Qed.

Lemma C9_known_pattern_row_witness :
  rows_for (B := demo_builtins) (fun s => s) (fun _ => ""%string)
    "2024-04-01 09:00:00" [prime_subscription]
    {[ 7 := (None, 0, "unmatched"%string) ]} prime_subscription
  = [OutputRow "2024-03-10" "Amazon Prime - Subscription" "" "-14.99"
               "Chase Sapphire" "" (CInt 0) "known_pattern" 7
               "2024-04-01 09:00:00"].
Proof.
  apply (proj1 (proj2 (proj2 (C9_known_pattern_row (B := demo_builtins)
                  (fun s => s) (fun _ => ""%string) "2024-04-01 09:00:00")))
           [prime_subscription] {[ 7 := (None, 0, "unmatched"%string) ]}
           prime_subscription None 0 "Amazon Prime - Subscription"%string).
  - apply list_elem_of_here.
  - vm_compute. reflexivity.
  - vm_compute. reflexivity.
Defined.

(** With the trailing star of a rental the first pattern of the list
    answers, not the subscription. *)
Lemma prime_rental_is_not_subscription :
  get_known_amazon_pattern "Amazon Prime*1A2B3C" =
  Some "Amazon Prime - Movie Rental"%string.
Proof. reflexivity. Qed.

(** Scenario 3: the earlier row claims the shipment both charges tie for. *)
Lemma scenario_3_tie :
  exists results : gmap Z match_result,
    match_all_transactions_optimally (B := demo_builtins)
      [charge_41_03; second_charge_41_03] [shipment_41_03] = Ret results /\
    results !! 2 = Some (Some [shipment_41_03], 64, "matched"%string) /\
    results !! 5 = Some (None, 0, "unmatched"%string).
Proof.
  eexists. split; [apply match_all_unfold|]. split; vm_compute; reflexivity.
Qed.



(** In that run the later-discovered candidate holds the shipment. *)
Lemma later_tied_candidate_claims :
  exists results : gmap Z match_result,
    match_all_transactions_optimally (B := demo_builtins)
      [charge_41_03; second_charge_41_03]
      [shipment_41_03_first; shipment_41_03] = Ret results /\
    results !! 2 = Some (Some [shipment_41_03_first], 64, "matched"%string) /\
    results !! 5 = Some (Some [shipment_41_03], 64, "matched"%string).
Proof.
  eexists. split; [apply match_all_unfold|]. split; vm_compute; reflexivity.
Qed.

(** * Further properties of the program *)

(** ** Which pairs can be matched *)

(** For a day difference of 0 or more, the score reaches the high threshold
    exactly for an exact amount at most 3 days apart (the configuration
    comment's "exact amount + 3 days = 61") or an amount within one dollar
    on the same day; it reaches the low threshold exactly for an exact
    amount, an amount within one dollar at most 3 days apart, or an amount
    within tolerance on the same day. An amount that is only within
    tolerance is never 'matched'. *)
Theorem score_decision_table (a t : float) (d : Z) :
  0 <= d ->
  let diff := amount_diff a t in
  (CONFIDENCE_THRESHOLD_HIGH <= calculate_confidence_score a t d <->
     (PyFloat.lt diff 0.01%float = true /\ d <= 3) \/
     (PyFloat.lt diff 0.01%float = false /\ PyFloat.le diff 1.0%float = true /\
      d = 0)) /\
  (CONFIDENCE_THRESHOLD_LOW <= calculate_confidence_score a t d <->
     PyFloat.lt diff 0.01%float = true \/
     (PyFloat.lt diff 0.01%float = false /\ PyFloat.le diff 1.0%float = true /\
      d <= 3) \/
     (PyFloat.le diff 1.0%float = false /\ PyFloat.le diff 3.0%float = true /\
      d = 0)).
Proof.
  intros Hd diff. rewrite score_by_component. fold diff.
  unfold amount_component, AMOUNT_MATCHING_TOLERANCE, date_and_bonus,
    CONFIDENCE_THRESHOLD_HIGH, CONFIDENCE_THRESHOLD_LOW.
  destruct (PyFloat.lt diff 0.01), (PyFloat.le diff 1), (PyFloat.le diff 3),
    (Z.eqb_spec d 0); split; split; intros H;
    try (destruct H as [[? ?]|[? [? ?]]]);
    try (destruct H as [?|[[? [? ?]]|[? [? ?]]]]);
    try discriminate; try lia; auto with lia.
Qed.

Lemma score_decision_table_witness :
  CONFIDENCE_THRESHOLD_HIGH <= calculate_confidence_score 41.03%float 41.03%float 3.
Proof.
  apply (proj1 (score_decision_table 41.03%float 41.03%float 3 ltac:(lia))).
  left. split; [reflexivity|lia].
Defined.

(** ** What the batch pass assigns *)

Lemma score_upper_bound a t d : 0 <= d -> calculate_confidence_score a t d <= 80.
Proof.
  intros Hd. rewrite score_by_component.
  destruct (amount_component (amount_diff a t)) as [A|] eqn:E; [|lia].
  apply amount_component_range in E.
  by destruct (date_and_bonus_upper A d Hd ltac:(lia)).
Qed.

(** The orders filed under an email type are the records of that type
    that carry an email id, in input order. *)
Lemma emails_by_type_lookup (parsed_orders : list order) (ty : string) :
  default [] (emails_by_type parsed_orders !! ty) =
  filter (fun o => email_type o = ty /\ ty <> ""%string /\ email_id o <> ""%string)
         parsed_orders.
Proof.
  unfold emails_by_type.
  induction parsed_orders as [|o os IH] using rev_ind; [done|].
  rewrite foldl_app, filter_app. simpl.
  destruct (email_type o) as [|c s] eqn:Et; simpl.
  - rewrite IH, filter_cons_False, filter_nil, app_nil_r; [done|].
    intros (? & ? & ?). congruence.
  - destruct (email_id o) as [|c' s'] eqn:Ei; simpl.
    + rewrite IH, filter_cons_False, filter_nil, app_nil_r; [done|].
      intros (? & ? & ?). congruence.
    + destruct (decide (String c s = ty)) as [<-|Hne].
      * rewrite lookup_insert_eq. simpl. rewrite IH.
        rewrite filter_cons_True, filter_nil; [done|].
        rewrite Et, Ei. done.
      * rewrite lookup_insert_ne by done. rewrite IH.
        rewrite filter_cons_False, filter_nil, app_nil_r; [done|].
        intros (? & ? & ?). congruence.
Qed.

Lemma scan_order_found parsed_orders types by_email row_num trans_date
    trans_amount st o :
  o ∈ parsed_orders -> email_type o ∈ types ->
  Forall (found_in parsed_orders types trans_date) (snd st) ->
  Forall (found_in parsed_orders types trans_date)
         (snd (scan_order by_email row_num trans_date trans_amount st o)).
Proof.
  destruct st as [seen all]. intros Hin Hty Hall. unfold scan_order. cbv zeta.
  destruct (decide (email_id o ∈ seen)); [done|].
  destruct (_parsed_date o) as [order_date|] eqn:Ed; [|done].
  destruct (Z.abs (trans_date - order_date) >? DATE_MATCHING_WINDOW_DAYS) eqn:Ew;
    [done|].
  match goal with |- context [default ?d ?m] =>
    destruct (default d m) as [|first rest]; [done|] end.
  destruct (PyFloat.truthy (shipment_total first)); [|done]. simpl.
  destruct (_ >? 0); [|done]. simpl.
  apply Forall_app. split; [done|]. constructor; [|done].
  exists o, order_date. simpl. repeat split; try done. lia.
Qed.

Lemma scan_orders_found parsed_orders types by_email row_num trans_date
    trans_amount os st :
  (forall o, o ∈ os -> o ∈ parsed_orders /\ email_type o ∈ types) ->
  Forall (found_in parsed_orders types trans_date) (snd st) ->
  Forall (found_in parsed_orders types trans_date)
         (snd (foldl (scan_order by_email row_num trans_date trans_amount) st os)).
Proof.
  revert st. induction os as [|o os IH]; intros st Hos Hall; cbn [foldl]; [done|].
  apply IH; [intros o' Ho'; apply Hos; by right|].
  destruct (Hos o ltac:(by left)). by apply scan_order_found.
Qed.

Lemma scan_types_found parsed_orders (by_email : gmap string (list order))
    row_num trans_date trans_amount (types all_types : list string) st :
  (forall ty, ty ∈ types -> ty ∈ all_types) ->
  Forall (found_in parsed_orders all_types trans_date) (snd st) ->
  Forall (found_in parsed_orders all_types trans_date)
    (snd (foldl (fun st email_type =>
           foldl (scan_order by_email row_num trans_date trans_amount) st
                 (default [] (emails_by_type parsed_orders !! email_type)))
        st types)).
Proof.
  revert st. induction types as [|ty types IH]; intros st Hsub Hall;
    cbn [foldl]; [done|].
  apply IH; [intros ty' Hty'; apply Hsub; by right|].
  apply scan_orders_found; [|done].
  intros o. rewrite emails_by_type_lookup, list_elem_of_filter.
  intros [(<- & _ & _) Ho]. split; [done|]. apply Hsub. by left.
Qed.

Lemma claimed_email_entry pre e :
  e ∈ used_emails (foldl assign_step (Assignment ∅ ∅ ∅) pre) ->
  exists c', c' ∈ pre /\ c_email c' = e /\
    c_row c' ∈ used_transactions (foldl assign_step (Assignment ∅ ∅ ∅) pre) /\
    match_results (foldl assign_step (Assignment ∅ ∅ ∅) pre) !! c_row c'
    = Some (Some (c_items c'), c_score c', classify (c_score c')).
Proof.
  induction pre as [|c0 pre IH] using rev_ind.
  - simpl. by intros ?%elem_of_empty.
  - rewrite foldl_app. cbn [foldl].
    set (st := foldl assign_step (Assignment ∅ ∅ ∅) pre) in *.
    rewrite assign_step_spec. destruct (decide _) as [[[Hrow Hemail] Hlow]|_].
    + simpl. intros [He|He]%elem_of_union.
      * destruct (IH He) as (c' & Hc' & Heq & Hused & Hentry).
        exists c'. rewrite elem_of_app. split; [by left|]. split; [done|].
        split; [by apply elem_of_union_l|].
        rewrite lookup_insert_ne; [done|]. intros E. apply Hrow. by rewrite E.
      * apply elem_of_singleton in He. subst e.
        exists c0. rewrite elem_of_app, list_elem_of_singleton.
        split; [by right|]. split; [done|].
        split; [apply elem_of_union_r; by apply elem_of_singleton|].
        apply lookup_insert_eq.
    + intros He. destruct (IH He) as (c' & Hc' & ?).
      exists c'. rewrite elem_of_app. split; [by left|done].
Qed.

Lemma claimed_row_entry pre r :
  r ∈ used_transactions (foldl assign_step (Assignment ∅ ∅ ∅) pre) ->
  exists c', c' ∈ pre /\ c_row c' = r /\
    match_results (foldl assign_step (Assignment ∅ ∅ ∅) pre) !! r
    = Some (Some (c_items c'), c_score c', classify (c_score c')).
Proof.
  induction pre as [|c0 pre IH] using rev_ind.
  - simpl. by intros ?%elem_of_empty.
  - rewrite foldl_app. cbn [foldl].
    set (st := foldl assign_step (Assignment ∅ ∅ ∅) pre) in *.
    rewrite assign_step_spec. destruct (decide _) as [[[Hrow Hemail] Hlow]|_].
    + simpl. intros [Hr|Hr]%elem_of_union.
      * destruct (IH Hr) as (c' & Hc' & Heq & Hentry).
        exists c'. rewrite elem_of_app. split; [by left|]. split; [done|].
        rewrite lookup_insert_ne; [done|]. intros E. apply Hrow. by rewrite E.
      * apply elem_of_singleton in Hr. subst r.
        exists c0. rewrite elem_of_app, list_elem_of_singleton.
        split; [by right|]. split; [done|]. apply lookup_insert_eq.
    + intros Hr. destruct (IH Hr) as (c' & Hc' & ?).
      exists c'. rewrite elem_of_app. split; [by left|done].
Qed.

(** The greedy walk leaves no better pair behind: for every candidate that
    reaches the low threshold, some assigned candidate (possibly itself)
    shares its transaction or its email and scores at least as much. *)
Lemma greedy_no_better_pair cs c :
  c ∈ cs -> CONFIDENCE_THRESHOLD_LOW <= c_score c ->
  exists c', c' ∈ cs /\ c_score c <= c_score c' /\
    (c_row c' = c_row c \/ c_email c' = c_email c) /\
    match_results (assign_greedily cs) !! c_row c'
    = Some (Some (c_items c'), c_score c', classify (c_score c')).
Proof.
  intros Hin Hlow. unfold assign_greedily.
  pose proof (sort_matches_sorted cs) as Hsorted.
  assert (c ∈ sort_matches cs) as Hc by (by rewrite sort_matches_Permutation).
  apply list_elem_of_split in Hc as (pre & post & Hsplit).
  rewrite Hsplit in Hsorted |- *.
  assert (forall c', c' ∈ pre -> c' ∈ cs /\ c_score c <= c_score c') as Hpre.
  { intros c' Hc'. split.
    - rewrite <- (sort_matches_Permutation cs), Hsplit, elem_of_app. by left.
    - exact (StronglySorted_app_1_elem_of _ _ _ c' c Hsorted Hc'
               (list_elem_of_here c post)). }
  rewrite foldl_app. cbn [foldl].
  set (st := foldl assign_step (Assignment ∅ ∅ ∅) pre).
  destruct (decide (c_row c ∈ used_transactions st)) as [Hrow|Hrow].
  { destruct (claimed_row_entry pre _ Hrow) as (c' & Hc' & Heq & Hentry).
    destruct (Hpre c' Hc'). exists c'. split; [done|]. split; [done|].
    split; [by left|].
    rewrite Heq, assign_frozen; [|by apply assign_step_used_mono].
    by rewrite assign_step_frozen. }
  destruct (decide (c_email c ∈ used_emails st)) as [Hemail|Hemail].
  { destruct (claimed_email_entry pre _ Hemail) as (c' & Hc' & Heq & Hused & Hentry).
    destruct (Hpre c' Hc'). exists c'. split; [done|]. split; [done|].
    split; [by right|].
    rewrite assign_frozen; [|by apply assign_step_used_mono].
    by rewrite assign_step_frozen. }
  exists c. split; [done|]. split; [lia|]. split; [by left|].
  assert (assign_step st c = claim st c) as ->.
  { rewrite assign_step_spec. by rewrite decide_True. }
  rewrite assign_frozen; simpl.
  - apply lookup_insert_eq.
  - apply elem_of_union_r. by apply elem_of_singleton.
Qed.

Section BatchFacts.
Context {B : PyBuiltins}.

Lemma candidates_of_found parsed_orders trans d x :
  parse_date (Some (Date trans)) = Ret (Some d) ->
  parse_amount (Some (Amount trans)) = Ret x ->
  Forall (found_in parsed_orders (email_types_for x) d)
    (candidates_of (emails_by_type parsed_orders) (orders_by_email parsed_orders)
       trans).
Proof.
  intros Hd Hx. unfold candidates_of, score_transaction. rewrite Hd, Hx.
  cbn [mbind exn_or_bind].
  destruct (PyFloat.eq (PyFloat.fabs x) 0); [constructor|].
  cbn [ret_or]. apply scan_types_found; [done|constructor].
Qed.

Lemma all_candidates_found transactions parsed_orders c :
  c ∈ all_candidates transactions parsed_orders ->
  exists trans d x,
    trans ∈ transactions /\ c_row c = _row_number trans /\
    parse_date (Some (Date trans)) = Ret (Some d) /\
    parse_amount (Some (Amount trans)) = Ret x /\
    found_in parsed_orders (email_types_for x) d c.
Proof.
  intros Hc. pose proof Hc as Hc'.
  apply all_candidates_scored in Hc' as (t0 & _ & _ & _).
  unfold all_candidates in Hc. apply list_elem_of_bind in Hc as (t & Hc & Ht).
  destruct (parse_date_returns (Some (Date t))) as [[d|] Hd].
  2:{ rewrite candidates_of_skipped in Hc by (by left).
      by apply elem_of_nil in Hc. }
  destruct (parse_amount_returns (Some (Amount t))) as [x Hx].
  exists t, d, x. split; [done|]. split.
  - pose proof (candidates_of_scored (emails_by_type parsed_orders)
                  (orders_by_email parsed_orders) t) as Hall.
    rewrite Forall_forall in Hall. by destruct (Hall c Hc).
  - split; [done|]. split; [done|].
    pose proof (candidates_of_found parsed_orders t d x Hd Hx) as Hall.
    rewrite Forall_forall in Hall. by apply Hall.
Qed.

(** Every entry of the result of the batch pass is either
    [(None, 0, 'unmatched')] or carries items with a score between 40 and
    80; a 'matched' entry has a score between 60 and 80. *)
Theorem batch_result_scores (transactions : list transaction)
    (parsed_orders : list order) :
  exists results : gmap Z match_result,
    match_all_transactions_optimally transactions parsed_orders = Ret results /\
    forall r items s status,
      results !! r = Some (items, s, status) ->
      (items = None /\ s = 0 /\ status = "unmatched"%string) \/
      (exists its, items = Some its /\ 40 <= s <= 80 /\
         (status = "matched"%string /\ 60 <= s \/
          status = "low_confidence"%string /\ s < 60)).
Proof.
  eexists. split; [apply match_all_unfold|].
  intros r items s status. rewrite mark_unmatched_lookup.
  destruct (match_results _ !! r) as [res|] eqn:Er.
  - apply greedy_entry in Er as (c & Hc & _ & Hlow & ->). intros [= <- <- <-].
    right. exists (c_items c). split; [done|].
    apply all_candidates_scored in Hc
      as (t & _ & _ & _ & _ & first & rest & dd & _ & _ & Hdd & Hs & _).
    unfold CONFIDENCE_THRESHOLD_LOW in Hlow.
    split; [split; [done|rewrite Hs; apply score_upper_bound; lia]|].
    unfold classify, CONFIDENCE_THRESHOLD_HIGH.
    destruct (Z.geb_spec (c_score c) 60); [left|right]; split; (done || lia).
  - case_decide; [|done]. intros [= <- <- <-]. by left.
Qed.

(** Every shipment the batch pass assigns was found for a transaction of
    that row whose date and amount parse: the assigned items contain a
    record of a type the transaction searches (returns for a credit,
    shipments and orders for a charge) dated within 30 days of it. *)
Theorem batch_assigned_in_window (transactions : list transaction)
    (parsed_orders : list order) :
  exists results : gmap Z match_result,
    match_all_transactions_optimally transactions parsed_orders = Ret results /\
    forall r items s status,
      results !! r = Some (Some items, s, status) ->
      exists trans d x o order_date,
        trans ∈ transactions /\ _row_number trans = r /\
        parse_date (Some (Date trans)) = Ret (Some d) /\
        parse_amount (Some (Amount trans)) = Ret x /\
        o ∈ items /\ o ∈ parsed_orders /\
        email_type o ∈ email_types_for x /\
        _parsed_date o = Some order_date /\
        Z.abs (d - order_date) <= 30.
Proof.
  eexists. split; [apply match_all_unfold|].
  intros r items s status. rewrite mark_unmatched_lookup.
  destruct (match_results _ !! r) as [res|] eqn:Er; [|by case_decide].
  apply greedy_entry in Er as (c & Hc & Hrow & _ & ->). intros [= <- _ _].
  pose proof Hc as Hc'.
  apply all_candidates_scored
    in Hc' as (t0 & _ & _ & _ & Hitems & first & rest & _ & Hfirst & _).
  apply all_candidates_found in Hc
    as (t & d & x & Ht & Hrow' & Hd & Hx & o & od & Ho & He & Hty & Hod & Hw).
  exists t, d, x, o, od. repeat split; try done; [congruence|].
  rewrite Hitems, orders_by_email_lookup. apply list_elem_of_filter.
  split; [|done]. split; [done|].
  intros Hempty.
  assert (first ∈ c_items c) as Hf by (rewrite Hfirst; by left).
  rewrite Hitems, orders_by_email_lookup in Hf.
  by apply list_elem_of_filter in Hf as [[_ ?] _].
Qed.

(** The batch pass leaves no better pair behind: for every candidate that
    reaches the low threshold, the result holds an assigned candidate
    (possibly the same) that shares its transaction or its email and scores
    at least as much. *)
Theorem batch_no_better_pair (transactions : list transaction)
    (parsed_orders : list order) :
  exists results : gmap Z match_result,
    match_all_transactions_optimally transactions parsed_orders = Ret results /\
    forall c,
      c ∈ all_candidates transactions parsed_orders -> 40 <= c_score c ->
      exists c' status,
        c' ∈ all_candidates transactions parsed_orders /\
        c_score c <= c_score c' /\
        (c_row c' = c_row c \/ c_email c' = c_email c) /\
        results !! c_row c' = Some (Some (c_items c'), c_score c', status).
Proof.
  eexists. split; [apply match_all_unfold|].
  intros c Hc Hlow.
  destruct (greedy_no_better_pair _ c Hc Hlow) as (c' & Hc' & Hs & Hshare & He).
  exists c', (classify (c_score c')). repeat split; try done.
  by rewrite mark_unmatched_lookup, He.
Qed.

End BatchFacts.

Lemma batch_no_better_pair_witness :
  exists results : gmap Z match_result,
    match_all_transactions_optimally (B := demo_builtins)
      [charge_41_03; second_charge_41_03] [shipment_41_03] = Ret results /\
    exists c' status,
      c' ∈ all_candidates (B := demo_builtins)
             [charge_41_03; second_charge_41_03] [shipment_41_03] /\
      64 <= c_score c' /\
      (c_row c' = 5 \/ c_email c' = "msg-1"%string) /\
      results !! c_row c' = Some (Some (c_items c'), c_score c', status).
Proof.
  destruct (batch_no_better_pair (B := demo_builtins)
              [charge_41_03; second_charge_41_03] [shipment_41_03])
    as (results & Hret & Hall).
  exists results. split; [exact Hret|].
  apply (Hall (Candidate 64 5 "msg-1" [shipment_41_03])).
  - vm_compute. apply list_elem_of_further, list_elem_of_here.
  - simpl. lia.
Defined.

(** ** The single-transaction matcher *)

Lemma group_append_members {K V} `{EqDecision K} (key : V -> K) (P : V -> Prop)
    (v : V) (groups : list (K * list V)) :
  P v ->
  Forall (fun g => snd g <> [] /\ Forall (fun x => P x /\ key x = fst g) (snd g))
         groups ->
  Forall (fun g => snd g <> [] /\ Forall (fun x => P x /\ key x = fst g) (snd g))
         (group_append (key v) v groups).
Proof.
  intros Hv. induction 1 as [|[k vs] rest [Hne Hg] Hrest IH]; cbn [group_append].
  - repeat constructor; simpl; auto.
  - destruct (decide (k = key v)) as [->|Hk].
    + constructor; [|done]. simpl in *. split; [by destruct vs|].
      apply Forall_app. split; [done|]. by repeat constructor.
    + by constructor.
Qed.

Lemma window_candidates_in_window trans_date target_type parsed_orders :
  Forall (fun od =>
            fst od ∈ parsed_orders /\ email_type (fst od) = target_type /\
            (exists order_date,
               _parsed_date (fst od) = Some order_date /\
               snd od = Z.abs (trans_date - order_date)) /\
            0 <= snd od <= DATE_MATCHING_WINDOW_DAYS)
         (window_candidates trans_date target_type parsed_orders).
Proof.
  unfold window_candidates.
  induction parsed_orders as [|o os IH] using rev_ind; [constructor|].
  rewrite foldl_app. cbn [foldl].
  assert (Forall (fun od =>
            fst od ∈ os ++ [o] /\ email_type (fst od) = target_type /\
            (exists order_date,
               _parsed_date (fst od) = Some order_date /\
               snd od = Z.abs (trans_date - order_date)) /\
            0 <= snd od <= DATE_MATCHING_WINDOW_DAYS)
           (foldl (fun acc o0 =>
               if negb (String.eqb (email_type o0) target_type) then acc
               else match _parsed_date o0 with
                    | Some order_date =>
                        if Z.abs (trans_date - order_date) >? DATE_MATCHING_WINDOW_DAYS
                        then acc
                        else acc ++ [(o0, Z.abs (trans_date - order_date))]
                    | None => acc
                    end) [] os)) as IH'.
  { eapply Forall_impl; [exact IH|]. intros od (? & ? & ? & ?).
    rewrite elem_of_app. auto. }
  destruct (String.eqb_spec (email_type o) target_type) as [Hty|Hty];
    cbn [negb]; [|done].
  destruct (_parsed_date o) as [order_date|] eqn:Ed; [|done].
  destruct (Z.abs (trans_date - order_date) >? DATE_MATCHING_WINDOW_DAYS) eqn:Ew;
    [done|].
  apply Forall_app. split; [done|]. constructor; [|done]. simpl.
  split; [rewrite elem_of_app, list_elem_of_singleton; auto|].
  split; [done|]. split; [by eauto|]. lia.
Qed.

Lemma min_date_diff_nonneg (order_items : list (order * Z)) :
  Forall (fun od => 0 <= snd od) order_items -> 0 <= min_date_diff order_items.
Proof.
  unfold min_date_diff. destruct order_items as [|[o d] rest]; [done|].
  intros [Hd Hrest]%Forall_cons. simpl in Hd.
  revert d Hd. induction Hrest as [|[o' d'] rest Hd' Hrest IH]; intros d Hd;
    cbn [foldl]; [done|].
  apply IH. simpl in *. lia.
Qed.

Lemma score_shipment_ok parsed_orders types trans_date used trans_amount b group :
  snd group <> [] ->
  Forall (fun od =>
            (in_window parsed_orders types trans_date (fst od) /\ 0 <= snd od) /\
            email_id (fst od) = fst group) (snd group) ->
  best_ok parsed_orders types trans_date used b ->
  best_ok parsed_orders types trans_date used
          (score_shipment used trans_amount b group).
Proof.
  destruct group as [eid order_items]. cbn [fst snd]. intros Hne Hg Hb.
  unfold score_shipment.
  destruct (decide (eid ∈ used)); [done|].
  destruct order_items as [|[first d] rest] eqn:Eitems; [done|].
  rewrite <- Eitems in *.
  destruct (PyFloat.truthy (shipment_total first)); [|done]. cbn [negb].
  destruct (_ >? best_score b) eqn:Egt; [|done].
  assert (0 <= best_score b) as Hb0.
  { unfold best_ok in Hb. destruct (best_match b); lia. }
  unfold best_ok. cbn [best_match best_score best_items].
  split; [done|]. split; [split; [lia|]|split].
  - apply score_upper_bound, min_date_diff_nonneg.
    eapply Forall_impl; [exact Hg|]. by intros od [[_ ?] _].
  - rewrite Eitems. done.
  - intros o (od & -> & Hod)%list_elem_of_fmap.
    rewrite Forall_forall in Hg. by destruct (Hg od Hod) as [[? _] ?].
Qed.

Lemma score_shipments_ok parsed_orders types trans_date used trans_amount groups b :
  Forall (fun g => snd g <> [] /\
            Forall (fun od =>
                      (in_window parsed_orders types trans_date (fst od) /\
                       0 <= snd od) /\
                      email_id (fst od) = fst g) (snd g)) groups ->
  best_ok parsed_orders types trans_date used b ->
  best_ok parsed_orders types trans_date used
          (foldl (score_shipment used trans_amount) b groups).
Proof.
  intros Hg. revert b. induction Hg as [|g groups [Hne Hgrp] Hrest IH];
    intros b Hb; cbn [foldl]; [done|].
  by apply IH, score_shipment_ok.
Qed.

Lemma groups_of_candidates_ok parsed_orders types trans_date
    (candidates : list (order * Z)) :
  Forall (fun od => in_window parsed_orders types trans_date (fst od) /\
                    0 <= snd od) candidates ->
  Forall (fun g => snd g <> [] /\
            Forall (fun od =>
                      (in_window parsed_orders types trans_date (fst od) /\
                       0 <= snd od) /\
                      email_id (fst od) = fst g) (snd g))
         (foldl (fun g od => group_append (email_id (fst od)) od g) [] candidates).
Proof.
  induction candidates as [|od cands IH] using rev_ind; intros Hall;
    [constructor|].
  apply Forall_app in Hall as [Hc Hod]. apply Forall_cons in Hod as [Hod _].
  rewrite foldl_app. cbn [foldl].
  apply (group_append_members (fun od => email_id (fst od))
           (fun od => in_window parsed_orders types trans_date (fst od) /\
                      0 <= snd od)); [done|].
  by apply IH.
Qed.

Lemma match_by_type_ok parsed_orders all_types trans_date used trans_amount
    types b :
  (forall ty, ty ∈ types -> ty ∈ all_types) ->
  best_ok parsed_orders all_types trans_date used b ->
  best_ok parsed_orders all_types trans_date used
          (match_by_type used trans_date trans_amount parsed_orders types b).
Proof.
  revert b. induction types as [|ty types IH]; intros b Hsub Hb;
    cbn [match_by_type]; [done|].
  assert (forall ty', ty' ∈ types -> ty' ∈ all_types) as Hsub'
    by (intros; apply Hsub; by right).
  pose proof (window_candidates_in_window trans_date ty parsed_orders) as Hw.
  destruct (window_candidates trans_date ty parsed_orders) as [|od ods] eqn:Ec;
    [by apply IH|].
  set (b' := foldl _ b _).
  assert (best_ok parsed_orders all_types trans_date used b') as Hb'.
  { apply score_shipments_ok; [|done]. apply groups_of_candidates_ok.
    eapply Forall_impl; [exact Hw|]. simpl.
    intros od' (Hin & Hty & (order_date & Hd & Hdd) & Hrange).
    split; [|lia]. split; [done|]. split; [rewrite Hty; apply Hsub; by left|].
    exists order_date. split; [done|]. lia. }
  destruct (best_score b' >=? CONFIDENCE_THRESHOLD_HIGH); [done|by apply IH].
Qed.

Section SingleMatcherFacts.
Context {B : PyBuiltins}.

(** [match_transaction] returns one of four outcomes: nothing at all, or
    items with a score of 60 to 80 and status 'matched', or items with a
    score of 40 to 59 and status 'low_confidence', the email being claimed
    in both cases, or items with a score of 1 to 39, status 'unmatched' and
    no email claimed. The email of the items is never one of the used ones,
    and the items are records of a type the transaction searches, dated
    within 30 days of it, that carry that email id. *)
Theorem match_transaction_outcome (trans : transaction)
    (parsed_orders : list order) (used_email_ids : gset string) :
  exists r,
    match_transaction trans parsed_orders used_email_ids = Ret r /\
    (r = (None, 0, "unmatched"%string, None) \/
     exists items s e d x,
       parse_date (Some (Date trans)) = Ret (Some d) /\
       parse_amount (Some (Amount trans)) = Ret x /\
       items <> [] /\ (e ∉ used_email_ids) /\
       (forall o, o ∈ items ->
          email_id o = e /\ o ∈ parsed_orders /\
          email_type o ∈ email_types_for x /\
          exists order_date,
            _parsed_date o = Some order_date /\ Z.abs (d - order_date) <= 30) /\
       (60 <= s <= 80 /\ r = (Some items, s, "matched"%string, Some e) \/
        40 <= s < 60 /\ r = (Some items, s, "low_confidence"%string, Some e) \/
        0 < s < 40 /\ r = (Some items, s, "unmatched"%string, None))).
Proof.
  unfold match_transaction.
  destruct (parse_date_returns (Some (Date trans))) as [d Hd].
  destruct (parse_amount_returns (Some (Amount trans))) as [x Hx].
  rewrite Hd, Hx. cbn [mbind exn_or_bind].
  destruct d as [d|]; [|by eauto].
  destruct (PyFloat.eq _ _); [by eauto|].
  set (b := match_by_type _ _ _ _ _ _).
  assert (best_ok parsed_orders (email_types_for x) d used_email_ids b) as Hb.
  { apply match_by_type_ok; [done|]. reflexivity. }
  unfold best_ok in Hb.
  destruct (best_match b) as [e|]; [|by eauto].
  destruct Hb as (Hused & Hscore & Hne & Hitems).
  assert (forall o, o ∈ best_items b ->
            email_id o = e /\ o ∈ parsed_orders /\
            email_type o ∈ email_types_for x /\
            exists order_date,
              _parsed_date o = Some order_date /\ Z.abs (d - order_date) <= 30)
    as Hitems'.
  { intros o Ho. destruct (Hitems o Ho) as (? & ? & ? & ?). auto. }
  unfold CONFIDENCE_THRESHOLD_HIGH, CONFIDENCE_THRESHOLD_LOW.
  destruct (Z.geb_spec (best_score b) 60);
    [|destruct (Z.geb_spec (best_score b) 40)];
    (eexists; split; [reflexivity|]; right;
     exists (best_items b), (best_score b), e, d, x;
     repeat (split; [done|]));
    [left|right; left|right; right]; (split; [lia|done]).
Qed.

(** With no parsed orders nothing matches: the single-transaction matcher
    returns [(None, 0, 'unmatched', None)] and the batch pass gives every
    transaction [(None, 0, 'unmatched')]. *)
Theorem no_orders_no_match :
  (forall trans used_email_ids,
     match_transaction trans [] used_email_ids
     = Ret (None, 0, "unmatched"%string, None)) /\
  (forall transactions,
     exists results : gmap Z match_result,
       match_all_transactions_optimally transactions [] = Ret results /\
       forall trans, trans ∈ transactions ->
         results !! _row_number trans = Some (None, 0, "unmatched"%string)).
Proof.
  split.
  - intros trans used. unfold match_transaction.
    destruct (parse_date_returns (Some (Date trans))) as [d ->].
    destruct (parse_amount_returns (Some (Amount trans))) as [x ->].
    cbn [mbind exn_or_bind].
    destruct d as [d|]; [|done]. destruct (PyFloat.eq _ _); [done|].
    unfold email_types_for. by destruct (PyFloat.gt x 0).
  - intros transactions. eexists. split; [apply match_all_unfold|].
    intros trans Hin. rewrite mark_unmatched_lookup.
    destruct (match_results _ !! _row_number trans) as [res|] eqn:Er.
    + apply greedy_entry in Er as (c & Hc & _).
      apply all_candidates_scored
        in Hc as (t & _ & _ & _ & Hitems & first & rest & _ & Hfirst & _).
      rewrite Hitems, orders_by_email_lookup in Hfirst. discriminate.
    + rewrite decide_True; [done|]. apply list_elem_of_fmap. eauto.
Qed.

End SingleMatcherFacts.

(** ** Deduplication of an already deduplicated ledger *)

Lemma insert_by_head {A} (before : A -> A -> bool) x l :
  Forall (fun y => before x y = true) l -> insert_by before x l = x :: l.
Proof. destruct 1 as [|y l Hy _]; simpl; [done|]. by rewrite Hy. Qed.

(** Sorting a sorted list changes nothing. *)
Lemma py_sort_sorted_id {A} (before : A -> A -> bool) l :
  StronglySorted (fun a b => before a b = true) l -> py_sort before l = l.
Proof.
  induction 1 as [|x l Hs IH Hall]; simpl; [done|].
  rewrite IH. by apply insert_by_head.
Qed.

Lemma group_append_new {K V} `{EqDecision K} (k : K) (v : V)
    (groups : list (K * list V)) :
  k ∉ groups.*1 -> group_append k v groups = groups ++ [(k, [v])].
Proof.
  induction groups as [|[k0 vs] rest IH]; intros Hk; cbn [group_append]; [done|].
  rewrite fmap_cons in Hk. apply not_elem_of_cons in Hk as [Hne Hk].
  rewrite decide_False by (simpl in Hne; congruence).
  by rewrite IH.
Qed.

Lemma group_transactions_distinct transactions :
  NoDup (dedup_key <$> transactions) ->
  group_transactions transactions = (fun t => (dedup_key t, [t])) <$> transactions.
Proof.
  unfold group_transactions.
  induction transactions as [|t ts IH] using rev_ind; intros Hnd; [done|].
  rewrite fmap_app in Hnd. apply NoDup_app in Hnd as (Hts & Ht & _).
  rewrite foldl_app, fmap_app. cbn [foldl]. rewrite IH by done.
  apply group_append_new.
  rewrite <- list_fmap_compose. intros Hin. apply (Ht _ Hin). by left.
Qed.

Lemma pick_all_singletons (ts deduped : list transaction) :
  pick_all deduped ((fun t => (dedup_key t, [t])) <$> ts) = Ret (deduped ++ ts).
Proof.
  revert deduped. induction ts as [|t ts IH]; intros deduped; cbn.
  - by rewrite app_nil_r.
  - rewrite IH. by rewrite <- app_assoc.
Qed.

Lemma chosen_key_list groups bs :
  Forall2 chosen_from groups bs -> dedup_key <$> bs = groups.*1.
Proof.
  induction 1 as [|g b gs bs [_ Hk] _ IH]; [done|].
  rewrite !fmap_cons, IH, Hk. done.
Qed.

(** A ledger in which no two rows share a dedup key, given in the order of
    its row numbers, comes back unchanged. *)
Theorem dedup_of_distinct_rows (transactions : list transaction) :
  NoDup (dedup_key <$> transactions) ->
  StronglySorted (fun a b => _row_number a <= _row_number b) transactions ->
  _dedup_plaid_transactions transactions = Ret transactions.
Proof.
  intros Hnd Hsorted. unfold _dedup_plaid_transactions.
  rewrite group_transactions_distinct, pick_all_singletons by done.
  cbn [mbind exn_or_bind app]. f_equal. apply py_sort_sorted_id.
  eapply StronglySorted_weaken; [|exact Hsorted].
  unfold before_by_key. simpl. intros x y. lia.
Qed.

(** Deduplication is idempotent: what it returns, it returns unchanged. *)
Theorem dedup_idempotent (transactions deduped : list transaction) :
  _dedup_plaid_transactions transactions = Ret deduped ->
  _dedup_plaid_transactions deduped = Ret deduped.
Proof.
  unfold _dedup_plaid_transactions at 1.
  destruct (group_transactions_keys transactions) as [Hnd _].
  destruct (pick_all_spec (group_transactions transactions) []) as (bs & -> & Hall).
  { intros k rows [-> Hne]%group_transactions_rows. split; [done|].
    by intros t [? _]%list_elem_of_filter. }
  cbn [mbind exn_or_bind app]. intros [= <-].
  unfold _dedup_plaid_transactions.
  rewrite group_transactions_distinct, pick_all_singletons.
  2:{ rewrite (py_sort_Permutation (before_by_key _row_number Z.ltb) bs).
      by rewrite (chosen_key_list _ _ Hall). }
  cbn [mbind exn_or_bind app]. f_equal. apply py_sort_sorted_id.
  eapply StronglySorted_weaken; [|apply row_sort_sorted].
  unfold before_by_key. simpl. intros x y. lia.
Qed.

Lemma dedup_of_distinct_rows_witness :
  _dedup_plaid_transactions [charge_41_03; bad_date_row]
  = Ret [charge_41_03; bad_date_row].
Proof.
  apply dedup_of_distinct_rows.
  - apply NoDup_ListNoDup. vm_compute.
    repeat constructor; simpl; intuition discriminate.
  - repeat constructor; simpl; lia.
Defined.

Lemma dedup_idempotent_witness :
  _dedup_plaid_transactions [triple_with_hint] = Ret [triple_with_hint].
Proof.
  apply (dedup_idempotent
           [triple_no_hint_1; triple_with_hint; triple_no_hint_2]).
  vm_compute. reflexivity.
Defined.

(** ** Duplicate Amazon transactions *)

Lemma keep_if_unseen_state transactions :
  let st := foldl keep_if_unseen (∅, []) transactions in
  (forall k, k ∈ fst st <-> k ∈ date_description_key <$> transactions) /\
  (forall k, k ∈ date_description_key <$> snd st <->
             k ∈ date_description_key <$> transactions) /\
  NoDup (date_description_key <$> snd st) /\
  sublist (snd st) transactions /\
  (forall pre t post,
     transactions = pre ++ t :: post ->
     date_description_key t ∉ date_description_key <$> pre -> t ∈ snd st).
Proof.
  induction transactions as [|t ts IH] using rev_ind.
  - simpl. split; [|split; [|split; [constructor|split; [done|]]]].
    + intros k. by rewrite elem_of_empty, elem_of_nil.
    + done.
    + intros pre t post H. by destruct pre.
  - rewrite foldl_app. cbn [foldl].
    destruct (foldl keep_if_unseen (∅, []) ts) as [seen unique] eqn:Est.
    cbn [fst snd] in IH. destruct IH as (Hseen & Hkeys & Hnd & Hsub & Hfirst).
    unfold keep_if_unseen.
    destruct (decide (date_description_key t ∈ seen)) as [Hin|Hin]; cbn [fst snd].
    + pose proof (proj1 (Hseen _) Hin) as Hin'.
      split; [|split; [|split; [done|split]]].
      * intros k. rewrite Hseen, fmap_app, elem_of_app. simpl.
        rewrite list_elem_of_singleton. split; [by auto|].
        intros [?| ->]; done.
      * intros k. rewrite Hkeys, fmap_app, elem_of_app. simpl.
        rewrite list_elem_of_singleton. split; [by auto|].
        intros [?| ->]; done.
      * by apply sublist_inserts_r.
      * intros pre t' post Heq Hnew.
        destruct post as [|p post _] using rev_ind.
        -- apply app_inj_tail in Heq as [-> ->]. done.
        -- rewrite app_comm_cons, app_assoc in Heq.
           apply app_inj_tail in Heq as [-> _]. by eapply Hfirst.
    + assert (date_description_key t ∉ date_description_key <$> ts) as Hin'
        by (by rewrite <- Hseen).
      split; [|split; [|split; [|split]]].
      * intros k. rewrite elem_of_union, elem_of_singleton, Hseen, fmap_app,
          elem_of_app. simpl. by rewrite list_elem_of_singleton.
      * intros k. rewrite !fmap_app, !elem_of_app, Hkeys. done.
      * rewrite fmap_app. apply NoDup_app. split; [done|].
        split; [|apply NoDup_singleton].
        intros k Hk Hk'. simpl in Hk'. apply list_elem_of_singleton in Hk'.
        subst k. apply Hin'. by apply Hkeys.
      * by apply sublist_app.
      * intros pre t' post Heq Hnew. rewrite elem_of_app.
        destruct post as [|p post _] using rev_ind.
        -- apply app_inj_tail in Heq as [-> ->]. right. by left.
        -- rewrite app_comm_cons, app_assoc in Heq.
           apply app_inj_tail in Heq as [-> _]. left. by eapply Hfirst.
Qed.

(** [deduplicate_transactions] keeps, in input order, exactly the first
    transaction of every (Date, Description) key: the result is a
    subsequence of the input with pairwise different keys, every key of the
    input is kept, and a transaction that no earlier one shares its key with
    is kept itself. *)
Theorem deduplicate_keeps_first (transactions : list transaction) :
  sublist (deduplicate_transactions transactions) transactions /\
  NoDup (date_description_key <$> deduplicate_transactions transactions) /\
  (forall t, t ∈ transactions ->
     exists t', t' ∈ deduplicate_transactions transactions /\
                date_description_key t' = date_description_key t) /\
  (forall pre t post,
     transactions = pre ++ t :: post ->
     date_description_key t ∉ date_description_key <$> pre ->
     t ∈ deduplicate_transactions transactions).
Proof.
  unfold deduplicate_transactions.
  destruct (keep_if_unseen_state transactions) as (_ & Hkeys & Hnd & Hsub & Hfirst).
  split; [done|]. split; [done|]. split; [|done].
  intros t Ht.
  assert (date_description_key t ∈
          date_description_key <$> snd (foldl keep_if_unseen (∅, []) transactions))
    as (t' & ? & ?)%list_elem_of_fmap.
  { apply Hkeys, list_elem_of_fmap. eauto. }
  eauto.
Qed.

(** A list without two transactions of one key is returned as it is; so
    the function is idempotent. *)
Theorem deduplicate_fixed_point (transactions : list transaction) :
  (NoDup (date_description_key <$> transactions) ->
   deduplicate_transactions transactions = transactions) /\
  deduplicate_transactions (deduplicate_transactions transactions)
  = deduplicate_transactions transactions.
Proof.
  assert (forall l, NoDup (date_description_key <$> l) ->
                    deduplicate_transactions l = l) as Hfix.
  { unfold deduplicate_transactions.
    induction l as [|t ts IH] using rev_ind; [done|].
    intros Hnd. rewrite fmap_app in Hnd.
    apply NoDup_app in Hnd as (Hts & Ht & _).
    specialize (IH Hts).
    rewrite foldl_app. cbn [foldl].
    destruct (keep_if_unseen_state ts) as (Hseen & _).
    destruct (foldl keep_if_unseen (∅, []) ts) as [seen unique].
    cbn [fst snd] in *. unfold keep_if_unseen.
    rewrite decide_False.
    - cbn [snd]. by f_equal.
    - rewrite Hseen. intros Hin. apply (Ht _ Hin). by left. }
  split; [apply Hfix|]. apply Hfix.
  unfold deduplicate_transactions.
  by destruct (keep_if_unseen_state transactions) as (_ & _ & ? & _).
Qed.

Lemma deduplicate_fixed_point_witness :
  deduplicate_transactions [charge_41_03; bad_date_row]
  = [charge_41_03; bad_date_row].
Proof.
  apply (proj1 (deduplicate_fixed_point [charge_41_03; bad_date_row])).
  apply NoDup_ListNoDup. vm_compute.
  repeat constructor; simpl; intuition discriminate.
Defined.

Lemma deduplicate_keeps_first_witness :
  charge_41_03 ∈ deduplicate_transactions [charge_41_03; charge_41_03].
Proof.
  apply (proj2 (proj2 (proj2
           (deduplicate_keeps_first [charge_41_03; charge_41_03])))
           [] charge_41_03 [charge_41_03]); [reflexivity|].
  apply not_elem_of_nil.
Defined.

(** ** The Amazon filter *)

Lemma startswith_refl s : PyStr.startswith s s = true.
Proof.
  unfold PyStr.startswith. induction s as [|c s IH]; [done|].
  simpl. by destruct (ascii_dec c c).
Qed.

Lemma description_patterns_any desc_upper :
  existsb (fun p => String.eqb desc_upper (PyStr.upper p)
                    || PyStr.startswith desc_upper (PyStr.upper p))
          AMAZON_DESCRIPTION_PATTERNS
  = PyStr.startswith desc_upper "AMAZON" || PyStr.startswith desc_upper "AMZN".
Proof.
  unfold AMAZON_DESCRIPTION_PATTERNS. cbn [existsb].
  change (PyStr.upper "Amazon") with "AMAZON"%string.
  change (PyStr.upper "AMZN") with "AMZN"%string.
  change (PyStr.upper "Amzn") with "AMZN"%string.
  destruct (String.eqb_spec desc_upper "AMAZON") as [->|_];
    [reflexivity|].
  destruct (String.eqb_spec desc_upper "AMZN") as [->|_];
    [reflexivity|].
  cbn [orb].
  destruct (PyStr.startswith desc_upper "AMAZON"),
    (PyStr.startswith desc_upper "AMZN"); reflexivity.
Qed.

(** [filter_amazon_transactions] keeps, in their order, exactly the
    transactions of the configured account (compared without case or
    surrounding blanks) whose trimmed, upper-cased description starts with
    AMAZON or AMZN: the equality tests and the third pattern of the list add
    nothing. A second pass changes nothing. *)
Theorem filter_amazon_keeps_eligible (AMAZON_ACCOUNT : string)
    (transactions : list transaction) :
  filter_amazon_transactions AMAZON_ACCOUNT transactions
  = filter (fun trans => amazon_eligible AMAZON_ACCOUNT trans = true)
           transactions /\
  sublist (filter_amazon_transactions AMAZON_ACCOUNT transactions)
          transactions /\
  filter_amazon_transactions AMAZON_ACCOUNT
    (filter_amazon_transactions AMAZON_ACCOUNT transactions)
  = filter_amazon_transactions AMAZON_ACCOUNT transactions.
Proof.
  assert (forall l,
            filter_amazon_transactions AMAZON_ACCOUNT l
            = filter (fun trans => amazon_eligible AMAZON_ACCOUNT trans = true) l)
    as Hfilter.
  { intros l. unfold filter_amazon_transactions. cbv zeta.
    rewrite <- (app_nil_l (filter _ l)).
    generalize (@nil transaction) at 2 3.
    induction l as [|t ts IH]; intros acc; [by rewrite app_nil_r|].
    cbn [foldl]. rewrite IH, description_patterns_any, filter_cons.
    unfold amazon_eligible.
    destruct (String.eqb _ _); cbn [negb andb].
    - destruct (_ || _).
      + rewrite decide_True by done. by rewrite <- app_assoc.
      + by rewrite decide_False by done.
    - by rewrite decide_False by done. }
  split; [apply Hfilter|]. split.
  - rewrite Hfilter. apply sublist_filter.
  - rewrite !Hfilter. apply list_filter_filter_l. done.
Qed.

(** ** The output rows *)

Section OutputRowFacts.
Context {B : PyBuiltins}.
Variable summarize_item_name : string -> string.
Variable format_2f : float -> string.
Variable run_processed_at : string.

Lemma item_rows_named trans items confidence status amount_sign :
  item_rows summarize_item_name format_2f run_processed_at trans items
    confidence status amount_sign
  = item_row summarize_item_name format_2f run_processed_at trans confidence
      status amount_sign <$> filter named items.
Proof.
  unfold item_rows.
  rewrite <- (app_nil_l (_ <$> _)). generalize (@nil output_row) at 2 3.
  induction items as [|item items IH]; intros acc; [by rewrite app_nil_r|].
  cbn [foldl]. rewrite IH, filter_cons.
  destruct (PyStr.is_empty (item_name item)) eqn:E.
  - rewrite decide_False; [done|]. unfold named. congruence.
  - rewrite decide_True by done. by rewrite <- app_assoc.
Qed.

Lemma rows_for_fields amazon_transactions results trans row :
  row ∈ rows_for summarize_item_name format_2f run_processed_at
          amazon_transactions results trans ->
  source_row row = _row_number trans /\ out_Date row = Date trans /\
  out_Category row = Category trans /\ out_Account row = Account trans /\
  out_processed_at row = run_processed_at.
Proof.
  unfold rows_for, rows_of_transaction.
  destruct (if decide _ then _ else _) as [[[items confidence] status]|].
  - destruct (has_matched_items items status).
    + destruct (parse_amount_returns (Some (Amount trans))) as [x ->].
      cbn [mbind exn_or_bind ret_or]. rewrite item_rows_named.
      intros (item & -> & _)%list_elem_of_fmap. done.
    + destruct (get_known_amazon_pattern _) as [[|c name]|];
        cbn [ret_or]; intros ->%list_elem_of_singleton; done.
  - cbn [ret_or]. intros ->%list_elem_of_singleton. done.
Qed.

(** Every output row is traceable: [generate_output_rows] returns, and each
    row it returns carries the row number of an input transaction as
    [source_row], the Date, Category and Account of that transaction, and
    the time of the run; the source rows appear in the order of the
    input. *)
Theorem output_rows_traceable
    (all_transactions amazon_transactions : list transaction)
    (results : gmap Z match_result) :
  exists rows,
    generate_output_rows summarize_item_name format_2f run_processed_at
      all_transactions amazon_transactions results = Ret rows /\
    (forall row, row ∈ rows ->
       exists trans, trans ∈ all_transactions /\
         source_row row = _row_number trans /\ out_Date row = Date trans /\
         out_Category row = Category trans /\ out_Account row = Account trans /\
         out_processed_at row = run_processed_at) /\
    exists count : transaction -> nat,
      source_row <$> rows
      = all_transactions ≫= (fun trans => replicate (count trans) (_row_number trans)).
Proof.
  eexists. split; [unfold generate_output_rows; apply emit_rows_app|].
  cbn [app]. split.
  - intros row (trans & Hrow & Hin)%list_elem_of_bind.
    exists trans. split; [done|]. by eapply rows_for_fields.
  - exists (fun trans =>
              length (rows_for summarize_item_name format_2f run_processed_at
                        amazon_transactions results trans)).
    induction all_transactions as [|t ts IH]; [done|].
    rewrite !bind_cons, fmap_app, IH. f_equal.
    assert (forall l : list output_row,
              (forall row, row ∈ l -> source_row row = _row_number t) ->
              source_row <$> l = replicate (length l) (_row_number t)) as Hrep.
    { induction l as [|r l IHl]; intros Hl; [done|].
      cbn. rewrite (Hl r) by (by left). f_equal. apply IHl.
      intros row Hrow. apply Hl. by right. }
    apply Hrep. intros row Hrow. by eapply rows_for_fields.
Qed.

Lemma rows_for_pass_through amazon_transactions
    (results : gmap Z match_result) trans :
  (_row_number trans ∉ _row_number <$> amazon_transactions) \/
  results !! _row_number trans = None ->
  rows_for summarize_item_name format_2f run_processed_at
    amazon_transactions results trans
  = [pass_through_row run_processed_at trans].
Proof.
  unfold rows_for, rows_of_transaction. intros [Hout|Hres].
  - rewrite decide_False; [done|]. by rewrite elem_of_list_to_set.
  - rewrite Hres. by destruct (decide _).
Qed.

Lemma bind_singletons {A C} (f : A -> list C) (g : A -> C) (l : list A) :
  (forall x, x ∈ l -> f x = [g x]) -> l ≫= f = g <$> l.
Proof.
  induction l as [|x l IH]; intros Hf; [done|].
  rewrite bind_cons, fmap_cons, IH by (intros; apply Hf; by right).
  by rewrite (Hf x) by (by left).
Qed.

(** A ledger in which no transaction is an Amazon transaction with a match
    result passes through: the output is one row per transaction, in order,
    with Description and Amount unchanged and empty match columns. *)
Theorem ledger_passes_through
    (all_transactions amazon_transactions : list transaction)
    (results : gmap Z match_result) :
  (forall trans, trans ∈ all_transactions ->
     (_row_number trans ∉ _row_number <$> amazon_transactions) \/
     results !! _row_number trans = None) ->
  generate_output_rows summarize_item_name format_2f run_processed_at
    all_transactions amazon_transactions results
  = Ret (pass_through_row run_processed_at <$> all_transactions).
Proof.
  intros Hnone. unfold generate_output_rows. rewrite emit_rows_app.
  cbn [app]. f_equal. apply bind_singletons.
  intros trans Hin. apply rows_for_pass_through. by apply Hnone.
Qed.

(** A transaction matched with items gives one row per named item, in the
    order of the items, each with the summarized item name as Description,
    the item price signed like the transaction amount as Amount and the
    original description as [amazon_order_id]; items without a name give no
    row, so a matched transaction whose items are all unnamed leaves no row
    in the output. *)
Theorem matched_rows_per_named_item (amazon_transactions : list transaction)
    (results : gmap Z match_result) (trans : transaction)
    (items : list order) (confidence : Z) (status : string) :
  trans ∈ amazon_transactions ->
  results !! _row_number trans = Some (Some items, confidence, status) ->
  items <> [] ->
  status = "matched"%string \/ status = "low_confidence"%string ->
  exists original_amount,
    parse_amount (Some (Amount trans)) = Ret original_amount /\
    rows_for summarize_item_name format_2f run_processed_at
      amazon_transactions results trans
    = item_row summarize_item_name format_2f run_processed_at trans
        confidence status
        (if PyFloat.lt original_amount 0%float then "-" else "")%string
      <$> filter named items.
Proof.
  intros Hin Hres Hne Hstatus.
  destruct (parse_amount_returns (Some (Amount trans))) as [x Hx].
  exists x. split; [done|].
  unfold rows_for, rows_of_transaction.
  rewrite decide_True, Hres.
  2:{ apply elem_of_list_to_set, list_elem_of_fmap. eauto. }
  assert (has_matched_items (Some items) status = true) as ->.
  { destruct items; [done|]. by destruct Hstatus as [-> | ->]. }
  rewrite Hx. cbn [mbind exn_or_bind ret_or default].
  apply item_rows_named.
Qed.

End OutputRowFacts.

Lemma ledger_passes_through_witness :
  generate_output_rows (B := demo_builtins) (fun s => s) (fun _ => ""%string)
    "2024-04-01 09:00:00" [charge_41_03; bad_date_row] [] ∅
  = Ret (pass_through_row "2024-04-01 09:00:00"
           <$> [charge_41_03; bad_date_row]).
Proof.
  apply (ledger_passes_through (B := demo_builtins)).
  intros trans _. right. apply lookup_empty.
Defined.

Lemma matched_rows_per_named_item_witness :
  exists original_amount,
    parse_amount (B := demo_builtins) (Some (Amount charge_41_03))
    = Ret original_amount /\
    rows_for (B := demo_builtins) (fun s => s) (fun _ => ""%string)
      "2024-04-01 09:00:00" [charge_41_03]
      {[ 2 := (Some [shipment_41_03], 64, "matched"%string) ]} charge_41_03
    = item_row (fun s => s) (fun _ => ""%string) "2024-04-01 09:00:00"
        charge_41_03 64 "matched"
        (if PyFloat.lt original_amount 0%float then "-" else "")%string
      <$> filter named [shipment_41_03].
Proof.
  apply (matched_rows_per_named_item (B := demo_builtins)).
  - apply list_elem_of_here.
  - vm_compute. reflexivity.
  - discriminate.
  - by left.
Defined.

(** ** Column letters *)

Lemma column_letter_code m :
  0 <= m < 26 -> Z.of_N (N_of_ascii (ascii_of_N (Z.to_N (65 + m)))) = 65 + m.
Proof.
  intros Hm. rewrite N_ascii_embedding by lia. lia.
Qed.

Lemma column_letter_loop_number fuel col_index result :
  0 <= col_index <= Z.of_nat fuel ->
  column_number (column_letter_loop fuel col_index result)
  = column_number_from col_index result.
Proof.
  revert col_index result.
  induction fuel as [|fuel IH]; intros col_index result Hc.
  - cbn [column_letter_loop]. unfold column_number.
    by replace col_index with 0 by lia.
  - cbn [column_letter_loop]. destruct (Z.ltb_spec 0 col_index) as [Hpos|Hz].
    + cbv zeta. rewrite IH.
      2:{ split; [apply Z.div_pos; lia|].
          pose proof (Z.div_le_upper_bound (col_index - 1) 26 (col_index - 1)
                        ltac:(lia) ltac:(lia)). lia. }
      cbn [column_number_from].
      rewrite column_letter_code by (apply Z.mod_pos_bound; lia).
      f_equal. pose proof (Z.div_mod (col_index - 1) 26 ltac:(lia)). lia.
    + unfold column_number. by replace col_index with 0 by lia.
Qed.

Lemma column_letter_loop_capitals fuel col_index result :
  capital_letters result ->
  capital_letters (column_letter_loop fuel col_index result).
Proof.
  revert col_index result.
  induction fuel as [|fuel IH]; intros col_index result Hr; [done|].
  cbn [column_letter_loop]. destruct (0 <? col_index); [|done].
  cbv zeta. apply IH. cbn [capital_letters]. split; [|done].
  pose proof (Z.mod_pos_bound (col_index - 1) 26 ltac:(lia)).
  rewrite column_letter_code by done. lia.
Qed.

(** The letters of a column index of 0 or more are capital letters that
    read, as a numeral of base 26 with digits A = 1 to Z = 26, the index
    plus one: the loop ends with the whole index written out. *)
Theorem column_letter_number (col_index : Z) :
  0 <= col_index ->
  column_number (column_index_to_letter col_index) = col_index + 1 /\
  capital_letters (column_index_to_letter col_index).
Proof.
  intros Hc. unfold column_index_to_letter. cbv zeta. split.
  - rewrite column_letter_loop_number by lia. done.
  - by apply column_letter_loop_capitals.
Qed.

(** Two different column indices of 0 or more have different letters; every
    negative index gives the empty text. *)
Theorem column_letter_distinct (i j : Z) :
  (0 <= i -> 0 <= j ->
   column_index_to_letter i = column_index_to_letter j -> i = j) /\
  (i < 0 -> column_index_to_letter i = ""%string).
Proof.
  split.
  - intros Hi Hj Heq.
    assert (column_number (column_index_to_letter i) = i + 1) as Hni.
    { unfold column_index_to_letter. cbv zeta.
      rewrite column_letter_loop_number by lia. done. }
    assert (column_number (column_index_to_letter j) = j + 1) as Hnj.
    { unfold column_index_to_letter. cbv zeta.
      rewrite column_letter_loop_number by lia. done. }
    rewrite Heq in Hni. lia.
  - intros Hi. unfold column_index_to_letter. cbv zeta.
    destruct (Z.to_nat (i + 1)) as [|fuel]; [done|].
    cbn [column_letter_loop]. destruct (Z.ltb_spec 0 (i + 1)); [lia|done].
Qed.

Lemma column_letter_number_witness :
  column_number (column_index_to_letter 27) = 27 + 1 /\
  capital_letters (column_index_to_letter 27).
Proof. apply (column_letter_number 27). lia. Defined.

Lemma column_letter_distinct_witness :
  column_index_to_letter (-3) = ""%string.
Proof. apply (proj2 (column_letter_distinct (-3) 0)). lia. Defined.

(** Columns A, Z, AA and AB. *)
Lemma column_letters_of_0_25_26_27 :
  column_index_to_letter 0 = "A"%string /\
  column_index_to_letter 25 = "Z"%string /\
  column_index_to_letter 26 = "AA"%string /\
  column_index_to_letter 27 = "AB"%string.
Proof. repeat split; vm_compute; reflexivity. Qed.

(** ** Loading the ledger *)

Lemma load_row_number skip headers i row t :
  load_row skip headers i row = Some t -> _row_number t = i.
Proof.
  unfold load_row. cbv zeta.
  destruct (match cell_at (header_index "Processed_Flag" headers) _ with
            | Some _ => _ | None => _ end); [done|].
  destruct (_ && _); [done|]. by intros [= <-].
Qed.

Lemma load_rows_sorted skip headers rows i transactions :
  StronglySorted (fun a b => _row_number a < _row_number b) transactions ->
  (forall t, t ∈ transactions -> _row_number t < i) ->
  StronglySorted (fun a b => _row_number a < _row_number b)
    (load_rows skip headers i rows transactions) /\
  forall t, t ∈ load_rows skip headers i rows transactions ->
    t ∈ transactions \/
    exists k row, rows !! k = Some row /\
      load_row skip headers (i + Z.of_nat k) row = Some t.
Proof.
  revert i transactions.
  induction rows as [|row rows IH]; intros i transactions Hsorted Hlt.
  - cbn [load_rows]. split; [done|]. by left.
  - cbn [load_rows].
    destruct (load_row skip headers i row) as [t0|] eqn:Et.
    + pose proof (load_row_number _ _ _ _ _ Et) as Hn.
      destruct (IH (i + 1) (transactions ++ [t0])) as [Hs Hmem].
      * apply StronglySorted_app. split; [|split; [done|repeat constructor]].
        intros a b Ha ->%list_elem_of_singleton. specialize (Hlt a Ha). lia.
      * intros t [Ht| ->%list_elem_of_singleton]%elem_of_app;
          [specialize (Hlt t Ht)|]; lia.
      * split; [done|]. intros t Ht.
        destruct (Hmem t Ht)
          as [[?| ->%list_elem_of_singleton]%elem_of_app|(k & r & Hk & Hr)].
        -- by left.
        -- right. exists O, row. split; [done|].
           by replace (i + Z.of_nat 0) with i by lia.
        -- right. exists (S k), r. split; [done|].
           by replace (i + Z.of_nat (S k)) with (i + 1 + Z.of_nat k) by lia.
    + destruct (IH (i + 1) transactions) as [Hs Hmem]; [done| |].
      * intros t Ht. specialize (Hlt t Ht). lia.
      * split; [done|]. intros t Ht.
        destruct (Hmem t Ht) as [?|(k & r & Hk & Hr)]; [by left|].
        right. exists (S k), r. split; [done|].
        by replace (i + Z.of_nat (S k)) with (i + 1 + Z.of_nat k) by lia.
Qed.

Lemma dedup_sorted_sublist (transactions : list transaction) :
  StronglySorted (fun a b => _row_number a < _row_number b) transactions ->
  exists deduped,
    _dedup_plaid_transactions transactions = Ret deduped /\
    sublist deduped transactions.
Proof.
  intros Hsorted. unfold _dedup_plaid_transactions.
  destruct (group_transactions_keys transactions) as [Hnd Hkeys].
  destruct (pick_all_spec (group_transactions transactions) [])
    as (bs & -> & Hall).
  { intros k rows [-> Hne]%group_transactions_rows. split; [done|].
    by intros t [? _]%list_elem_of_filter. }
  cbn [mbind exn_or_bind app]. eexists. split; [done|].
  pose proof (py_sort_Permutation (before_by_key _row_number Z.ltb) bs)
    as Hperm.
  apply (sorted_sublist _row_number); [done|apply row_sort_sorted| |].
  - rewrite Hperm. by eapply chosen_NoDup.
  - intros r Hr. rewrite Hperm in Hr.
    pose proof (chosen_keys _ _ _ Hall Hr) as Hk.
    destruct (chosen_filter _ _ _ Hnd Hall Hk) as (rows & b & Hg & [Hb _] & Hf).
    assert (r ∈ filter (fun r0 => dedup_key r0 = dedup_key r) bs) as Hrf
      by (by apply list_elem_of_filter).
    rewrite Hf in Hrf. apply list_elem_of_singleton in Hrf. subst r.
    apply group_transactions_rows in Hg as [-> _].
    by apply list_elem_of_filter in Hb as [_ ?].
Qed.

Lemma sublist_sorted {A} (R : A -> A -> Prop) (l1 l2 : list A) :
  sublist l1 l2 -> StronglySorted R l2 -> StronglySorted R l1.
Proof.
  induction 1 as [|x l1 l2 Hsub IH|x l1 l2 Hsub IH]; intros Hs; [done| |].
  - apply StronglySorted_inv in Hs as [Hs Hx]. constructor; [by apply IH|].
    rewrite Forall_forall in *. intros y Hy. apply Hx.
    by eapply elem_of_sublist.
  - apply StronglySorted_inv in Hs as [Hs _]. by apply IH.
Qed.

Lemma load_transactions_spec skip headers rows :
  exists transactions,
    load_transactions skip (headers :: rows) = Ret transactions /\
    StronglySorted (fun a b => _row_number a < _row_number b) transactions /\
    forall t, t ∈ transactions ->
      exists k row, rows !! k = Some row /\
        load_row skip headers (2 + Z.of_nat k) row = Some t.
Proof.
  cbn [load_transactions]. cbv zeta.
  destruct (load_rows_sorted skip headers rows 2 []) as [Hsorted Hmem];
    [constructor|by intros t ?%elem_of_nil|].
  destruct (dedup_sorted_sublist _ Hsorted) as (deduped & -> & Hsub).
  exists deduped. split; [done|]. split.
  - by eapply sublist_sorted.
  - intros t Ht.
    destruct (Hmem t) as [?%elem_of_nil|?]; [by eapply elem_of_sublist|done..].
Qed.

(** [load_transactions] returns, and the transactions it returns come in
    strictly increasing row numbers, so that no two share one. The row number of a
    transaction is the number of its row in the sheet, the header being row
    1: it lies between 2 and the number of rows, and the transaction is
    what the loop body builds from that row. *)
Theorem loaded_row_numbers (SKIP_BLANK_CATEGORY_HINT : bool)
    (values : list (list string)) :
  exists transactions,
    load_transactions SKIP_BLANK_CATEGORY_HINT values = Ret transactions /\
    StronglySorted (fun a b => _row_number a < _row_number b) transactions /\
    NoDup (_row_number <$> transactions) /\
    forall t, t ∈ transactions ->
      2 <= _row_number t <= Z.of_nat (length values) /\
      exists row,
        values !! Z.to_nat (_row_number t - 1) = Some row /\
        load_row SKIP_BLANK_CATEGORY_HINT (default [] (head values))
          (_row_number t) row = Some t.
Proof.
  destruct values as [|headers rows].
  - exists []. split; [done|]. split; [constructor|]. split; [constructor|].
    intros t Ht. by apply elem_of_nil in Ht.
  - destruct (load_transactions_spec SKIP_BLANK_CATEGORY_HINT headers rows)
      as (transactions & Hret & Hsorted & Hmem).
    exists transactions. split; [done|]. split; [done|]. split.
    + clear Hret Hmem. induction Hsorted as [|t ts _ IH Hall]; [constructor|].
      rewrite fmap_cons. constructor; [|done].
      intros (t' & Heq & Hin)%list_elem_of_fmap.
      rewrite Forall_forall in Hall. specialize (Hall t' Hin). lia.
    + intros t Ht. destruct (Hmem t Ht) as (k & row & Hk & Hrow).
      pose proof (load_row_number _ _ _ _ _ Hrow) as Hn.
      pose proof (lookup_lt_Some _ _ _ Hk) as Hlt.
      cbn [length head default]. split; [lia|].
      exists row. rewrite Hn.
      replace (Z.to_nat (2 + Z.of_nat k - 1)) with (S k) by lia.
      done.
Qed.

(** A row of the sheet whose Processed_Flag cell reads TRUE or 1, in any
    case and between any blanks, is not loaded: no returned transaction
    carries its row number. *)
Theorem processed_rows_not_loaded (SKIP_BLANK_CATEGORY_HINT : bool)
    (headers : list string) (rows : list (list string)) (k col : nat)
    (row : list string) (cell : string) :
  rows !! k = Some row ->
  header_index "Processed_Flag" headers = Some col ->
  row !! col = Some cell ->
  PyStr.upper (PyStr.strip cell) = "TRUE"%string \/
  PyStr.upper (PyStr.strip cell) = "1"%string ->
  exists transactions,
    load_transactions SKIP_BLANK_CATEGORY_HINT (headers :: rows)
    = Ret transactions /\
    forall t, t ∈ transactions -> _row_number t <> 2 + Z.of_nat k.
Proof.
  intros Hk Hcol Hcell Hflag.
  destruct (load_transactions_spec SKIP_BLANK_CATEGORY_HINT headers rows)
    as (transactions & Hret & _ & Hmem).
  exists transactions. split; [done|].
  intros t Ht Hn. destruct (Hmem t Ht) as (k' & row' & Hk' & Hrow).
  pose proof (load_row_number _ _ _ _ _ Hrow) as Hn'.
  assert (k' = k) as -> by lia.
  rewrite Hk in Hk'. injection Hk' as <-.
  revert Hrow. unfold load_row. cbv zeta. rewrite Hcol.
  unfold cell_at at 1. cbn [mbind option_bind].
  rewrite (lookup_app_l_Some _ _ _ _ Hcell).
  by destruct Hflag as [-> | ->].
Qed.

Lemma processed_rows_not_loaded_witness :
  exists transactions,
    load_transactions false
      [["Date"; "Processed_Flag"]; ["2024-03-10"; " true "]; ["2024-03-11"]]%string
    = Ret transactions /\
    forall t, t ∈ transactions -> _row_number t <> 2 + Z.of_nat 0.
Proof.
  apply (processed_rows_not_loaded false ["Date"; "Processed_Flag"]%string
           [["2024-03-10"; " true "]; ["2024-03-11"]]%string 0 1
           ["2024-03-10"; " true "]%string " true "%string).
  - reflexivity.
  - reflexivity.
  - reflexivity.
  - left. reflexivity.
Defined.

(** ** The run *)

Lemma exn_bind_ret {A C} (x : A) (f : A -> exn_or C) : (Ret x ≫= f) = f x.
Proof. done. Qed.


Lemma sorted_rows_NoDup (transactions : list transaction) :
  StronglySorted (fun a b => _row_number a < _row_number b) transactions ->
  NoDup (_row_number <$> transactions).
Proof.
  induction 1 as [|t ts _ IH Hall]; [constructor|].
  rewrite fmap_cons. constructor; [|done].
  intros (t' & Heq & Hin)%list_elem_of_fmap.
  rewrite Forall_forall in Hall. specialize (Hall t' Hin). lia.
Qed.

Lemma collect_dates_returns {B : PyBuiltins} (transactions : list transaction) :
  exists ds, collect_dates transactions = Ret ds.
Proof.
  induction transactions as [|t ts [ds IH]]; [by eexists|].
  cbn [collect_dates].
  destruct (parse_date_returns (Some (Date t))) as [d ->].
  cbn [mbind exn_or_bind]. rewrite IH. by eexists.
Qed.

Section MainFacts.
Context {B : PyBuiltins}.
Variable summarize_item_name : string -> string.
Variable format_2f : float -> string.
Variable run_processed_at : string.
Variable AMAZON_ACCOUNT : string.
Variable SKIP_BLANK_CATEGORY_HINT : bool.
Variable DEV_MODE : bool.
Variable py_int : float -> exn_or Z.




(** A loaded transaction that is left out of the Amazon transactions, be it
    no Amazon transaction or a later one with the Date and Description of an
    earlier one, is not lost: in a run that writes, its row is written as it
    was loaded, with empty match columns. *)
Theorem left_out_transaction_passes_through
    (values order_values : list (list string))
    (all_transactions : list transaction) (r : run) (trans : transaction) :
  load_transactions SKIP_BLANK_CATEGORY_HINT values = Ret all_transactions ->
  main summarize_item_name format_2f run_processed_at AMAZON_ACCOUNT
    SKIP_BLANK_CATEGORY_HINT DEV_MODE py_int values order_values
  = Ret (Some r) ->
  trans ∈ all_transactions ->
  trans ∉ deduplicate_transactions
            (filter_amazon_transactions AMAZON_ACCOUNT all_transactions) ->
  pass_through_row run_processed_at trans ∈ written r.
Proof.
  intros Hload Hmain Hin Hout.
  assert (NoDup (_row_number <$> all_transactions)) as Hnd.
  { destruct values as [|headers rows]; [injection Hload as <-; constructor|].
    destruct (load_transactions_spec SKIP_BLANK_CATEGORY_HINT headers rows)
      as (all' & Hload' & Hsorted & _).
    rewrite Hload in Hload'. injection Hload' as <-.
    by apply sorted_rows_NoDup. }
  remember (deduplicate_transactions
              (filter_amazon_transactions AMAZON_ACCOUNT all_transactions))
    as amazon_transactions eqn:Eam.
  assert (forall t, t ∈ amazon_transactions -> t ∈ all_transactions) as Hsub.
  { intros t Ht. rewrite Eam in Ht. unfold deduplicate_transactions in Ht.
    destruct (keep_if_unseen_state
                (filter_amazon_transactions AMAZON_ACCOUNT all_transactions))
      as (_ & _ & _ & Hs & _).
    apply (elem_of_sublist _ _ _ Ht) in Hs.
    revert Hs. clear. unfold filter_amazon_transactions.
    assert (forall acc,
              t ∈ foldl
                    (fun amazon_transactions trans =>
                       let account := PyStr.strip (Account trans) in
                       let description := PyStr.strip (Description trans) in
                       if negb (String.eqb (PyStr.upper account)
                                  (PyStr.upper AMAZON_ACCOUNT))
                       then amazon_transactions
                       else
                         let desc_upper := PyStr.upper description in
                         let is_amazon :=
                           existsb
                             (fun p => String.eqb desc_upper (PyStr.upper p)
                                       || PyStr.startswith desc_upper
                                            (PyStr.upper p))
                             AMAZON_DESCRIPTION_PATTERNS in
                         if is_amazon then amazon_transactions ++ [trans]
                         else amazon_transactions)
                    acc all_transactions ->
              t ∈ acc \/ t ∈ all_transactions) as H.
    { induction all_transactions as [|x l IH]; intros acc; [by left|].
      cbn [foldl]. cbv zeta. intros Ht. apply IH in Ht as [Ht|Ht].
      - destruct (negb _); [by left|]. destruct (existsb _ _); [|by left].
        apply elem_of_app in Ht as [?| ->%list_elem_of_singleton];
          [by left|right; by left].
      - right. by right. }
    intros Ht. by destruct (H [] Ht) as [?%elem_of_nil|?]. }
  assert (forall results,
            rows_for summarize_item_name format_2f run_processed_at
              amazon_transactions results trans
            = [pass_through_row run_processed_at trans]) as Hrows.
  { intros results. unfold rows_for, rows_of_transaction.
    rewrite decide_False; [done|].
    rewrite elem_of_list_to_set.
    intros (t' & Heq & Ht')%list_elem_of_fmap. apply Hout.
    by rewrite (NoDup_fmap_eq _row_number all_transactions trans t' Hnd Hin
                  (Hsub _ Ht') Heq). }
  revert Hmain. unfold main. rewrite Hload, exn_bind_ret.
  destruct all_transactions as [|t0 ts] eqn:Eall; [done|]. rewrite <- Eall in *.
  cbv zeta. rewrite <- Eam.
  destruct amazon_transactions as [|a0 as_] eqn:Ea.
  - unfold generate_output_rows. rewrite emit_rows_app.
    rewrite ?exn_bind_ret, app_nil_l. intros [= <-]. cbn [written].
    apply list_elem_of_bind. exists trans. split; [|done].
    rewrite Hrows. by left.
  - rewrite <- Ea in *.
    destruct (collect_dates_returns amazon_transactions) as [ds ->].
    rewrite exn_bind_ret.
    destruct (date_range ds) as [min_trans_date max_trans_date].
    destruct (load_parsed_orders py_int order_values min_trans_date
                max_trans_date) as [parsed_orders|e0]; [|done].
    rewrite exn_bind_ret.
    destruct parsed_orders as [|o0 os] eqn:Eo; [done|].
    rewrite <- Eo.
    rewrite match_all_unfold, exn_bind_ret.
    unfold generate_output_rows. rewrite emit_rows_app.
    rewrite ?exn_bind_ret, app_nil_l. intros [= <-]. cbn [written].
    apply list_elem_of_bind. exists trans. split; [|done].
    rewrite Hrows. by left.
Qed.

(** When no loaded transaction is of the account with an Amazon
    description, the whole ledger is passed through, one row per loaded
    transaction; the rows go to [write_output] with its default [dev_mode],
    which overwrites the sheet whatever the mode of the run, and no row is
    flagged. *)
Theorem ledger_without_amazon_rows (values order_values : list (list string))
    (all_transactions : list transaction) :
  load_transactions SKIP_BLANK_CATEGORY_HINT values = Ret all_transactions ->
  all_transactions <> [] ->
  (forall trans, trans ∈ all_transactions ->
     amazon_eligible AMAZON_ACCOUNT trans = false) ->
  main summarize_item_name format_2f run_processed_at AMAZON_ACCOUNT
    SKIP_BLANK_CATEGORY_HINT DEV_MODE py_int values order_values
  = Ret (Some (Run (pass_through_row run_processed_at <$> all_transactions)
                   true [])).
Proof.
  intros Hload Hne Hnone. unfold main. rewrite Hload, exn_bind_ret.
  destruct all_transactions as [|t0 ts] eqn:Eall; [done|]. rewrite <- Eall in *.
  cbv zeta.
  assert (filter_amazon_transactions AMAZON_ACCOUNT all_transactions = [])
    as ->.
  { clear Eall Hload Hne. unfold filter_amazon_transactions. cbv zeta.
    generalize (@nil transaction) at 2 3.
    induction all_transactions as [|t l IH]; intros acc; [done|].
    cbn [foldl]. rewrite description_patterns_any.
    pose proof (Hnone t ltac:(by left)) as Ht. unfold amazon_eligible in Ht.
    rewrite IH by (intros; apply Hnone; by right).
    destruct (String.eqb _ _); cbn [negb andb] in *; [|done].
    by rewrite Ht. }
  change (deduplicate_transactions []) with (@nil transaction).
  unfold generate_output_rows. rewrite emit_rows_app, exn_bind_ret, app_nil_l.
  rewrite (bind_singletons _ (pass_through_row run_processed_at)); [done|].
  intros trans _. apply rows_for_pass_through. right. apply lookup_empty.
Qed.

End MainFacts.

Lemma left_out_transaction_passes_through_witness :
  exists r,
    main (B := demo_builtins) (fun s => s) (fun _ => ""%string)
      "2024-04-01 09:00:00" "Chase Sapphire" false false
      (fun _ => Ret 1) demo_sheet demo_order_sheet = Ret (Some r) /\
    pass_through_row "2024-04-01 09:00:00" demo_row_3 ∈ written r.
Proof.
  eexists. split; [vm_compute; reflexivity|].
  apply (left_out_transaction_passes_through (B := demo_builtins)
           (fun s => s) (fun _ => ""%string) "2024-04-01 09:00:00"
           "Chase Sapphire" false false (fun _ => Ret 1)
           demo_sheet demo_order_sheet [demo_row_2; demo_row_3; demo_row_4]).
  - vm_compute. reflexivity.
  - vm_compute. reflexivity.
  - apply list_elem_of_further, list_elem_of_here.
  - replace (deduplicate_transactions _) with [demo_row_2]
      by (vm_compute; reflexivity).
    intros H. apply list_elem_of_singleton in H. discriminate H.
Defined.

Lemma ledger_without_amazon_rows_witness :
  main (B := demo_builtins) (fun s => s) (fun _ => ""%string)
    "2024-04-01 09:00:00" "Chase Sapphire" false false
    (fun _ => Ret 1) grocer_sheet demo_order_sheet
  = Ret (Some (Run (pass_through_row "2024-04-01 09:00:00" <$> [grocer_row])
                   true [])).
Proof.
  apply (ledger_without_amazon_rows (B := demo_builtins)).
  - vm_compute. reflexivity.
  - discriminate.
  - intros trans H. apply list_elem_of_singleton in H. subst trans.
    vm_compute. reflexivity.
Defined.

(** The run on the sheet with the two Amazon charges: the first is matched
    and flagged, the second and the grocery charge pass through. *)
Lemma demo_run :
  main (B := demo_builtins) (fun s => s) (fun _ => ""%string)
    "2024-04-01 09:00:00" "Chase Sapphire" false false
    (fun _ => Ret 1) demo_sheet demo_order_sheet
  = Ret (Some (Run
      [OutputRow "2024-03-10" "USB cable" "" "-$" "Chase Sapphire"
                 "AMAZON MKTPL*AB12" (CInt 64) "matched" 2
                 "2024-04-01 09:00:00";
       pass_through_row "2024-04-01 09:00:00" demo_row_3;
       pass_through_row "2024-04-01 09:00:00" demo_row_4]
      false [2])).
Proof. vm_compute. reflexivity. Qed.

(** ** Transactions without rows, and rows appended once *)

Section MissingRows.
Context {B : PyBuiltins}.
Variable summarize_item_name : string -> string.
Variable format_2f : float -> string.
Variable run_processed_at : string.

(** The only transactions that leave no row in the output are Amazon
    transactions matched, with high or low confidence, to a shipment none of
    whose items has a name. *)
Theorem transaction_without_rows (amazon_transactions : list transaction)
    (results : gmap Z match_result) (trans : transaction) :
  rows_for summarize_item_name format_2f run_processed_at
    amazon_transactions results trans = [] ->
  exists items confidence status,
    _row_number trans ∈ _row_number <$> amazon_transactions /\
    results !! _row_number trans = Some (Some items, confidence, status) /\
    items <> [] /\
    (status = "matched"%string \/ status = "low_confidence"%string) /\
    forall item, item ∈ items -> item_name item = ""%string.
Proof.
  unfold rows_for, rows_of_transaction.
  destruct (decide _) as [Hin|Hout]; [|done].
  destruct (results !! _row_number trans)
    as [[[items confidence] status]|] eqn:Hres; [|done].
  destruct (has_matched_items items status) eqn:Hm.
  - destruct (parse_amount_returns (Some (Amount trans))) as [x ->].
    cbn [mbind exn_or_bind ret_or]. rewrite item_rows_named.
    intros Hnil. apply fmap_nil_inv in Hnil.
    destruct items as [[|item items]|]; [done| |done].
    exists (item :: items), confidence, status.
    split; [by apply elem_of_list_to_set in Hin|].
    split; [done|]. split; [done|]. split.
    + cbn in Hm. apply orb_true_iff in Hm as [Hm|Hm];
        apply String.eqb_eq in Hm; auto.
    + intros it Hit. change (filter named (item :: items) = []) in Hnil.
      destruct (item_name it) as [|c name] eqn:Hname; [done|].
      assert (it ∈ filter named (item :: items)) as Hf.
      { apply list_elem_of_filter. split; [|done]. unfold named.
        by rewrite Hname. }
      rewrite Hnil in Hf. by apply elem_of_nil in Hf.
  - by destruct (get_known_amazon_pattern _) as [[|c name]|].
Qed.

End MissingRows.

Lemma transaction_without_rows_witness :
  exists items confidence status,
    _row_number charge_41_03 ∈ _row_number <$> [charge_41_03] /\
    ({[ 2 := (Some [unnamed_shipment], 64, "matched"%string) ]}
       : gmap Z match_result) !! _row_number charge_41_03
    = Some (Some items, confidence, status) /\
    items <> [] /\
    (status = "matched"%string \/ status = "low_confidence"%string) /\
    forall item, item ∈ items -> item_name item = ""%string.
Proof.
  apply (transaction_without_rows (B := demo_builtins) (fun s => s)
           (fun _ => ""%string) "2024-04-01 09:00:00").
  vm_compute. reflexivity.
Defined.

Lemma new_rows_filter (existing_source_rows : gset Z)
    (output_rows : list output_row) :
  new_rows existing_source_rows output_rows
  = filter (fun row => source_row row = 0 \/
                       source_row row ∉ existing_source_rows) output_rows.
Proof.
  unfold new_rows. cbv zeta.
  rewrite <- (app_nil_l (filter _ output_rows)).
  generalize (@nil output_row) at 2 3.
  induction output_rows as [|row rows IH]; intros acc; [by rewrite app_nil_r|].
  cbn [foldl]. rewrite IH, filter_cons.
  destruct (Z.eqb_spec (source_row row) 0) as [Hz|Hz]; cbn [negb andb].
  - rewrite decide_True by (by left). by rewrite <- app_assoc.
  - destruct (bool_decide_reflect (source_row row ∈ existing_source_rows)).
    + rewrite decide_False; [done|]. intros [?|?]; done.
    + rewrite decide_True by (by right). by rewrite <- app_assoc.
Qed.

(** In production mode [write_output] appends, in their order, exactly the
    rows whose source row is 0 or is not yet in the output sheet; so the
    rows of one source row are appended together or not at all, and no
    appended row repeats a source row of the sheet. *)
Theorem appended_rows_are_new (existing_source_rows : gset Z)
    (output_rows : list output_row) :
  new_rows existing_source_rows output_rows
  = filter (fun row => source_row row = 0 \/
                       source_row row ∉ existing_source_rows) output_rows /\
  (forall row row',
     row ∈ output_rows -> row' ∈ output_rows ->
     source_row row = source_row row' ->
     row ∈ new_rows existing_source_rows output_rows <->
     row' ∈ new_rows existing_source_rows output_rows) /\
  (forall row,
     row ∈ new_rows existing_source_rows output_rows ->
     source_row row <> 0 -> source_row row ∉ existing_source_rows).
Proof.
  split; [apply new_rows_filter|]. rewrite new_rows_filter. split.
  - intros row row' Hrow Hrow' Heq. rewrite !list_elem_of_filter, Heq.
    tauto.
  - intros row [[?|?] _]%list_elem_of_filter; done.
Qed.

(** Once the appended rows are in the sheet, a second pass over the same
    output appends nothing, provided no row has the source row 0. *)
Theorem second_append_is_empty (existing_source_rows : gset Z)
    (output_rows : list output_row) :
  (forall row, row ∈ output_rows -> source_row row <> 0) ->
  new_rows
    (existing_source_rows ∪
     list_to_set (source_row <$> new_rows existing_source_rows output_rows))
    output_rows = [].
Proof.
  intros Hnz. rewrite !new_rows_filter.
  match goal with |- ?l = [] => destruct l as [|z zs] eqn:Ez end; [done|].
  exfalso.
  assert (z ∈ z :: zs) as Hz by (by left).
  rewrite <- Ez in Hz. apply list_elem_of_filter in Hz as [Hnew Hin].
  destruct Hnew as [Hzero|Hnew]; [by apply (Hnz z)|].
  apply Hnew. destruct (decide (source_row z ∈ existing_source_rows)).
  - by apply elem_of_union_l.
  - apply elem_of_union_r, elem_of_list_to_set, list_elem_of_fmap.
    exists z. split; [done|]. apply list_elem_of_filter. split; [by right|done].
Qed.

Lemma second_append_is_empty_witness :
  new_rows
    ({[ 5 ]} ∪
     list_to_set
       (source_row <$>
        new_rows {[ 5 ]}
          [pass_through_row "2024-04-01 09:00:00" charge_41_03;
           pass_through_row "2024-04-01 09:00:00" second_charge_41_03]))
    [pass_through_row "2024-04-01 09:00:00" charge_41_03;
     pass_through_row "2024-04-01 09:00:00" second_charge_41_03] = [].
Proof.
  apply second_append_is_empty.
  intros row H.
  apply elem_of_cons in H as [->|H]; [discriminate|].
  apply list_elem_of_singleton in H. subst row. discriminate.
Defined.

(** ** Loading the parsed orders *)

Lemma foldl_min_le (l : list Z) (a x : Z) :
  x = a \/ x ∈ l -> foldl Z.min a l <= x.
Proof.
  assert (forall l a, foldl Z.min a l <= a) as Hinit.
  { clear. induction l as [|y l IH]; intros a; cbn [foldl]; [lia|].
    specialize (IH (Z.min a y)). lia. }
  intros [->|Hx]; [apply Hinit|].
  revert a. induction l as [|y l IH]; intros a; cbn [foldl];
    [by apply elem_of_nil in Hx|].
  apply elem_of_cons in Hx as [->|Hx]; [|by apply IH].
  specialize (Hinit l (Z.min a y)). lia.
Qed.

Lemma foldl_max_ge (l : list Z) (a x : Z) :
  x = a \/ x ∈ l -> x <= foldl Z.max a l.
Proof.
  assert (forall l a, a <= foldl Z.max a l) as Hinit.
  { clear. induction l as [|y l IH]; intros a; cbn [foldl]; [lia|].
    specialize (IH (Z.max a y)). lia. }
  intros [->|Hx]; [apply Hinit|].
  revert a. induction l as [|y l IH]; intros a; cbn [foldl];
    [by apply elem_of_nil in Hx|].
  apply elem_of_cons in Hx as [->|Hx]; [|by apply IH].
  specialize (Hinit l (Z.max a y)). lia.
Qed.

Lemma date_range_covers (trans_dates : list Z) (d : Z) :
  d ∈ trans_dates ->
  exists lo hi,
    date_range trans_dates = (Some lo, Some hi) /\
    lo <= d - (DATE_MATCHING_WINDOW_DAYS + 7) /\
    d + (DATE_MATCHING_WINDOW_DAYS + 7) <= hi.
Proof.
  destruct trans_dates as [|d0 ds]; [by intros ?%elem_of_nil|].
  intros Hd. cbn [date_range]. eexists _, _. split; [done|].
  assert (d = d0 \/ d ∈ ds) as Hd' by (by apply elem_of_cons).
  pose proof (foldl_min_le ds d0 d Hd').
  pose proof (foldl_max_ge ds d0 d Hd'). lia.
Qed.

Section OrderFacts.
Context {B : PyBuiltins}.
Variable py_int : float -> exn_or Z.

Lemma load_order_rows_elem min_date max_date rows acc orders :
  load_order_rows py_int min_date max_date rows acc = Ret orders ->
  forall o, o ∈ orders <->
    o ∈ acc \/
    exists row, row ∈ rows /\
      load_order_row py_int min_date max_date row = Ret (Some o).
Proof.
  revert acc. induction rows as [|row rows IH]; intros acc; cbn [load_order_rows].
  - intros [= <-] o. split; [by left|].
    by intros [?|(? & ?%elem_of_nil & _)].
  - destruct (load_order_row py_int min_date max_date row) as [r|e] eqn:Er;
      [|done].
    rewrite exn_bind_ret. intros Hrest o. rewrite (IH _ Hrest o). split.
    + intros [Hacc|(row' & Hin & Hrow')].
      * destruct r as [o'|]; [|by left].
        apply elem_of_app in Hacc as [?| ->%list_elem_of_singleton];
          [by left|].
        right. exists row. split; [by left|done].
      * right. exists row'. split; [by right|done].
    + intros [Hacc|(row' & [->|Hin]%elem_of_cons & Hrow')].
      * left. destruct r; [apply elem_of_app|]; auto.
      * left. rewrite Hrow' in Er. injection Er as <-.
        apply elem_of_app. right. by left.
      * right. eauto.
Qed.

Lemma nth_padded (row : list string) (n i : nat) :
  nth i (row ++ replicate n ""%string) ""%string = nth i row ""%string.
Proof.
  destruct (decide (i < length row)%nat) as [Hlt|Hge].
  - by rewrite app_nth1.
  - rewrite app_nth2 by lia. rewrite (nth_overflow row) by lia.
    destruct (decide (i - length row < n)%nat) as [Hlt|Hge'].
    + apply nth_lookup_Some with (d := ""%string).
      by apply lookup_replicate_2.
    + apply nth_overflow. rewrite length_replicate. lia.
Qed.

Lemma load_order_row_date min_date max_date row o :
  load_order_row py_int min_date max_date row = Ret (Some o) ->
  email_id o = nth 0 row ""%string /\
  _parse_order_date (nth 1 row ""%string) = Ret (_parsed_date o) /\
  outside_date_range min_date max_date (_parsed_date o) = false.
Proof.
  unfold load_order_row. destruct row as [|c0 row]; [done|].
  cbv zeta. rewrite !nth_padded.
  destruct (_parse_order_date _) as [parsed_date|] eqn:Ed; [|done].
  rewrite exn_bind_ret.
  destruct (outside_date_range min_date max_date parsed_date) eqn:Eout;
    [done|].
  destruct (_safe_float (nth 4 _ _)) as [shipment_total|]; [|done].
  rewrite exn_bind_ret.
  destruct (_safe_float (nth 6 _ _)) as [item_price|]; [|done].
  rewrite exn_bind_ret.
  destruct (_safe_int _ _) as [item_qty|]; [|done]. rewrite exn_bind_ret.
  intros [= <-]. done.
Qed.

(** Every record [load_parsed_orders] returns with a parsed date lies in
    the date range it was given: not before [min_date] and not after
    [max_date], where these are set; its [_parsed_date] is what
    [_parse_order_date] reads in the second cell of a row of the sheet. *)
Theorem loaded_orders_in_date_range (values : list (list string))
    (min_date max_date : option Z) (orders : list order) (o : order) :
  load_parsed_orders py_int values min_date max_date = Ret orders ->
  o ∈ orders ->
  (exists headers row,
     head values = Some headers /\ row ∈ tail values /\
     _parse_order_date (nth 1 row ""%string) = Ret (_parsed_date o)) /\
  forall d, _parsed_date o = Some d ->
    (forall m, min_date = Some m -> m <= d) /\
    (forall m, max_date = Some m -> d <= m).
Proof.
  destruct values as [|headers rows]; cbn [load_parsed_orders].
  - intros [= <-] Ho. by apply elem_of_nil in Ho.
  - intros Hload Ho.
    apply (load_order_rows_elem _ _ _ _ _ Hload) in Ho
      as [?%elem_of_nil|(row & Hrow & Ho)]; [done|].
    apply load_order_row_date in Ho as (_ & Hdate & Hout).
    split; [by exists headers, row|].
    intros d Hd. rewrite Hd in Hout. cbn in Hout.
    apply orb_false_iff in Hout as [Hmin Hmax].
    split; intros m ->; lia.
Qed.

(** The date range of a run loses no order a transaction can match: when
    the range is computed from transaction dates, a row of the order sheet
    whose date parses to a day within the matching window of 30 days of one
    of these dates is loaded, whenever [load_parsed_orders] returns. *)
Theorem orders_in_window_are_loaded (trans_dates : list Z)
    (headers : list string) (rows : list (list string))
    (orders : list order) (row : list string) (d order_date : Z) :
  load_parsed_orders py_int (headers :: rows) (date_range trans_dates).1
    (date_range trans_dates).2 = Ret orders ->
  d ∈ trans_dates ->
  row ∈ rows -> row <> [] ->
  _parse_order_date (nth 1 row ""%string) = Ret (Some order_date) ->
  Z.abs (d - order_date) <= DATE_MATCHING_WINDOW_DAYS ->
  exists o,
    o ∈ orders /\ email_id o = nth 0 row ""%string /\
    _parsed_date o = Some order_date.
Proof.
  intros Hload Hd Hrow Hne Hdate Hwin.
  destruct (date_range_covers trans_dates d Hd) as (lo & hi & Hr & Hlo & Hhi).
  rewrite Hr in Hload. clear Hr. cbn [fst snd load_parsed_orders] in Hload.
  pose proof (load_order_rows_elem _ _ _ _ _ Hload) as Helem.
  assert (exists r, load_order_row py_int (Some lo) (Some hi) row = Ret r)
    as [r Hr].
  { clear Helem. revert Hload. generalize (@nil order).
    induction rows as [|row' rows IH]; intros acc;
      [by apply elem_of_nil in Hrow|].
    cbn [load_order_rows].
    destruct (load_order_row py_int (Some lo) (Some hi) row') as [r'|] eqn:Er;
      [|done].
    apply elem_of_cons in Hrow as [->|Hrow]; [by eauto|].
    rewrite exn_bind_ret. by apply IH. }
  assert (exists o, r = Some o) as [o ->].
  { revert Hr. unfold load_order_row. destruct row as [|c0 row]; [done|].
    cbv zeta. rewrite !nth_padded, Hdate, exn_bind_ret.
    replace (outside_date_range (Some lo) (Some hi) (Some order_date))
      with false.
    2:{ symmetry. cbn. apply orb_false_iff.
        unfold DATE_MATCHING_WINDOW_DAYS in *. split; lia. }
    destruct (_safe_float (nth 4 _ _)) as [shipment_total|]; [|done].
    rewrite exn_bind_ret.
    destruct (_safe_float (nth 6 _ _)) as [item_price|]; [|done].
    rewrite exn_bind_ret.
    destruct (_safe_int _ _) as [item_qty|]; [|done]. rewrite exn_bind_ret.
    intros [= <-]. eauto. }
  exists o. split; [apply Helem; right; eauto|].
  apply load_order_row_date in Hr as (He & Hd' & _).
  split; [done|]. rewrite Hdate in Hd'. by injection Hd' as <-.
Qed.

End OrderFacts.

Lemma loaded_orders_in_date_range_witness :
  (exists headers row,
     head demo_order_sheet = Some headers /\ row ∈ tail demo_order_sheet /\
     _parse_order_date (B := demo_builtins) (nth 1 row ""%string)
     = Ret (_parsed_date shipment_41_03)) /\
  forall d, _parsed_date shipment_41_03 = Some d ->
    (forall m, Some 738918 = Some m -> m <= d) /\
    (forall m, Some 738992 = Some m -> d <= m).
Proof.
  apply (loaded_orders_in_date_range (B := demo_builtins) (fun _ => Ret 1)
           demo_order_sheet (Some 738918) (Some 738992) [shipment_41_03]).
  - vm_compute. reflexivity.
  - apply list_elem_of_here.
Defined.

Lemma orders_in_window_are_loaded_witness :
  exists o,
    o ∈ [shipment_41_03] /\ email_id o = "msg-1"%string /\
    _parsed_date o = Some 738953.
Proof.
  apply (orders_in_window_are_loaded (B := demo_builtins) (fun _ => Ret 1)
           [738955]
           ["email_id"; "email_date"; "email_type"; "order_number";
            "shipment_total"; "item_name"; "item_price"; "item_qty";
            "parse_status"; "processed_at"]%string
           [["msg-1"; "2024-03-08"; "shipment"; "111-222"; "41.03";
             "USB cable"; "41.03"; "1"; "parsed"]]%string
           [shipment_41_03]
           ["msg-1"; "2024-03-08"; "shipment"; "111-222"; "41.03";
            "USB cable"; "41.03"; "1"; "parsed"]%string 738955 738953).
  - vm_compute. reflexivity.
  - apply list_elem_of_here.
  - apply list_elem_of_here.
  - discriminate.
  - vm_compute. reflexivity.
  - vm_compute. discriminate.
Defined.

(** ** Flagging the processed rows *)

Lemma chunks_from_spec {A} (fuel chunk_size i : nat) (batch_data : list A) :
  (0 < chunk_size)%nat ->
  (length batch_data <= i + fuel)%nat ->
  concat (chunks_from fuel chunk_size i batch_data) = drop i batch_data /\
  Forall (fun chunk => (1 <= length chunk <= chunk_size)%nat)
         (chunks_from fuel chunk_size i batch_data).
Proof.
  intros Hpos. revert i.
  induction fuel as [|fuel IH]; intros i Hfuel; cbn [chunks_from].
  - split; [|constructor]. rewrite drop_ge by lia. done.
  - destruct (Nat.ltb_spec i (length batch_data)) as [Hlt|Hge].
    + destruct (IH (i + chunk_size)%nat ltac:(lia)) as [Hcat Hall].
      split.
      * cbn [concat]. rewrite Hcat, <- drop_drop. apply take_drop.
      * constructor; [|done].
        rewrite length_take, length_drop. lia.
    + split; [|constructor]. rewrite drop_ge by lia. done.
Qed.

Section FlagFacts.
Variable SOURCE_SHEET_NAME : string.
Variable py_str : Z -> string.

(** [update_processed_flags] sends every row number once: its batches,
    put end to end, are one update per row number, in order, each setting
    to TRUE the cell of that row in one and the same column; the column is
    that of the 'Processed_Flag' header or, when the header is missing, the
    first column after the headers. No batch is empty and none has more
    than 50 updates. *)
Theorem flag_updates_cover_rows (row_numbers : list Z)
    (headers : list string) :
  exists col : nat,
    (header_index "Processed_Flag" headers = Some col \/
     header_index "Processed_Flag" headers = None /\ col = length headers) /\
    concat (batches (update_processed_flags SOURCE_SHEET_NAME py_str
                       row_numbers headers))
    = (fun row_num =>
         (SOURCE_SHEET_NAME +:+ "!" +:+
          column_index_to_letter (Z.of_nat col) +:+ py_str row_num,
          "TRUE"%string)) <$> row_numbers /\
    Forall (fun chunk => (1 <= length chunk <= 50)%nat)
      (batches (update_processed_flags SOURCE_SHEET_NAME py_str
                  row_numbers headers)).
Proof.
  set (col := match header_index "Processed_Flag" headers with
              | Some idx => idx
              | None => length headers
              end).
  exists col. split.
  { unfold col. destruct (header_index _ _); [by left|by right]. }
  unfold update_processed_flags.
  destruct row_numbers as [|r rs] eqn:Er.
  - cbn. split; [done|constructor].
  - rewrite <- Er. clear Er.
    assert ((let '(processed_col_idx, _) :=
               match header_index "Processed_Flag" headers with
               | Some idx => (idx, @None string)
               | None =>
                   (length headers,
                    Some (SOURCE_SHEET_NAME +:+ "!" +:+
                          column_index_to_letter (Z.of_nat (length headers))
                          +:+ "1"))
               end in processed_col_idx) = col) as Hcol.
    { unfold col. by destruct (header_index _ _). }
    cbv zeta in *.
    destruct (match header_index "Processed_Flag" headers with
              | Some idx => (idx, None)
              | None => _
              end) as [processed_col_idx header_cell].
    subst processed_col_idx. cbn [batches].
    match goal with
    | |- context [chunks_from (length ?l) 50 0 ?l] =>
        destruct (chunks_from_spec (length l) 50 0 l ltac:(lia) ltac:(lia))
          as [Hcat Hall]
    end.
    split; [by rewrite Hcat|done].
Qed.

End FlagFacts.
